(** * intentkit: the agent runtime manager, embedded and verified

    Sources embedded here:
    - [app/core/engine.py]   ([agent_prompt], [initialize_agent],
                              [execute_agent], [clean_agent_memory])
    - [models/skill.py]      ([get], [save] and [clean_data] of
                              [AgentSkillData] and [ThreadSkillData])
    - [skills/enso/tokens.py] ([EnsoGetTokens._run], [EnsoGetTokens._arun])
    - [skills/twitter/get_timeline.py] ([TwitterGetTimeline._run],
                              [TwitterGetTimeline._arun])

    Python dictionaries used as maps ([agents], [agents_updated]) are
    [gmap]s; dictionaries whose iteration order is observed (the tool
    deduplication, [skill_sets], request parameters) are insertion-ordered
    association lists.  Everything outside the repository (the model
    vendor, the CDP toolkit, the skill resolvers, the prompt template, the
    SQL engine, the HTTP client, the Twitter client, the clock) is an oracle
    of the environment. *)

From stdpp Require Import gmap strings list pretty.
From Stdlib Require Import ZArith Ascii String.

Local Open Scope string_scope.
Local Open Scope Z_scope.

(** ** Python primitives *)

Module Py.

(** [bool(s)] for a [str]. *)
Definition truthy (s : string) : bool :=
match s with EmptyString => false | String _ _ => true end.

(** [bool(o)] for an [Optional[str]]: [None] and the empty string are falsy. *)
Definition truthy_opt (o : option string) : bool :=
match o with None => false | Some s => truthy s end.

(** [bool(l)] for an optional list: [None] and [[]] are falsy. *)
Definition truthy_list {A} (o : option (list A)) : bool :=
match o with None | Some [] => false | Some (_ :: _) => true end.

(** [str(o)]: [None] prints as ["None"]. *)
Definition str_opt (o : option string) : string :=
match o with None => "None" | Some s => s end.

(** [s.startswith(p)] *)
Definition startswith (s p : string) : bool := String.prefix p s.

(** [c.isspace()] on code points below 256. *)
Definition isspace (c : ascii) : bool :=
let n := nat_of_ascii c in
((9 <=? n) && (n <=? 13) || (28 <=? n) && (n <=? 32)
 || (n =? 133) || (n =? 160))%nat.

Fixpoint lstrip (s : string) : string :=
match s with
| EmptyString => EmptyString
| String c s' => if isspace c then lstrip s' else s
end.

Fixpoint rstrip (s : string) : string :=
match s with
| EmptyString => EmptyString
| String c s' =>
    match rstrip s' with
    | EmptyString => if isspace c then EmptyString else String c EmptyString
    | r => String c r
    end
end.

(** [s.strip()] *)
Definition strip (s : string) : string := rstrip (lstrip s).

(** [s.replace(c, r)] for a one-character needle. *)
Fixpoint replace (c : ascii) (r : string) (s : string) : string :=
match s with
| EmptyString => EmptyString
| String a s' =>
    if Ascii.eqb a c then r ++ replace c r s' else String a (replace c r s')
end.

(** [sep.join(l)] *)
Fixpoint join (sep : string) (l : list string) : string :=
match l with
| [] => ""
| [x] => x
| x :: l' => x ++ sep ++ join sep l'
end.

(** An insertion-ordered [dict]: [d[k] = v] keeps the position of a key
  that is already there and appends a new one. *)
Fixpoint dict_set {V} (d : list (string * V)) (k : string) (v : V)
: list (string * V) :=
match d with
| [] => [(k, v)]
| (k', v') :: d' =>
    if decide (k' = k) then (k', v) :: d' else (k', v') :: dict_set d' k v
end.

Fixpoint dict_get {V} (d : list (string * V)) (k : string) : option V :=
match d with
| [] => None
| (k', v') :: d' => if decide (k' = k) then Some v' else dict_get d' k
end.

Definition keys {V} (d : list (string * V)) : list string := d.*1.
Definition values {V} (d : list (string * V)) : list V := d.*2.

End Py.

(** ** Tools *)

(** A [BaseTool], as far as the engine looks at it: its [name], and the
    identity of the object ([tool_obj]) that tells two tools of one name
    apart. *)
Record BaseTool := mkTool { name : string; tool_obj : nat }.

Global Instance BaseTool_eq_dec : EqDecision BaseTool.
Proof. solve_decision. Defined.

(** [{tool.name: tool for tool in tools}] *)
Definition tools_by_name (tools : list BaseTool) : list (string * BaseTool) :=
  foldl (fun d tool => Py.dict_set d (name tool) tool) [] tools.

(** [list({tool.name: tool for tool in tools}.values())] *)
Definition dedup_tools (tools : list BaseTool) : list BaseTool :=
  Py.values (tools_by_name tools).

(** The tools of [tools] called [n], in resolution order. *)
Definition named (n : string) (tools : list BaseTool) : list BaseTool :=
  filter (fun t => name t = n) tools.

(** ** Exceptions and the state-and-exception monad *)

Inductive exn :=
| NoResultFound
| SQLAlchemyError (msg : string)
| HTTPException (status_code : Z) (detail : string)
| UnboundLocalError (var : string)
| AttributeError (msg : string)
| KeyError (key : string)
| OtherException (msg : string)
| CancelledError.

(** [isinstance(e, Exception)]: cancellation derives from [BaseException]
    only, and an [except Exception] clause lets it through. *)
Definition is_Exception (e : exn) : bool :=
  match e with CancelledError => false | _ => true end.

(** [isinstance(e, SQLAlchemyError)]; [NoResultFound] derives from it. *)
Definition is_SQLAlchemyError (e : exn) : bool :=
  match e with NoResultFound | SQLAlchemyError _ => true | _ => false end.

(** [str(e)] *)
Definition str_exn (e : exn) : string :=
  match e with
  | NoResultFound => "No row was found when one was required"
  | SQLAlchemyError m => m
  | HTTPException c d => pretty c ++ ": " ++ d
  | UnboundLocalError v =>
      "cannot access local variable '" ++ v
      ++ "' where it is not associated with a value"
  | AttributeError m => m
  | KeyError k => "'" ++ k ++ "'"
  | OtherException m => m
  | CancelledError => ""
  end.

Inductive result (A : Type) :=
| Ok (a : A)
| Raise (e : exn).
Arguments Ok {A} a.
Arguments Raise {A} e.

(** A computation over a mutable state [S]: the state survives a raise, as
    the mutations a Python function made before it raised do. *)
Definition M (S A : Type) : Type := S -> result A * S.

Definition ret {S A} (a : A) : M S A := fun s => (Ok a, s).

Definition bind {S A B} (m : M S A) (k : A -> M S B) : M S B :=
  fun s => match m s with
           | (Ok a, s') => k a s'
           | (Raise e, s') => (Raise e, s')
           end.

Definition raise {S A} (e : exn) : M S A := fun s => (Raise e, s).

Definition lift {S A} (r : result A) : M S A := fun s => (r, s).

Definition get {S} : M S S := fun s => (Ok s, s).

Definition modify {S} (f : S -> S) : M S unit := fun s => (Ok tt, f s).

(** [try: m  except ...: h e]; the handler declines ([None]) the exceptions
    its clauses do not name, which then propagate. *)
Definition try_except {S A} (m : M S A) (h : exn -> option (M S A)) : M S A :=
  fun s => match m s with
           | (Ok a, s') => (Ok a, s')
           | (Raise e, s') =>
               match h e with
               | Some k => k s'
               | None => (Raise e, s')
               end
           end.

Declare Scope py_scope.
Delimit Scope py_scope with py.
Notation "x <- m ;; k" := (bind m (fun x => k))
  (at level 20, m at level 99, k at level 200, only parsing) : py_scope.
Notation "' p <- m ;; k" := (bind m (fun p => k))
  (at level 20, p pattern, m at level 99, k at level 200, only parsing)
  : py_scope.
Notation "m ;;; k" := (bind m (fun _ => k))
  (at level 100, k at level 200, right associativity, only parsing) : py_scope.

(** [for x in l: acc = body(acc, x)] *)
Fixpoint for_in {S A B} (l : list A) (body : B -> A -> M S B) (acc : B)
  : M S B :=
  match l with
  | [] => ret acc
  | x :: l' => bind (body acc x) (for_in l' body)
  end.

(** ** The data of [app/core/engine.py] *)

(** A float is carried from the configuration to the model binding and never
    computed on: it is kept as its 64-bit pattern. *)
Abbreviation pyfloat := Z.

(** A [datetime], as microseconds since the epoch. *)
Abbreviation datetime := Z.

(** The JSON-like values of the loosely typed option fields. *)
Inductive PyVal :=
| PyNone
| PyStr (s : string)
| PyInt (z : Z)
| PyStrList (l : list string).

Definition PyDict := list (string * PyVal).

(** [d.get(k, default)] *)
Definition dict_get_default (d : PyDict) (k : string) (default : PyVal) : PyVal :=
  match Py.dict_get d k with Some v => v | None => default end.

Module Agent.
(** [models.agent.Agent], the fields the engine reads. *)
Record t := mk {
name : option string;
model : string;
prompt : option string;
prompt_append : option string;
temperature : pyfloat;
frequency_penalty : pyfloat;
presence_penalty : pyfloat;
cdp_enabled : bool;
cdp_skills : option (list string);
cdp_wallet_data : option string;
cdp_network_id : option string;
enso_enabled : bool;
enso_skills : option (list string);
enso_config : option PyDict;
twitter_skills : option (list string);
twitter_config : option PyDict;
crestal_skills : option (list string);
common_skills : option (list string);
skill_sets : option (list (string * PyVal));
updated_at : datetime;
}.
End Agent.

Module AgentData.
(** [models.agent.AgentData], the runtime data kept beside the config. *)
Record t := mk {
cdp_wallet_data : option string;
twitter_id : option string;
twitter_username : option string;
twitter_name : option string;
}.
Definition empty : t := mk None None None None.
End AgentData.

(** [app.config.config] *)
Record Config := mkConfig {
  system_prompt : option string;
  openai_api_key : string;
  deepseek_api_key : string;
  cdp_api_key_name : string;
  cdp_api_key_private_key : string;
  rpc_base_mainnet : string;
  debug_checkpoint : bool;
}.

(** The keyword arguments [ChatOpenAI] is built with. *)
Record ChatOpenAI := mkChatOpenAI {
  model_name : string;
  openai_api_key_ : string;
  openai_api_base : option string;
  llm_frequency_penalty : pyfloat;
  llm_presence_penalty : pyfloat;
  llm_temperature : pyfloat;
  timeout : Z;
}.

(** The [values] dictionary [CdpAgentkitWrapper] is built from; the key
    [cdp_wallet_data] is optional. *)
Record CdpValues := mkCdpValues {
  v_cdp_api_key_name : string;
  v_cdp_api_key_private_key : string;
  v_network_id : option string;
  v_cdp_wallet_data : option string;
}.

(** A [CdpAgentkitWrapper]: its [wallet] object and what [export_wallet()]
    returns. *)
Record CdpAgentkitWrapper := mkWrapper {
  wallet : nat;
  export_wallet : string;
}.

(** The checkpointer: [AsyncPostgresSaver(get_pool())], one shared pool. *)
Inductive Checkpointer := AsyncPostgresSaver.

(** A [CompiledGraph] is what [create_agent] was called with, and the
    identity of the object it returned. *)
Record CompiledGraph := mkGraph {
  graph_obj : nat;
  graph_aid : string;
  llm : ChatOpenAI;
  tools : list BaseTool;
  checkpointer : Checkpointer;
  state_modifier : list (string * string);
  graph_debug : bool;
  input_token_limit : Z;
}.

Inductive LogRecord :=
| LogInfo (msg : string)
| LogWarning (msg : string)
| LogError (msg : string).

(** [abstracts.engine.AgentMessageInput] *)
Record AgentMessageInput := mkMessage {
  text : string;
  images : list string;
}.

(** A message of the thread's history, as the debug block prints it. *)
Record HistoryMessage := mkHistory {
  msg_type : string;
  msg_content : string;
}.

(** One streamed step: a dictionary that may hold the key ["agent"], the key
    ["tools"], both or neither; the value kept is
    [chunk[key]["messages"][0].content]. *)
Record Chunk := mkChunk {
  chunk_agent : option string;
  chunk_tools : option string;
}.

(** [time.perf_counter()] and the [:.3f] rendering of a difference of two
    readings. *)
Record Clock := mkClock {
  pytime : Type;
  reading : nat -> pytime;
  minus : pytime -> pytime -> pytime;
  fmt3f : pytime -> string;
}.

(** What lies outside the engine. *)
Record Env := mkEnv {
  config : Config;
  clock : Clock;
  (** [Agent.get(aid)] *)
  Agent_get : string -> option Agent.t;
  (** [AgentStore(aid).get_config()] *)
  get_config : string -> result Agent.t;
  (** a fault of [AgentStore(aid).get_data()], if it has one *)
  get_data_fault : string -> option exn;
  CdpAgentkitWrapper_init : CdpValues -> result CdpAgentkitWrapper;
  (** [CdpToolkit.from_cdp_agentkit_wrapper(agentkit).get_tools()] *)
  cdp_get_tools : CdpAgentkitWrapper -> result (list BaseTool);
  (** [get_enso_skill(skill, api_token, main_tokens, wallet, rpc, ..., aid)] *)
  get_enso_skill :
    string -> PyVal -> PyVal -> option nat -> string -> string -> result BaseTool;
  (** [TwitterClient(aid, agent_store, twitter_config)] *)
  TwitterClient : string -> PyDict -> result nat;
  (** [get_twitter_skill(skill, twitter_client, skill_store, aid, agent_store)] *)
  get_twitter_skill : string -> nat -> string -> result BaseTool;
  get_crestal_skill : string -> result BaseTool;
  get_common_skill : string -> result BaseTool;
  get_skill_set : string -> PyVal -> result (list BaseTool);
  (** [ChatPromptTemplate.from_messages(prompt_array)], which is LangChain's:
      it raises when it cannot read one of the messages as a template *)
  ChatPromptTemplate_from_messages : list (string * string) -> result unit;
  (** [executor.aget_state(stream_config)]: the ["messages"] of the
      snapshot, when it has values and that key *)
  aget_state : CompiledGraph -> string -> result (option (list HistoryMessage));
  (** [executor.astream(input, stream_config)]: the chunks it yields, and
      the exception that ends the iteration if one does *)
  astream :
    CompiledGraph -> AgentMessageInput -> string -> list Chunk * option exn;
}.

(** The process-wide state: the two module-level dictionaries, the
    runtime-data store behind [AgentStore], the log, and three counters that
    the code does not have and the proofs read: the calls of
    [initialize_agent], the [CompiledGraph] objects allocated, and the clock
    readings taken. *)
Record EngineState := mkState {
  agents : gmap string CompiledGraph;
  agents_updated : gmap string datetime;
  agent_data_store : gmap string AgentData.t;
  log : list LogRecord;
  builds : nat;
  next_obj : nat;
  wallet_writes : list (string * string);
  ticks : nat;
}.

Definition set_agents (f : gmap string CompiledGraph -> gmap string CompiledGraph)
  (s : EngineState) : EngineState :=
  mkState (f (agents s)) (agents_updated s) (agent_data_store s) (log s)
          (builds s) (next_obj s) (wallet_writes s) (ticks s).

Definition set_agents_updated (f : gmap string datetime -> gmap string datetime)
  (s : EngineState) : EngineState :=
  mkState (agents s) (f (agents_updated s)) (agent_data_store s) (log s)
          (builds s) (next_obj s) (wallet_writes s) (ticks s).

Definition set_agent_data_store
  (f : gmap string AgentData.t -> gmap string AgentData.t)
  (s : EngineState) : EngineState :=
  mkState (agents s) (agents_updated s) (f (agent_data_store s)) (log s)
          (builds s) (next_obj s) (wallet_writes s) (ticks s).

Definition set_log (f : list LogRecord -> list LogRecord) (s : EngineState)
  : EngineState :=
  mkState (agents s) (agents_updated s) (agent_data_store s) (f (log s))
          (builds s) (next_obj s) (wallet_writes s) (ticks s).

Definition set_builds (f : nat -> nat) (s : EngineState) : EngineState :=
  mkState (agents s) (agents_updated s) (agent_data_store s) (log s)
          (f (builds s)) (next_obj s) (wallet_writes s) (ticks s).

Definition set_next_obj (f : nat -> nat) (s : EngineState) : EngineState :=
  mkState (agents s) (agents_updated s) (agent_data_store s) (log s)
          (builds s) (f (next_obj s)) (wallet_writes s) (ticks s).

Definition set_wallet_writes
  (f : list (string * string) -> list (string * string)) (s : EngineState)
  : EngineState :=
  mkState (agents s) (agents_updated s) (agent_data_store s) (log s)
          (builds s) (next_obj s) (f (wallet_writes s)) (ticks s).

Definition set_ticks (f : nat -> nat) (s : EngineState) : EngineState :=
  mkState (agents s) (agents_updated s) (agent_data_store s) (log s)
          (builds s) (next_obj s) (wallet_writes s) (f (ticks s)).

Definition logger (r : LogRecord) : M EngineState unit :=
  modify (set_log (fun l => (l ++ [r])%list)).

(** [time.perf_counter()] *)
Definition perf_counter (E : Env) : M EngineState (pytime (clock E)) :=
  fun s => (Ok (reading (clock E) (ticks s)), set_ticks S s).

Module AgentStore.

(** Modelled from the spec: [app.core.agent.AgentStore] is not among the
  sources.  [getData(identity) -> AgentRuntimeData] reads the
  runtime-data store, which has no record for an agent never written
  to. *)
Definition get_data (E : Env) (aid : string)
: M EngineState (option AgentData.t) :=
match get_data_fault E aid with
| Some e => raise e
| None => fun s => (Ok (agent_data_store s !! aid), s)
end.

(** Modelled from the spec: [setData(identity, partialFields)], called
  with the one field [cdp_wallet_data]: the stored record gets that
  field and keeps the others, and is created when there is none. *)
Definition set_data (aid : string) (cdp_wallet_data : string)
: M EngineState unit :=
modify (fun s =>
  let old := default AgentData.empty (agent_data_store s !! aid) in
  let new := AgentData.mk (Some cdp_wallet_data) (AgentData.twitter_id old)
               (AgentData.twitter_username old) (AgentData.twitter_name old) in
  set_wallet_writes (fun w => (w ++ [(aid, cdp_wallet_data)])%list)
    (set_agent_data_store (insert aid new) s)).

End AgentStore.

(** ** [agent_prompt] *)

Definition nl : string := String "010"%char EmptyString.
Definition dquote : string := String "034"%char EmptyString.
Definition indent8 : string := "        ".
Definition indent12 : string := "            ".

Definition cdp_default_prompt : string :=
  "You are a helpful agent that can interact onchain using the Coinbase Developer Platform AgentKit. "
  ++ "You are empowered to interact onchain using your tools. If you ever need funds, you can request "
  ++ "them from the faucet if you are on network ID 'base-mainnet'. If not, you can provide your wallet "
  ++ "details and request funds from the user. Before executing your first action, get the wallet details "
  ++ "to see what network you're on. If there is a 5XX (internal) HTTP error code, ask the user to try "
  ++ "again later. If someone asks you to do something you can't do with your currently available tools, "
  ++ "you must say so, and encourage them to implement it themselves using the CDP SDK + Agentkit, "
  ++ "recommend they go to docs.cdp.coinbase.com for more information. Be concise and helpful with your "
  ++ "responses. Refrain from restating your tools' descriptions unless it is explicitly requested.".

Definition cdp_wallet_prompt : string :=
  nl ++ nl
  ++ "Wallet addresses are public information.  If someone asks for your default wallet, "
  ++ nl ++ indent12
  ++ "current wallet, personal wallet, crypto wallet, or wallet public address, don't use any address in message history,"
  ++ nl ++ indent12
  ++ "you must use the " ++ dquote ++ "get_wallet_details" ++ dquote
  ++ " tool to retrieve your wallet address every time."
  ++ nl ++ nl.

Definition enso_prompt : string :=
  nl ++ nl
  ++ "You are integrated with the Enso API. You can use enso_get_tokens to retrieve token information,"
  ++ nl ++ indent8
  ++ "including APY, Protocol Slug, Symbol, Address, Decimals, and underlying tokens. When interacting with token amounts,"
  ++ nl ++ indent8
  ++ "ensure to multiply input amounts by the token's decimal places and divide output amounts by the token's decimals. "
  ++ nl ++ indent8
  ++ "Utilize enso_route_shortcut to find the best swap or deposit route. Set broadcast_request to True only when the "
  ++ nl ++ indent8
  ++ "user explicitly requests a transaction broadcast. Insufficient funds or insufficient spending approval can cause "
  ++ nl ++ indent8
  ++ "Route Shortcut broadcasts to fail. To avoid this, use the enso_broadcast_wallet_approve tool that requires explicit "
  ++ nl ++ indent8
  ++ "user confirmation before broadcasting any approval transactions for security reasons."
  ++ nl ++ nl.

Definition agent_prompt (cfg : Config) (agent : Agent.t) : string :=
  let prompt := "" in
  let prompt :=
    match system_prompt cfg with
    | Some p => if Py.truthy p then prompt ++ p ++ nl ++ nl else prompt
    | None => prompt
    end in
  let prompt :=
    match Agent.name agent with
    | Some n =>
        if Py.truthy n then prompt ++ "Your name is " ++ n ++ "." ++ nl ++ nl
        else prompt
    | None => prompt
    end in
  let prompt :=
    if Py.truthy_opt (Agent.prompt agent)
    then prompt ++ default "" (Agent.prompt agent)
    else if Agent.cdp_enabled agent then prompt ++ cdp_default_prompt
    else prompt in
  let prompt :=
    if Agent.cdp_enabled agent then prompt ++ cdp_wallet_prompt else prompt in
  let prompt :=
    if Agent.enso_enabled agent then prompt ++ enso_prompt else prompt in
  prompt.

(** [s.replace("{", "{{").replace("}", "}}")] *)
Definition escape_braces (s : string) : string :=
  Py.replace "}"%char "}}" (Py.replace "{"%char "{{" s).

(** ** [initialize_agent] *)

Local Open Scope py_scope.

Definition is_deepseek (agent : Agent.t) : bool :=
  Py.startswith (Agent.model agent) "deepseek".

(** Lines 132-154: the model binding and the input-token budget. *)
Definition initialize_llm (cfg : Config) (agent : Agent.t) : ChatOpenAI * Z :=
  let input_token_limit := 120000 in
  if is_deepseek agent then
    (mkChatOpenAI (Agent.model agent) (deepseek_api_key cfg)
       (Some "https://api.deepseek.com")
       (Agent.frequency_penalty agent) (Agent.presence_penalty agent)
       (Agent.temperature agent) 180,
     60000)
  else
    (mkChatOpenAI (Agent.model agent) (openai_api_key cfg) None
       (Agent.frequency_penalty agent) (Agent.presence_penalty agent)
       (Agent.temperature agent) 180,
     input_token_limit).

(** [agent_data and agent_data.cdp_wallet_data] *)
Definition stored_wallet (agent_data : option AgentData.t) : option string :=
  match agent_data with
  | Some d => if Py.truthy_opt (AgentData.cdp_wallet_data d)
              then AgentData.cdp_wallet_data d else None
  | None => None
  end.

(** Lines 165-174: the [values] the wrapper is built from. *)
Definition cdp_values (cfg : Config) (agent : Agent.t)
  (agent_data : option AgentData.t) : CdpValues :=
  mkCdpValues (cdp_api_key_name cfg) (cdp_api_key_private_key cfg)
    (Agent.cdp_network_id agent)
    (match stored_wallet agent_data with
     | Some w => Some w
     | None => if Py.truthy_opt (Agent.cdp_wallet_data agent)
               then Agent.cdp_wallet_data agent else None
     end).

(** Lines 162-189.  The local [agentkit] is bound only when the CDP branch
    ran: [None] is the unbound local. *)
Definition load_cdp (E : Env) (aid : string) (agent : Agent.t)
  (agent_data : option AgentData.t) (tools : list BaseTool)
  : M EngineState (option CdpAgentkitWrapper * list BaseTool) :=
  if Agent.cdp_enabled agent then
    let values := cdp_values (config E) agent agent_data in
    agentkit <- lift (CdpAgentkitWrapper_init E values) ;;
    (match stored_wallet agent_data with
     | None => AgentStore.set_data aid (export_wallet agentkit)
     | Some _ => ret tt
     end) ;;;
    cdp_tools <- lift (cdp_get_tools E agentkit) ;;
    let cdp_tools :=
      if Py.truthy_list (Agent.cdp_skills agent)
      then filter (fun tool => name tool ∈ default [] (Agent.cdp_skills agent))
                  cdp_tools
      else cdp_tools in
    ret (Some agentkit, (tools ++ cdp_tools)%list)
  else ret (None, tools).

(** [bool(d)] for an optional dictionary. *)
Definition truthy_dict (o : option PyDict) : bool :=
  match o with None | Some [] => false | Some (_ :: _) => true end.

(** Lines 193-207: one turn of the Enso loop.  The arguments are evaluated
    before the call, and reading the unbound [agentkit] raises inside the
    [try]. *)
Definition load_enso_skill (E : Env) (aid : string) (enso_config : PyDict)
  (agentkit : option CdpAgentkitWrapper) (tools : list BaseTool)
  (skill : string) : M EngineState (list BaseTool) :=
  try_except
    (wallet_arg <- match agentkit with
                   | None => raise (UnboundLocalError "agentkit")
                   | Some k => ret (Some (wallet k))
                   end ;;
     s <- lift (get_enso_skill E skill
                  (dict_get_default enso_config "api_token" PyNone)
                  (dict_get_default enso_config "main_tokens" (PyStrList []))
                  wallet_arg (rpc_base_mainnet (config E)) aid) ;;
     ret (tools ++ [s])%list)
    (fun e => if is_Exception e
              then Some (logger (LogWarning (str_exn e)) ;;; ret tools)
              else None).

(** Lines 191-207. *)
Definition load_enso (E : Env) (aid : string) (agent : Agent.t)
  (agentkit : option CdpAgentkitWrapper) (tools : list BaseTool)
  : M EngineState (list BaseTool) :=
  if Py.truthy_list (Agent.enso_skills agent)
     && truthy_dict (Agent.enso_config agent)
  then for_in (default [] (Agent.enso_skills agent))
         (load_enso_skill E aid (default [] (Agent.enso_config agent)) agentkit)
         tools
  else ret tools.

(** Lines 208-227; returns the tools and [twitter_prompt]. *)
Definition load_twitter (E : Env) (aid : string) (agent : Agent.t)
  (agent_data : option AgentData.t) (tools : list BaseTool)
  : M EngineState (list BaseTool * string) :=
  let twitter_prompt := "" in
  if Py.truthy_list (Agent.twitter_skills agent) then
    let twitter_config :=
      if truthy_dict (Agent.twitter_config agent)
      then default [] (Agent.twitter_config agent) else [] in
    twitter_client <- lift (TwitterClient E aid twitter_config) ;;
    tools <- for_in (default [] (Agent.twitter_skills agent))
               (fun tools skill =>
                  s <- lift (get_twitter_skill E skill twitter_client aid) ;;
                  ret (tools ++ [s])%list)
               tools ;;
    match agent_data with
    | None =>
        raise (AttributeError "'NoneType' object has no attribute 'twitter_id'")
    | Some d =>
        ret (tools,
             nl ++ nl ++ "Your twitter id is "
             ++ Py.str_opt (AgentData.twitter_id d)
             ++ ", never reply or retweet yourself. "
             ++ "Your twitter username is "
             ++ Py.str_opt (AgentData.twitter_username d) ++ ". " ++ nl
             ++ "Your twitter name is "
             ++ Py.str_opt (AgentData.twitter_name d) ++ ". " ++ nl)
    end
  else ret (tools, twitter_prompt).

(** Lines 229-237: the Crestal and the common skills, one resolver call per
    name, nothing caught. *)
Definition load_named (resolve : string -> result BaseTool)
  (skills : option (list string)) (tools : list BaseTool)
  : M EngineState (list BaseTool) :=
  if Py.truthy_list skills then
    for_in (default [] skills)
      (fun tools skill => s <- lift (resolve skill) ;; ret (tools ++ [s])%list)
      tools
  else ret tools.

(** Lines 239-242. *)
Definition load_skill_sets (E : Env) (agent : Agent.t) (tools : list BaseTool)
  : M EngineState (list BaseTool) :=
  if Py.truthy_list (Agent.skill_sets agent) then
    for_in (default [] (Agent.skill_sets agent))
      (fun tools '(skill_set, opts) =>
         ts <- lift (get_skill_set E skill_set opts) ;;
         ret (tools ++ ts)%list)
      tools
  else ret tools.

(** Lines 159-242: every capability in turn; the accumulated [tools] and
    [twitter_prompt]. *)
Definition load_skills (E : Env) (aid : string) (agent : Agent.t)
  (agent_data : option AgentData.t) : M EngineState (list BaseTool * string) :=
  let tools := [] in
  '(agentkit, tools) <- load_cdp E aid agent agent_data tools ;;
  tools <- load_enso E aid agent agentkit tools ;;
  '(tools, twitter_prompt) <- load_twitter E aid agent agent_data tools ;;
  tools <- load_named (get_crestal_skill E) (Agent.crestal_skills agent) tools ;;
  tools <- load_named (get_common_skill E) (Agent.common_skills agent) tools ;;
  tools <- load_skill_sets E agent tools ;;
  ret (tools, twitter_prompt).

(** Lines 251-273: the messages [ChatPromptTemplate] is built from. *)
Definition prompt_array (cfg : Config) (agent : Agent.t) (twitter_prompt : string)
  : list (string * string) :=
  let prompt := agent_prompt cfg agent in
  let escaped_prompt := escape_braces prompt in
  let prompt_array :=
    [("system", escaped_prompt); ("placeholder", "{messages}")] in
  let prompt_array :=
    if Py.truthy twitter_prompt then
      if is_deepseek agent then prompt_array
      else (prompt_array ++ [("system", twitter_prompt)])%list
    else prompt_array in
  let prompt_array :=
    if Py.truthy_opt (Agent.prompt_append agent) then
      let escaped_append := escape_braces (default "" (Agent.prompt_append agent)) in
      if is_deepseek agent then ("system", escaped_append) :: prompt_array
      else (prompt_array ++ [("system", escaped_append)])%list
    else prompt_array in
  prompt_array.

(** Modelled from the spec: [app.core.graph.create_agent] is not among the
    sources.  The compiled pipeline of the spec is a bound model, a
    finalized tool set, a rendered prompt template and a handle to
    persistent memory: [create_agent(aid, llm, tools=..., ...)] returns a
    new object that holds the arguments it was called with. *)
Definition create_agent (aid : string) (llm : ChatOpenAI) (tools : list BaseTool)
  (checkpointer : Checkpointer) (state_modifier : list (string * string))
  (debug : bool) (input_token_limit : Z) : M EngineState CompiledGraph :=
  fun s => (Ok (mkGraph (next_obj s) aid llm tools checkpointer state_modifier
                        debug input_token_limit),
            set_next_obj S s).

Definition initialize_agent (E : Env) (aid : string) : M EngineState unit :=
  modify (set_builds S) ;;;
  '(agent, agent_data) <-
    try_except
      (agent <- lift (get_config E aid) ;;
       agent_data <- AgentStore.get_data E aid ;;
       modify (set_agents_updated (insert aid (Agent.updated_at agent))) ;;;
       ret (agent, agent_data))
      (fun e =>
         match e with
         | NoResultFound => Some (raise (HTTPException 404 "Agent not found"))
         | SQLAlchemyError _ =>
             Some (logger (LogError (str_exn e)) ;;;
                   raise (HTTPException 500 (str_exn e)))
         | _ => None
         end) ;;
  let '(llm, input_token_limit) := initialize_llm (config E) agent in
  let memory := AsyncPostgresSaver in
  '(tools, twitter_prompt) <- load_skills E aid agent agent_data ;;
  let tools := dedup_tools tools in
  for_in tools
    (fun _ tool =>
       logger (LogInfo ("[" ++ aid ++ "] loaded tool: " ++ name tool)))
    tt ;;;
  let formatted_prompt := prompt_array (config E) agent twitter_prompt in
  lift (ChatPromptTemplate_from_messages E formatted_prompt) ;;;
  let tools := if is_deepseek agent then [] else tools in
  g <- create_agent aid llm tools memory formatted_prompt
         (debug_checkpoint (config E)) input_token_limit ;;
  modify (set_agents (insert aid g)).

(** ** [execute_agent] *)

Definition rule : string := "-------------------".

(** [f"\n------------------- {what} cost: {d:.3f} seconds\n"] *)
Definition cost_segment (E : Env) (what : string) (d : pytime (clock E))
  : string :=
  nl ++ rule ++ " " ++ what ++ " cost: " ++ fmt3f (clock E) d ++ " seconds" ++ nl.

Definition thinking : string := "[ Agent is thinking ... ]".
Definition agent_label : string := "[ Agent: ]" ++ nl.
Definition skill_label : string := "[ Skill running ... ]" ++ nl.

(** [f"Thread ID: {thread_id}\n\n-------------------\n"] *)
Definition thread_segment (thread_id : string) : string :=
  "Thread ID: " ++ thread_id ++ nl ++ nl ++ rule ++ nl.

(** The [[ Input: ]] segment: the text, then the image references one per
    line. *)
Definition input_segment (message : AgentMessageInput) : string :=
  "[ Input: ]" ++ nl ++ nl ++ " " ++ text message ++ nl
  ++ Py.join nl (images message) ++ nl ++ rule ++ nl.

(** [f"Total time cost: {total_time:.3f} seconds"] *)
Definition total_segment (E : Env) (total_time : pytime (clock E)) : string :=
  "Total time cost: " ++ fmt3f (clock E) total_time ++ " seconds".

(** Lines 369-383: the debug block, empty when taking it raised. *)
Definition debug_prompt (E : Env) (agent : Agent.t) (executor : CompiledGraph)
  (thread_id : string) : M EngineState string :=
  try_except
    (let resp_debug_append :=
       nl ++ "===================" ++ nl ++ nl ++ "[ system ]" ++ nl in
     let resp_debug_append := resp_debug_append ++ agent_prompt (config E) agent in
     snap <- lift (aget_state E executor thread_id) ;;
     let resp_debug_append :=
       match snap with
       | Some messages =>
           foldl (fun acc msg =>
                    acc ++ "[ " ++ msg_type msg ++ " ]" ++ nl
                        ++ msg_content msg ++ nl ++ nl)
                 resp_debug_append messages
       | None => resp_debug_append
       end in
     let resp_debug_append :=
       if Py.truthy_opt (Agent.prompt_append agent)
       then resp_debug_append ++ "[ system ]" ++ nl
            ++ default "" (Agent.prompt_append agent)
       else resp_debug_append in
     ret resp_debug_append)
    (fun e =>
       if is_Exception e
       then Some (logger (LogError ("failed to get debug prompt: " ++ str_exn e)) ;;;
                  ret "")
       else None).

(** Lines 388-406: the body of the streaming loop; the loop state is
    [(resp_debug, resp, last)]. *)
Definition on_chunk (E : Env)
  (acc : list string * list string * pytime (clock E)) (chunk : Chunk)
  : M EngineState (list string * list string * pytime (clock E)) :=
  let '(resp_debug, resp, last) := acc in
  match chunk_agent chunk with
  | Some v =>
      let '(resp_debug, resp) :=
        if Py.truthy v
        then ((resp_debug ++ [agent_label; v])%list, (resp ++ [v])%list)
        else ((resp_debug ++ [thinking])%list, resp) in
      now <- perf_counter E ;;
      let resp_debug :=
        (resp_debug ++ [cost_segment E "agent" (minus (clock E) now last)])%list in
      last <- perf_counter E ;;
      ret (resp_debug, resp, last)
  | None =>
      match chunk_tools chunk with
      | Some c =>
          let resp_debug := (resp_debug ++ [skill_label; c])%list in
          now <- perf_counter E ;;
          let resp_debug :=
            (resp_debug ++ [cost_segment E "skill" (minus (clock E) now last)])%list in
          last <- perf_counter E ;;
          ret (resp_debug, resp, last)
      | None => ret (resp_debug, resp, last)
      end
  end.

(** [aid in agents] *)
Definition cached (aid : string) (s : EngineState) : bool :=
  bool_decide (is_Some (agents s !! aid)).

(** Lines 334-338: [aid in agents and (aid not in agents_updated or
    agent.updated_at != agents_updated[aid])]. *)
Definition needs_reinit (aid : string) (agent : Agent.t) (s : EngineState)
  : bool :=
  cached aid s
  && match agents_updated s !! aid with
     | None => true
     | Some t => negb (Agent.updated_at agent =? t)
     end.

(** What [execute_agent] holds in its locals when it reaches line 359. *)
Record Prepared (E : Env) := mkPrepared {
  p_agent : Agent.t;
  p_executor : CompiledGraph;
  p_resp_debug : list string;
  p_start : pytime (clock E);
  p_last : pytime (clock E);
}.
Arguments mkPrepared {E}.
Arguments p_agent {E}.
Arguments p_executor {E}.
Arguments p_resp_debug {E}.
Arguments p_start {E}.
Arguments p_last {E}.

(** Lines 323-358 of [execute_agent]: the configuration is fetched, the
    cache is checked, the agent is built when it has to be, and the executor
    is read from [agents]. *)
Definition execute_agent_prepare (E : Env) (aid : string)
  (message : AgentMessageInput) (thread_id : string) : M EngineState (Prepared E) :=
  let resp_debug := [thread_segment thread_id] in
  start <- perf_counter E ;;
  let last := start in
  agent <- match Agent_get E aid with
           | Some a => ret a
           | None => raise (HTTPException 404 "Agent not found")
           end ;;
  s0 <- get ;;
  let reinit := needs_reinit aid agent s0 in
  (if reinit
   then logger (LogInfo ("Reinitializing agent " ++ aid ++ " due to updates"))
   else ret tt) ;;;
  let resp_debug := (resp_debug ++ [input_segment message])%list in
  '(resp_debug, last) <-
    (if negb (cached aid s0) || reinit then
       let resp_debug :=
         (resp_debug ++
          [if negb (cached aid s0) then "[ Agent cold start ... ]"
           else "[ Agent reinitialized ... ]"])%list in
       initialize_agent E aid ;;;
       now <- perf_counter E ;;
       let resp_debug :=
         (resp_debug ++ [cost_segment E "start" (minus (clock E) now last)])%list in
       last <- perf_counter E ;;
       ret (resp_debug, last)
     else ret (resp_debug, last)) ;;
  s1 <- get ;;
  executor <- match agents s1 !! aid with
              | Some g => ret g
              | None => raise (KeyError aid)
              end ;;
  ret (mkPrepared agent executor resp_debug start last).

(** Lines 385-406: the streaming loop; the exception that ends the stream
    is raised after the chunks before it were handled. *)
Definition stream (E : Env) (executor : CompiledGraph)
  (message : AgentMessageInput) (thread_id : string)
  (acc : list string * list string * pytime (clock E))
  : M EngineState (list string * list string * pytime (clock E)) :=
  let '(chunks, failure) := astream E executor message thread_id in
  acc <- for_in chunks (on_chunk E) acc ;;
  match failure with Some e => raise e | None => ret tt end ;;;
  ret acc.

Definition execute_agent (E : Env) (aid : string) (message : AgentMessageInput)
  (thread_id : string) (debug : bool) : M EngineState (list string) :=
  p <- execute_agent_prepare E aid message thread_id ;;
  let resp := [] in
  resp_debug_append <-
    (if debug
     then debug_prompt E (p_agent p) (p_executor p) thread_id
     else ret "") ;;
  '(resp_debug, resp, last) <-
    stream E (p_executor p) message thread_id (p_resp_debug p, resp, p_last p) ;;
  now <- perf_counter E ;;
  let total_time := minus (clock E) now (p_start p) in
  let resp_debug := (resp_debug ++ [total_segment E total_time])%list in
  if debug then ret (resp_debug ++ [resp_debug_append])%list
  else ret resp.

(** Builds one after the other, each in its own environment. *)
Definition run_builds (bs : list (Env * string)) (s : EngineState) : EngineState :=
  foldl (fun s b => (initialize_agent b.1 b.2 s).2) s bs.

(** ** The tables and SQL [LIKE] *)

Module Sql.

(** A [LIKE] pattern, read left to right: [%] is any run of characters,
  [_] any one character, and a backslash takes the character after it
  literally.  A pattern that ends in a lone backslash has no reading
  ([None]): no text matches it to its end. *)
Inductive token :=
| AnyRun
| AnyOne
| Lit (c : ascii).

Fixpoint tokens (p : string) : option (list token) :=
match p with
| EmptyString => Some []
| String c p' =>
    if Ascii.eqb c "\"%char then
      match p' with
      | EmptyString => None
      | String c' p'' => cons (Lit c') <$> tokens p''
      end
    else if Ascii.eqb c "%"%char then cons AnyRun <$> tokens p'
    else if Ascii.eqb c "_"%char then cons AnyOne <$> tokens p'
    else cons (Lit c) <$> tokens p'
end.

Fixpoint matches (ts : list token) (s : string) : bool :=
match ts with
| [] => match s with EmptyString => true | _ => false end
| AnyRun :: ts' =>
    (fix run (s : string) : bool :=
       matches ts' s
       || match s with
          | EmptyString => false
          | String _ s' => run s'
          end) s
| AnyOne :: ts' =>
    match s with
    | EmptyString => false
    | String _ s' => matches ts' s'
    end
| Lit c :: ts' =>
    match s with
    | EmptyString => false
    | String c' s' => Ascii.eqb c c' && matches ts' s'
    end
end.

(** [s LIKE p], when the matching does not raise: nothing is like a pattern
  that ends in a lone backslash. *)
Definition like (s p : string) : bool :=
match tokens p with
| Some ts => matches ts s
| None => false
end.

(** The characters [LIKE] does not take literally. *)
Definition is_meta (c : ascii) : bool :=
Ascii.eqb c "%"%char || Ascii.eqb c "_"%char || Ascii.eqb c "\"%char.

Fixpoint literal (s : string) : bool :=
match s with
| EmptyString => true
| String c s' => negb (is_meta c) && literal s'
end.

End Sql.

(** A row of [agent_skill_data]. *)
Record AgentSkillRow := mkAgentSkillRow {
  asd_agent_id : string;
  asd_skill : string;
  asd_key : string;
  asd_data : string;
}.

(** A row of [thread_skill_data]. *)
Record ThreadSkillRow := mkThreadSkillRow {
  tsd_thread_id : string;
  tsd_skill : string;
  tsd_key : string;
  tsd_agent_id : string;
  tsd_data : string;
}.

(** A row of one of the three checkpoint tables: its [thread_id] column and
    the rest of it. *)
Record CheckpointRow := mkCheckpointRow {
  thread_id : string;
  rest : string;
}.

Inductive CheckpointTable :=
| checkpoints
| checkpoint_writes
| checkpoint_blobs.

Record Database := mkDatabase {
  agent_skill_data : list AgentSkillRow;
  thread_skill_data : list ThreadSkillRow;
  checkpoint_rows : CheckpointTable -> list CheckpointRow;
}.

(** The statements the purge issues. *)
Inductive Statement :=
(** [delete(AgentSkillData).where(agent_id == a)] *)
| DeleteAgentSkillData (agent_id : string)
(** [delete(ThreadSkillData).where(agent_id == a)] *)
| DeleteThreadSkillData (agent_id : string)
(** [delete(ThreadSkillData).where(agent_id == a, thread_id == t)] *)
| DeleteThreadSkillDataOf (agent_id thread_id : string)
(** [DELETE FROM <table> WHERE thread_id like :value] *)
| DeleteCheckpointsLike (table : CheckpointTable) (value : string).

Global Instance CheckpointTable_eq_dec : EqDecision CheckpointTable.
Proof. solve_decision. Defined.

Definition apply_statement (db : Database) (st : Statement) : Database :=
  match st with
  | DeleteAgentSkillData a =>
      mkDatabase
        (filter (fun r => asd_agent_id r ≠ a) (agent_skill_data db))
        (thread_skill_data db) (checkpoint_rows db)
  | DeleteThreadSkillData a =>
      mkDatabase (agent_skill_data db)
        (filter (fun r => tsd_agent_id r ≠ a) (thread_skill_data db))
        (checkpoint_rows db)
  | DeleteThreadSkillDataOf a t =>
      mkDatabase (agent_skill_data db)
        (filter (fun r => ¬ (tsd_agent_id r = a ∧ tsd_thread_id r = t))
                (thread_skill_data db))
        (checkpoint_rows db)
  | DeleteCheckpointsLike tbl value =>
      mkDatabase (agent_skill_data db) (thread_skill_data db)
        (fun tbl' =>
           if decide (tbl' = tbl)
           then filter (fun r => Sql.like (thread_id r) value = false)
                       (checkpoint_rows db tbl')
           else checkpoint_rows db tbl')
  end.

(** What the purge runs against.  [models.db.get_session] is not among the
    sources: whether a session that leaves its [async with] block without an
    exception commits what it has pending ([exit_commits]) is left open.
    [fault n] is the exception the [n]-th database round trip of the call
    ends in, if it does. *)
Record DbEnv := mkDbEnv {
  exit_commits : bool;
  fault : nat -> option exn;
}.

(** The committed tables, the log, and the number of round trips made. *)
Record DbState := mkDbState {
  committed : Database;
  db_log : list LogRecord;
  round_trips : nat;
}.

(** An open session: the statements executed in it and not yet committed. *)
Definition Session := list Statement.

Definition db_logger (r : LogRecord) : M DbState unit :=
  modify (fun s => mkDbState (committed s) (db_log s ++ [r])%list (round_trips s)).

(** One round trip: it raises what the environment makes it raise. *)
Definition round_trip (E : DbEnv) : M DbState unit :=
  fun s =>
    let s' := mkDbState (committed s) (db_log s) (S (round_trips s)) in
    match fault E (round_trips s) with
    | Some e => (Raise e, s')
    | None => (Ok tt, s')
    end.

(** [await db.execute(statement)]: one round trip, after which the
    statement is pending in the session.  What the database raises is the
    fault of that round trip; the refusal of a [LIKE] pattern that ends in
    a lone backslash, which PostgreSQL raises when the matching of a row
    reaches that backslash, is one of them. *)
Definition execute (E : DbEnv) (db : Session) (st : Statement)
  : M DbState Session :=
  round_trip E ;;;
  ret (db ++ [st])%list.

(** [await db.commit()] *)
Definition commit (E : DbEnv) (db : Session) : M DbState Session :=
  round_trip E ;;;
  modify (fun s => mkDbState (foldl apply_statement (committed s) db)
                             (db_log s) (round_trips s)) ;;;
  ret [].

(** [async with get_session() as db: body]: what is pending when the block
    raises is rolled back; when it ends it is committed or rolled back, as
    the environment has it. *)
Definition with_session {A} (E : DbEnv) (body : Session -> M DbState (A * Session))
  : M DbState A :=
  '(a, db) <- body [] ;;
  (if exit_commits E
   then match db with [] => ret [] | _ => commit E db end
   else ret []) ;;;
  ret a.

Module AgentSkillData.
(** [models/skill.py], lines 96-99. *)
Definition clean_data (E : DbEnv) (agent_id : string) : M DbState unit :=
with_session E (fun db =>
  db <- execute E db (DeleteAgentSkillData agent_id) ;;
  ret (tt, db)).
End AgentSkillData.

Module ThreadSkillData.
(** [models/skill.py], lines 188-198. *)
Definition clean_data (E : DbEnv) (agent_id thread_id : string)
: M DbState unit :=
with_session E (fun db =>
  if Py.truthy thread_id && negb (String.eqb thread_id "") then
    db <- execute E db (DeleteThreadSkillDataOf agent_id thread_id) ;;
    ret (tt, db)
  else
    db <- execute E db (DeleteThreadSkillData agent_id) ;;
    ret (tt, db)).
End ThreadSkillData.

(** ** [clean_agent_memory] *)

(** Lines 455-460: the value bound to [:value]. *)
Definition deletion_param (agent_id thread_id : string) : string :=
  let thread_id := Py.strip thread_id in
  let q_suffix := "%" in
  let q_suffix :=
    if Py.truthy thread_id && negb (String.eqb thread_id "")
    then thread_id else q_suffix in
  agent_id ++ "-" ++ q_suffix.

Definition clean_agent_memory (E : DbEnv) (agent_id thread_id : string)
  (clean_agent_memory clean_skills_memory : bool) : M DbState string :=
  with_session E (fun db =>
    try_except
      ((if negb clean_skills_memory && negb clean_agent_memory
        then raise (HTTPException 400
                      "at least one of skills data or agent memory should be true.")
        else ret tt) ;;;
       (if clean_skills_memory
        then AgentSkillData.clean_data E agent_id ;;;
             ThreadSkillData.clean_data E agent_id thread_id
        else ret tt) ;;;
       db <- (if clean_agent_memory then
                let value := deletion_param agent_id thread_id in
                db <- execute E db (DeleteCheckpointsLike checkpoints value) ;;
                db <- execute E db (DeleteCheckpointsLike checkpoint_writes value) ;;
                execute E db (DeleteCheckpointsLike checkpoint_blobs value)
              else ret db) ;;
       db <- commit E db ;;
       ret ("Agent data cleaned up successfully.", db))
      (fun e =>
         if is_SQLAlchemyError e
         then Some (db_logger (LogError (str_exn e)) ;;;
                    raise (HTTPException 500 (str_exn e)))
         else if is_Exception e
         then Some (db_logger (LogError ("failed to cleanup the agent memory: "
                                         ++ str_exn e)) ;;;
                    raise e)
         else None)).

(** ** [skills/enso/tokens.py] *)

Module EnsoGetTokens.

(** [bool(v)] for a keyword argument. *)
Definition truthy_val (v : PyVal) : bool :=
match v with
| PyNone => false
| PyStr s => Py.truthy s
| PyInt z => negb (z =? 0)
| PyStrList l => match l with [] => false | _ => true end
end.

(** [bool(kwargs.get(k))] *)
Definition given (kwargs : PyDict) (k : string) : bool :=
truthy_val (dict_get_default kwargs k PyNone).

Record UnderlyingTokenCompact := mkUnderlying {
u_address : option string;
u_type : option string;
u_name : option string;
u_symbol : option string;
}.

Record TokenResponseCompact := mkToken {
t_name : option string;
t_symbol : option string;
t_address : option string;
t_primaryAddress : option string;
t_type : option string;
t_apy : option pyfloat;
t_underlyingTokens : option (list UnderlyingTokenCompact);
}.

Record EnsoGetTokensOutput := mkOutput {
res : option (list TokenResponseCompact);
error : option string;
}.

(** The request [client.get(url, headers=headers, params=params)] sends. *)
Record Request := mkRequest {
url : string;
headers : list (string * string);
params : PyDict;
}.

(** How the request ends: [httpx.RequestError], [httpx.HTTPStatusError]
  from [raise_for_status()], any other exception on the way to the
  items, or the items of [json_dict["data"]]. *)
Inductive Response :=
| RequestError (msg : string)
| HTTPStatusError (msg : string)
| Failure (msg : string)
| Data (items : list TokenResponseCompact).

(** The tool object and what it talks to.  [base_url] is imported from
  [skills.enso.base], which is not among the sources. *)
Record Tool := mkEnsoTool {
base_url : string;
api_token : string;
main_tokens : list string;
client_get : Request -> Response;
}.

(** [bool(item.get("apy"))]: a missing, null or zero yield is falsy. *)
Definition has_apy (item : TokenResponseCompact) : bool :=
match t_apy item with
| None => false
| Some bits => negb (bits =? 0) && negb (bits =? 2 ^ 63)
end.

(** [item.get("symbol") in self.main_tokens] *)
Definition is_main (self : Tool) (item : TokenResponseCompact) : bool :=
match t_symbol item with
| None => false
| Some sym => bool_decide (sym ∈ main_tokens self)
end.

(** Lines 112-137: the request [_run] builds from its keyword arguments. *)
Definition request (self : Tool) (kwargs : PyDict) : Request :=
let url := base_url self ++ "/api/v1/tokens" in
let headers := [("accept", "application/json");
                ("Authorization", "Bearer " ++ api_token self)] in
let params := [("page", PyInt 1); ("includeMetadata", PyStr "true")] in
let params :=
  if given kwargs "chain_id"
  then Py.dict_set params "chainId" (dict_get_default kwargs "chain_id" PyNone)
  else params in
let params :=
  if given kwargs "protocol_slug"
  then Py.dict_set params "protocolSlug"
         (dict_get_default kwargs "protocol_slug" PyNone)
  else params in
let params :=
  if given kwargs "token_type"
  then Py.dict_set params "type" (dict_get_default kwargs "token_type" PyNone)
  else params in
let params :=
  if given kwargs "underlying_tokens" then
    match dict_get_default kwargs "underlying_tokens" PyNone with
    | PyStr s => Py.dict_set params "underlyingTokens" (PyStr s)
    | PyStrList l =>
        Py.dict_set params "underlyingTokens" (PyStr (Py.join "," l))
    | _ => params
    end
  else params in
mkRequest url headers params.

Definition _run (self : Tool) (kwargs : PyDict) : EnsoGetTokensOutput :=
match client_get self (request self kwargs) with
| Data items =>
    mkOutput (Some (List.filter (fun item => has_apy item || is_main self item)
                                items))
             None
| RequestError req_err => mkOutput None (Some ("Request error: " ++ req_err))
| HTTPStatusError http_err => mkOutput None (Some ("HTTP error: " ++ http_err))
| Failure e => mkOutput None (Some e)
end.

(** Lines 159-164: [return self._run()]. *)
Definition _arun (self : Tool) (kwargs : PyDict) : EnsoGetTokensOutput :=
_run self [].

End EnsoGetTokens.

(** ** Vocabulary of the proofs *)

(** [m] leaves the part [π] of the state as it found it. *)
Definition keeps {S X A} (π : S -> X) (m : M S A) : Prop :=
  forall s, π (m s).2 = π s.

(** [m] raises, whatever state it starts in. *)
Definition raises {S A} (m : M S A) : Prop :=
  forall s, exists e s', m s = (Raise e, s').

(** [m] looks at the clock only, and moves nothing else. *)
Definition clocked {A} (m : M EngineState A) : Prop :=
  forall s, exists n,
    (m s).2 = set_ticks (fun t => n + t)%nat s
    /\ forall s2, ticks s2 = ticks s ->
                  m s2 = ((m s).1, set_ticks (fun t => n + t)%nat s2).

(** The state of a build right after the configuration was fetched
    (line 123). *)
Definition fetched (aid : string) (agent : Agent.t) (s : EngineState)
  : EngineState :=
  set_agents_updated (insert aid (Agent.updated_at agent)) (set_builds S s).

(** The pipeline a build installs when the capabilities resolved to [tools]
    and [twitter_prompt]. *)
Definition built (E : Env) (aid : string) (agent : Agent.t)
  (tools : list BaseTool) (twitter_prompt : string) (obj : nat) : CompiledGraph :=
  mkGraph obj aid (initialize_llm (config E) agent).1
    (if is_deepseek agent then [] else dedup_tools tools)
    AsyncPostgresSaver (prompt_array (config E) agent twitter_prompt)
    (debug_checkpoint (config E)) (initialize_llm (config E) agent).2.

(** The setup of some capability other than Enso raises. *)
Definition setup_fails (E : Env) (aid : string) (agent : Agent.t)
  (agent_data : option AgentData.t) : Prop :=
  (Agent.cdp_enabled agent = true
   /\ exists e,
        CdpAgentkitWrapper_init E (cdp_values (config E) agent agent_data) = Raise e)
  \/ (exists skills skill e,
        Agent.twitter_skills agent = Some skills /\ skill ∈ skills
        /\ forall client, get_twitter_skill E skill client aid = Raise e)
  \/ (exists skills skill e,
        Agent.crestal_skills agent = Some skills /\ skill ∈ skills
        /\ get_crestal_skill E skill = Raise e)
  \/ (exists skills skill e,
        Agent.common_skills agent = Some skills /\ skill ∈ skills
        /\ get_common_skill E skill = Raise e)
  \/ (exists sets set opts e,
        Agent.skill_sets agent = Some sets /\ (set, opts) ∈ sets
        /\ get_skill_set E set opts = Raise e).

(** The record [AgentStore.set_data] leaves behind. *)
Definition with_wallet (w : string) (old : option AgentData.t) : AgentData.t :=
  let d := default AgentData.empty old in
  AgentData.mk (Some w) (AgentData.twitter_id d) (AgentData.twitter_username d)
    (AgentData.twitter_name d).

(** The wallet the CDP branch writes, when it writes one. *)
Definition cdp_write (E : Env) (agent : Agent.t) (agent_data : option AgentData.t)
  : option string :=
  if Agent.cdp_enabled agent then
    match stored_wallet agent_data with
    | Some _ => None
    | None =>
        match CdpAgentkitWrapper_init E (cdp_values (config E) agent agent_data) with
        | Ok k => Some (export_wallet k)
        | Raise _ => None
        end
    end
  else None.

(** The wallet a build of [aid] started in [s] writes, when it writes one. *)
Definition wallet_written (E : Env) (aid : string) (s : EngineState)
  : option string :=
  match get_config E aid, get_data_fault E aid with
  | Ok agent, None => cdp_write E agent (agent_data_store s !! aid)
  | _, _ => None
  end.

(** Between [s] and [s'] the runtime-data store saw the write [w] to the
    record of [aid], or none. *)
Definition wrote (aid : string) (w : option string) (s s' : EngineState) : Prop :=
  match w with
  | Some w =>
      agent_data_store s'
      = <[aid := with_wallet w (agent_data_store s !! aid)]> (agent_data_store s)
      /\ wallet_writes s' = (wallet_writes s ++ [(aid, w)])%list
  | None =>
      agent_data_store s' = agent_data_store s
      /\ wallet_writes s' = wallet_writes s
  end.

Definition store_of (s : EngineState) :=
  (agent_data_store s, wallet_writes s).

(** Every wallet the wrapper of [E] exports is a non-empty string. *)
Definition exports_wallets (E : Env) : Prop :=
  forall v k, CdpAgentkitWrapper_init E v = Ok k ->
              Py.truthy (export_wallet k) = true.

(** The writes of [ws] that went to the record of [aid]. *)
Definition writes_for (aid : string) (ws : list (string * string))
  : list (string * string) :=
  filter (fun p => p.1 = aid) ws.

(** The statement [ThreadSkillData.clean_data] issues. *)
Definition thread_skill_delete (agent_id thread_id : string) : Statement :=
  if Py.truthy thread_id && negb (String.eqb thread_id "")
  then DeleteThreadSkillDataOf agent_id thread_id
  else DeleteThreadSkillData agent_id.

(** What a purge that meets no fault has committed when it returns. *)
Definition purged (E : DbEnv) (agent_id thread_id : string)
  (conversation skills : bool) : list Statement :=
  ((if skills && exit_commits E
    then [DeleteAgentSkillData agent_id; thread_skill_delete agent_id thread_id]
    else [])
   ++ (if conversation
       then let value := deletion_param agent_id thread_id in
            [DeleteCheckpointsLike checkpoints value;
             DeleteCheckpointsLike checkpoint_writes value;
             DeleteCheckpointsLike checkpoint_blobs value]
       else []))%list.

(** The texts a stream shows: the non-empty contents of its model turns. *)
Definition visible_texts (chunks : list Chunk) : list string :=
  omap (fun chunk =>
          match chunk_agent chunk with
          | Some v => if Py.truthy v then Some v else None
          | None => None
          end) chunks.

(** ** Example worlds *)

Module Demo.

(** A clock that ticks every quarter of a second; readings are in
  milliseconds. *)
Definition clock : Clock :=
mkClock Z (fun n => 250 * Z.of_nat n) Z.sub
  (fun ms => pretty (ms / 1000) ++ "."
             ++ (if ms mod 1000 <? 100 then "0" else "")
             ++ (if ms mod 1000 <? 10 then "0" else "")
             ++ pretty (ms mod 1000)).

Definition config : Config :=
mkConfig None "sk-openai" "sk-deepseek" "cdp-key-name" "cdp-private-key"
  "https://mainnet.base.org" false.

(** An agent with nothing enabled. *)
Definition agent (model : string) (updated_at : datetime) : Agent.t :=
Agent.mk (Some "Ada") model (Some "Answer {briefly}.") (Some "Be kind.")
  7 0 0 false None None None false None None None None None None None
  updated_at.

(** The same agent with the wallet capability and two Enso skills. *)
Definition onchain_agent (model : string) (updated_at : datetime) : Agent.t :=
Agent.mk (Some "Ada") model (Some "Answer {briefly}.") (Some "Be kind.")
  7 0 0 true None None None true
  (Some ["enso_get_tokens"; "enso_route_shortcut"])
  (Some [("api_token", PyStr "enso-token")])
  None None None (Some ["common_a"; "common_b"]) None updated_at.

(** The same agent asking for one Twitter skill. *)
Definition social_agent (model : string) (updated_at : datetime) : Agent.t :=
Agent.mk (Some "Ada") model (Some "Answer {briefly}.") None
  7 0 0 false None None None false None None
  (Some ["twitter_post_tweet"]) None None None None updated_at.

(** A world around [a]: [enso] and [twitter] resolve the skills of those
  two capabilities, [snapshot] is what [aget_state] answers, [chunks] what
  the executor streams. *)
Definition env (a : Agent.t) (enso twitter : string -> result BaseTool)
(snapshot : result (option (list HistoryMessage)))
(chunks : list Chunk * option exn) : Env :=
mkEnv config clock
  (fun _ => Some a) (fun _ => Ok a) (fun _ => None)
  (fun _ => Ok (mkWrapper 7 "wallet-seed"))
  (fun _ => Ok [mkTool "get_wallet_details" 1; mkTool "transfer" 2])
  (fun skill _ _ _ _ _ => enso skill)
  (fun _ _ => Ok 0%nat)
  (fun skill _ _ => twitter skill)
  (fun skill => Ok (mkTool skill 30))
  (fun skill => Ok (mkTool skill 40))
  (fun set _ => Ok [mkTool set 50])
  (fun _ => Ok tt)
  (fun _ _ => snapshot)
  (fun _ _ _ => chunks).

Definition resolves (obj : nat) (skill : string) : result BaseTool :=
Ok (mkTool skill obj).

Definition unknown (skill : string) : result BaseTool :=
Raise (OtherException ("unknown skill: " ++ skill)).

Definition history : list HistoryMessage :=
[mkHistory "human" "hi"; mkHistory "ai" "hello"].

(** One model turn that only asks for a tool, the tool, then the answer. *)
Definition tool_run : list Chunk * option exn :=
([mkChunk (Some "") None; mkChunk None (Some "42"); mkChunk (Some "It is 42.") None],
 None).


Definition world : Env :=
env (agent "gpt-4o-mini" 10) (resolves 10) (resolves 20) (Ok (Some history)) tool_run.

Definition deepseek_world : Env :=
env (onchain_agent "deepseek-chat" 10) (resolves 10) (resolves 20)
  (Ok (Some history)) tool_run.

Definition onchain_world : Env :=
env (onchain_agent "gpt-4o-mini" 10) unknown (resolves 20) (Ok (Some history))
  tool_run.

Definition social_world : Env :=
env (social_agent "gpt-4o-mini" 10) (resolves 10) unknown (Ok (Some history))
  tool_run.

Definition blind_world : Env :=
env (agent "gpt-4o-mini" 10) (resolves 10) (resolves 20)
  (Raise (OtherException "connection reset")) tool_run.


(** A process that has built nothing yet. *)
Definition fresh : EngineState := mkState ∅ ∅ ∅ [] 0 0 [] 0.

Definition hi : AgentMessageInput := mkMessage "hi" [].

(** A database with two threads of agent [A], one of agent [B]. *)
Definition rows (keys : list string) : list CheckpointRow :=
(fun k => mkCheckpointRow k "state") <$> keys.

Definition database : Database :=
mkDatabase
  [mkAgentSkillRow "A" "twitter" "cursor" "1"; mkAgentSkillRow "B" "twitter" "cursor" "2"]
  [mkThreadSkillRow "T1" "enso" "k" "A" "x"; mkThreadSkillRow "T2" "enso" "k" "A" "y";
   mkThreadSkillRow "T1" "enso" "k" "B" "z"]
  (fun _ => rows ["A-T1"; "A-T2"; "B-T1"]).

Definition stored : DbState := mkDbState database [] 0.

(** A database that answers every round trip; its sessions do not commit
  on their own. *)
Definition steady : DbEnv := mkDbEnv false (fun _ => None).

(** The same with sessions that commit when their block ends. *)
Definition committing : DbEnv := mkDbEnv true (fun _ => None).

(** Sessions that commit when their block ends, and a database that fails
  the [n]-th round trip. *)
Definition failing (n : nat) : DbEnv :=
mkDbEnv true (fun i => if (i =? n)%nat
                       then Some (SQLAlchemyError "connection lost") else None).

Definition enso_tool : EnsoGetTokens.Tool :=
EnsoGetTokens.mkEnsoTool "https://api.enso.finance" "enso-token" ["USDC"]
  (fun req => EnsoGetTokens.Data
     [EnsoGetTokens.mkToken (Some "USD Coin") (Some "USDC") None None None None None]).

End Demo.

(** ** The prompt template and its literal text *)

(** [text.format()] for a template without replacement fields, as
    [ChatPromptTemplate] renders a message: a doubled brace is one brace of
    the output; a brace that is not doubled opens a field or is a syntax
    error, and the text is not literal ([None]). *)
Fixpoint format_literal (s : string) : option string :=
  match s with
  | EmptyString => Some EmptyString
  | String c s' =>
      if Ascii.eqb c "{"%char then
        match s' with
        | String c' s'' =>
            if Ascii.eqb c' "{"%char then String c <$> format_literal s'' else None
        | EmptyString => None
        end
      else if Ascii.eqb c "}"%char then
        match s' with
        | String c' s'' =>
            if Ascii.eqb c' "}"%char then String c <$> format_literal s'' else None
        | EmptyString => None
        end
      else String c <$> format_literal s'
  end.

(** ** [models/skill.py]: [get] and [save] *)

(** What [save] has pending when it commits.  The two timestamp columns are
    filled by the database and read nowhere; the rows do not carry them. *)
Inductive Write :=
(** [existing.data = self.data; db.add(existing)] on [agent_skill_data] *)
| UpdateAgentSkillData (agent_id skill key data : string)
(** [db.add(self)] on [agent_skill_data] *)
| InsertAgentSkillData (row : AgentSkillRow)
(** [existing.data = self.data; existing.agent_id = self.agent_id;
    db.add(existing)] on [thread_skill_data] *)
| UpdateThreadSkillData (thread_id skill key data agent_id : string)
(** [db.add(self)] on [thread_skill_data] *)
| InsertThreadSkillData (row : ThreadSkillRow).

(** The primary key of [agent_skill_data]: [(agent_id, skill, key)]. *)
Definition asd_is (agent_id skill key : string) (r : AgentSkillRow) : bool :=
  String.eqb (asd_agent_id r) agent_id && String.eqb (asd_skill r) skill
  && String.eqb (asd_key r) key.

(** The primary key of [thread_skill_data]: [(thread_id, skill, key)]. *)
Definition tsd_is (thread_id skill key : string) (r : ThreadSkillRow) : bool :=
  String.eqb (tsd_thread_id r) thread_id && String.eqb (tsd_skill r) skill
  && String.eqb (tsd_key r) key.

Definition apply_write (db : Database) (w : Write) : Database :=
  match w with
  | UpdateAgentSkillData a sk k data =>
      mkDatabase
        ((fun r => if asd_is a sk k r
                   then mkAgentSkillRow (asd_agent_id r) (asd_skill r) (asd_key r) data
                   else r) <$> agent_skill_data db)
        (thread_skill_data db) (checkpoint_rows db)
  | InsertAgentSkillData row =>
      mkDatabase (agent_skill_data db ++ [row])%list
        (thread_skill_data db) (checkpoint_rows db)
  | UpdateThreadSkillData t sk k data a =>
      mkDatabase (agent_skill_data db)
        ((fun r => if tsd_is t sk k r
                   then mkThreadSkillRow (tsd_thread_id r) (tsd_skill r) (tsd_key r)
                                         a data
                   else r) <$> thread_skill_data db)
        (checkpoint_rows db)
  | InsertThreadSkillData row =>
      mkDatabase (agent_skill_data db) (thread_skill_data db ++ [row])%list
        (checkpoint_rows db)
  end.

(** [(await db.exec(select(cls).where(...))).first()] on [agent_skill_data] *)
Definition AgentSkillData_first (E : DbEnv) (agent_id skill key : string)
  : M DbState (option AgentSkillRow) :=
  round_trip E ;;;
  s <- get ;;
  ret (List.find (asd_is agent_id skill key) (agent_skill_data (committed s))).

(** [(await db.exec(select(cls).where(...))).first()] on [thread_skill_data] *)
Definition ThreadSkillData_first (E : DbEnv) (thread_id skill key : string)
  : M DbState (option ThreadSkillRow) :=
  round_trip E ;;;
  s <- get ;;
  ret (List.find (tsd_is thread_id skill key) (thread_skill_data (committed s))).

(** [await db.commit()] of a session that holds the writes [ws]. *)
Definition commit_writes (E : DbEnv) (ws : list Write) : M DbState unit :=
  round_trip E ;;;
  modify (fun s => mkDbState (foldl apply_write (committed s) ws)
                             (db_log s) (round_trips s)).

(** [AgentSkillData.get], lines 53-75: the [data] of the row, [None] when
    there is no row.  The session has nothing pending when its block
    ends. *)
Definition AgentSkillData_get (E : DbEnv) (agent_id skill key : string)
  : M DbState (option string) :=
  with_session E (fun db =>
    result <- AgentSkillData_first E agent_id skill key ;;
    ret (asd_data <$> result, db)).

(** [AgentSkillData.save], lines 77-94.  The session commits inside its
    block; the writes it held are committed by then and nothing is pending
    when the block ends. *)
Definition AgentSkillData_save (E : DbEnv) (self : AgentSkillRow)
  : M DbState unit :=
  with_session E (fun db =>
    existing <- AgentSkillData_first E (asd_agent_id self) (asd_skill self)
                  (asd_key self) ;;
    let pending :=
      match existing with
      | Some _ => [UpdateAgentSkillData (asd_agent_id self) (asd_skill self)
                     (asd_key self) (asd_data self)]
      | None => [InsertAgentSkillData self]
      end in
    commit_writes E pending ;;;
    ret (tt, db)).

(** [ThreadSkillData.get], lines 139-162. *)
Definition ThreadSkillData_get (E : DbEnv) (thread_id skill key : string)
  : M DbState (option string) :=
  with_session E (fun db =>
    result <- ThreadSkillData_first E thread_id skill key ;;
    ret (tsd_data <$> result, db)).

(** [ThreadSkillData.save], lines 164-186. *)
Definition ThreadSkillData_save (E : DbEnv) (self : ThreadSkillRow)
  : M DbState unit :=
  with_session E (fun db =>
    existing <- ThreadSkillData_first E (tsd_thread_id self) (tsd_skill self)
                  (tsd_key self) ;;
    let pending :=
      match existing with
      | Some _ => [UpdateThreadSkillData (tsd_thread_id self) (tsd_skill self)
                     (tsd_key self) (tsd_data self) (tsd_agent_id self)]
      | None => [InsertThreadSkillData self]
      end in
    commit_writes E pending ;;;
    ret (tt, db)).

(** No two rows of [agent_skill_data] share a primary key. *)
Definition asd_keys_unique (db : Database) : Prop :=
  NoDup ((fun r => (asd_agent_id r, asd_skill r, asd_key r)) <$> agent_skill_data db).

(** No two rows of [thread_skill_data] share a primary key. *)
Definition tsd_keys_unique (db : Database) : Prop :=
  NoDup ((fun r => (tsd_thread_id r, tsd_skill r, tsd_key r)) <$> thread_skill_data db).

(** ** [skills/twitter/get_timeline.py] *)

Module TwitterGetTimeline.

(** [Tweet] comes from [.base], which is not among the sources; a tweet is
carried as the dictionary of its fields. *)
Definition Tweet : Type := PyDict.

Record TwitterGetTimelineOutput := mkTimelineOutput {
tweets : list Tweet;
error : option string;
}.

(** The answer of [client.get_users_tweets]: its ["meta"] entry, and the
rest, which only [process_tweets_response] reads. *)
Record Timeline := mkTimeline {
meta : option PyDict;
payload : string;
}.

(** What a call does to the world around it, in the order it does it. *)
Inductive Event :=
(** [self.check_rate_limit(max_requests=, interval=)] *)
| RateLimitChecked (max_requests interval : Z)
(** [self.skill_store.get_agent_skill_data(agent_id, skill, key)] *)
| SkillDataRead (agent_id skill key : string)
(** [self.twitter.get_client()] *)
| ClientRequested
(** [client.get_users_tweets(user_auth=, id=, max_results=, since_id=, ...)];
the expansions and field lists are the same in every call. *)
| TimelineRequested (user_auth : bool) (id : string) (max_results : Z)
  (since_id : option PyVal)
(** [self.skill_store.save_agent_skill_data(agent_id, skill, key, data)] *)
| SkillDataSaved (agent_id skill key : string) (data : PyDict)
(** [logger.error(...)] *)
| Logged (record : LogRecord).

(** The tool object and what it talks to.  The base class, the Twitter
client and the skill store are not among the sources: each field below is
how the one call [_arun] makes of it ends. *)
Record Tool := mkTimelineTool {
agent_id : string;
(** [self.twitter.use_key] *)
use_key : bool;
(** [self.twitter.self_id] *)
self_id : option string;
(** [(is_rate_limited, error)] *)
check_rate_limit : Z -> Z -> result (bool * string);
get_agent_skill_data : string -> string -> string -> result (option PyDict);
(** the client object, [None] when there is none *)
get_client : result (option nat);
get_users_tweets : nat -> bool -> string -> Z -> option PyVal -> result Timeline;
process_tweets_response : Timeline -> result (list Tweet);
save_agent_skill_data : string -> string -> string -> PyDict -> result unit;
_get_error_with_username : string -> string;
}.

Definition name : string := "twitter_get_timeline".

Definition emit (ev : Event) : M (list Event) unit :=
modify (fun trace => (trace ++ [ev])%list).

(** [bool(v)] for the value of an optional entry. *)
Definition truthy_entry (v : option PyVal) : bool :=
match v with None => false | Some v => EnsoGetTokens.truthy_val v end.

(** Lines 36-48: the synchronous entry point raises [NotImplementedError],
an [Exception] like any other to its callers. *)
Definition _run (self : Tool) (max_results : Z)
: M (list Event) TwitterGetTimelineOutput :=
raise (OtherException "Use _arun instead").

(** Lines 67-75: the error to answer with when the call is rate limited. *)
Definition rate_limited (self : Tool) : M (list Event) (option string) :=
if negb (use_key self) then
  emit (RateLimitChecked 3 (60 * 24)) ;;;
  '(is_rate_limited, error) <- lift (check_rate_limit self 3 (60 * 24)) ;;
  ret (if is_rate_limited : bool then Some error else None)
else ret None.

(** Lines 77-141: what follows the rate limit check. *)
Definition fetch (self : Tool) (max_results : Z)
: M (list Event) TwitterGetTimelineOutput :=
emit (SkillDataRead (agent_id self) name "last") ;;;
last <- lift (get_agent_skill_data self (agent_id self) name "last") ;;
let last := if truthy_dict last then default [] last else [] in
let since_id := Py.dict_get last "since_id" in
let max_results := if truthy_entry since_id then 100 else max_results in
emit ClientRequested ;;;
client <- lift (get_client self) ;;
match client with
| None =>
    ret (mkTimelineOutput []
           (Some (_get_error_with_username self
                    "Failed to get Twitter client. Please check your authentication.")))
| Some client =>
    let user_id := self_id self in
    if negb (Py.truthy_opt user_id) then
      ret (mkTimelineOutput []
             (Some (_get_error_with_username self "Failed to get Twitter user ID.")))
    else
      let user_id := default "" user_id in
      emit (TimelineRequested (use_key self) user_id max_results since_id) ;;;
      timeline <- lift (get_users_tweets self client (use_key self) user_id
                          max_results since_id) ;;
      result <- lift (process_tweets_response self timeline) ;;
      (if truthy_dict (meta timeline)
          && truthy_entry (Py.dict_get (default [] (meta timeline)) "newest_id")
       then
         let last :=
           Py.dict_set last "since_id"
             (dict_get_default (default [] (meta timeline)) "newest_id" PyNone) in
         emit (SkillDataSaved (agent_id self) name "last" last) ;;;
         lift (save_agent_skill_data self (agent_id self) name "last" last)
       else ret tt) ;;;
      ret (mkTimelineOutput result None)
end.

(** Lines 50-147.  [max_results] is an [int], which [int()] returns as it
is. *)
Definition _arun (self : Tool) (max_results : Z)
: M (list Event) TwitterGetTimelineOutput :=
try_except
  (limited <- rate_limited self ;;
   match limited with
   | Some error =>
       ret (mkTimelineOutput [] (Some (_get_error_with_username self error)))
   | None => fetch self max_results
   end)
  (fun e =>
     if is_Exception e
     then Some (emit (Logged (LogError ("Error getting timeline: " ++ str_exn e))) ;;;
                ret (mkTimelineOutput []
                       (Some (_get_error_with_username self (str_exn e)))))
     else None).

End TwitterGetTimeline.

(** ** Vocabulary for the timeline tool *)

(** The timeline requests among [events], in order. *)
Definition timeline_requests (events : list TwitterGetTimeline.Event)
  : list (bool * string * Z * option PyVal) :=
  omap (fun ev =>
          match ev with
          | TwitterGetTimeline.TimelineRequested user_auth id max_results since_id =>
              Some (user_auth, id, max_results, since_id)
          | _ => None
          end) events.

(** The records saved to the skill store among [events], in order. *)
Definition timeline_saves (events : list TwitterGetTimeline.Event)
  : list (string * string * string * PyDict) :=
  omap (fun ev =>
          match ev with
          | TwitterGetTimeline.SkillDataSaved agent_id skill key data =>
              Some (agent_id, skill, key, data)
          | _ => None
          end) events.

(** The rate limit checks among [events], in order. *)
Definition rate_checks (events : list TwitterGetTimeline.Event) : list (Z * Z) :=
  omap (fun ev =>
          match ev with
          | TwitterGetTimeline.RateLimitChecked max_requests interval =>
              Some (max_requests, interval)
          | _ => None
          end) events.

(** ** Vocabulary for the process-wide state *)

(** The number of segments a streamed step adds to the debug trace: its
    label, its payload when it has one, and its cost. *)
Definition step_segments (chunk : Chunk) : nat :=
  match chunk_agent chunk with
  | Some v => if Py.truthy v then 3 else 2
  | None => match chunk_tools chunk with Some _ => 3 | None => 0 end
  end.

(** Every state [m] can end in is [R]-related to the one it started in. *)
Definition evolves {S A} (R : S -> S -> Prop) (m : M S A) : Prop :=
  forall s, R s (m s).2.

(** The steps of an execution for [aid], other than the installation of a
    new pipeline, are [R]-steps when these writes are. *)
Record engine_steps (aid : string) (R : EngineState → EngineState → Prop) : Prop := {
  steps_log : ∀ f s, R s (set_log f s);
  steps_ticks : ∀ f s, R s (set_ticks f s);
  steps_builds : ∀ f s, R s (set_builds f s);
  steps_updated : ∀ t s, R s (set_agents_updated (insert aid t) s);
  steps_data : ∀ w, evolves R (AgentStore.set_data aid w);
  steps_install : ∀ l ts c p d i,
    evolves R (bind (create_agent aid l ts c p d i)
                    (fun g => modify (set_agents (insert aid g))));
}.

(** What an execution for [aid] may do to the process-wide state: the
    entries of other identities stay as they are, and no entry goes away. *)
Definition cache_frame (aid : string) (s s' : EngineState) : Prop :=
  (∀ a, a ≠ aid →
        agents s' !! a = agents s !! a
        ∧ agents_updated s' !! a = agents_updated s !! a
        ∧ agent_data_store s' !! a = agent_data_store s !! a)
  ∧ (∀ a, is_Some (agents s !! a) → is_Some (agents s' !! a))
  ∧ (∀ a, is_Some (agents_updated s !! a) → is_Some (agents_updated s' !! a))
  ∧ (∀ a, is_Some (agent_data_store s !! a) → is_Some (agent_data_store s' !! a)).

(** Every cached pipeline was built for the identity it is filed under, its
    object was allocated before now, and no two identities hold the same
    object. *)
Definition cache_ok (s : EngineState) : Prop :=
  (∀ a g, agents s !! a = Some g → graph_aid g = a ∧ (graph_obj g < next_obj s)%nat)
  ∧ (∀ a b ga gb, agents s !! a = Some ga → agents s !! b = Some gb →
                  graph_obj ga = graph_obj gb → a = b).

(** A step that allocates forward and keeps the cache well formed. *)
Definition keeps_cache_ok (s s' : EngineState) : Prop :=
  (next_obj s ≤ next_obj s')%nat ∧ (cache_ok s → cache_ok s').

(** ** Further example worlds *)

Module Cases.

(** A world whose database holds no agent. *)
Definition empty_world : Env :=
mkEnv Demo.config Demo.clock
  (fun _ => None) (fun _ => Raise NoResultFound) (fun _ => None)
  (fun _ => Ok (mkWrapper 7 "wallet-seed"))
  (fun _ => Ok [])
  (fun skill _ _ _ _ _ => Demo.resolves 10 skill)
  (fun _ _ => Ok 0%nat)
  (fun skill _ _ => Demo.resolves 20 skill)
  (fun skill => Ok (mkTool skill 30))
  (fun skill => Ok (mkTool skill 40))
  (fun set _ => Ok [mkTool set 50])
  (fun _ => Ok tt)
  (fun _ _ => Ok None)
  (fun _ _ _ => ([], None)).

(** The executor yields one model turn, then the connection drops. *)
Definition broken_world : Env :=
Demo.env (Demo.agent "gpt-4o-mini" 10) (Demo.resolves 10) (Demo.resolves 20)
  (Ok (Some Demo.history))
  ([mkChunk (Some "It is") None], Some (OtherException "stream closed")).

(** An agent that asks for one Twitter skill, in a world that resolves it. *)
Definition twitter_world : Env :=
Demo.env (Demo.social_agent "gpt-4o-mini" 10) (Demo.resolves 10) (Demo.resolves 20)
  (Ok (Some Demo.history)) Demo.tool_run.

(** An agent that asks for two Enso skills and has no wallet capability. *)
Definition walletless_agent : Agent.t :=
Agent.mk (Some "Ada") "gpt-4o-mini" (Some "Answer {briefly}.") None
  7 0 0 false None None None true
  (Some ["enso_get_tokens"; "enso_route_shortcut"])
  (Some [("api_token", PyStr "enso-token")])
  None None None None None 10.

(** The agent of [Demo.world] after an update: another model, another
prompt, and one common skill. *)
Definition upgraded_agent : Agent.t :=
Agent.mk (Some "Ada") "gpt-4o" (Some "Answer at length.") (Some "Be kind.")
  7 0 0 false None None None false None None None None None
  (Some ["common_a"]) None 20.

(** A world around [upgraded_agent] whose common skills resolve as [common]
does. *)
Definition upgraded_env (common : string -> result BaseTool) : Env :=
mkEnv Demo.config Demo.clock
  (fun _ => Some upgraded_agent) (fun _ => Ok upgraded_agent) (fun _ => None)
  (fun _ => Ok (mkWrapper 7 "wallet-seed"))
  (fun _ => Ok [mkTool "get_wallet_details" 1; mkTool "transfer" 2])
  (fun skill _ _ _ _ _ => Demo.resolves 10 skill)
  (fun _ _ => Ok 0%nat)
  (fun skill _ _ => Demo.resolves 20 skill)
  (fun skill => Ok (mkTool skill 30))
  common
  (fun set _ => Ok [mkTool set 50])
  (fun _ => Ok tt)
  (fun _ _ => Ok (Some Demo.history))
  (fun _ _ _ => Demo.tool_run).

(** The common skills cannot be resolved for the moment. *)
Definition outage_world : Env := upgraded_env Demo.unknown.

(** The same configuration once they resolve again. *)
Definition upgraded_world : Env := upgraded_env (fun skill => Ok (mkTool skill 40)).

(** The cursor of agent [A], as the timeline tool saves it. *)
Definition cursor : AgentSkillRow :=
mkAgentSkillRow "A" "twitter" "cursor" "9".

(** Agent [B] writes to the key of thread [T2] that agent [A] wrote last. *)
Definition handover : ThreadSkillRow :=
mkThreadSkillRow "T2" "enso" "k" "B" "moved".

End Cases.

(** * Theorems *)

Local Open Scope list_scope.

(** ** The insertion-ordered dictionary and the deduplication of tools *)


Section dict.
Context {V : Type}.
Implicit Types (d : list (string * V)) (k : string) (v : V).

Lemma dict_get_set d k v k' :
  Py.dict_get (Py.dict_set d k v) k'
  = if decide (k = k') then Some v else Py.dict_get d k'.
Proof.
  induction d as [|[k0 v0] d IH]; simpl.
  - repeat case_decide; congruence.
  - destruct (decide (k0 = k)) as [->|Hne]; simpl.
    + repeat case_decide; congruence.
    + rewrite IH. repeat case_decide; congruence.
Qed.

Lemma keys_dict_set d k v :
  Py.keys (Py.dict_set d k v)
  = if decide (k ∈ Py.keys d) then Py.keys d else Py.keys d ++ [k].
Proof.
  unfold Py.keys. induction d as [|[k0 v0] d IH].
  - destruct (decide (k ∈ [].*1)) as [H|H]; [by apply elem_of_nil in H | done].
  - cbn [Py.dict_set]. destruct (decide (k0 = k)) as [->|Hne].
    + destruct (decide (k ∈ ((k, v0) :: d).*1)) as [H|H]; [done|].
      exfalso. apply H. apply elem_of_cons. by left.
    + rewrite fmap_cons, IH, (fmap_cons _ (k0, v0)).
      destruct (decide (k ∈ d.*1)) as [Hin|Hin];
        destruct (decide (k ∈ (k0, v0).1 :: d.*1)) as [H|H]; try done.
      * exfalso. apply H. apply elem_of_cons. by right.
      * apply elem_of_cons in H as [->|?]; done.
Qed.

Lemma keys_set_NoDup d k v :
  NoDup (Py.keys d) → NoDup (Py.keys (Py.dict_set d k v)).
Proof.
  intros Hnd. rewrite keys_dict_set. case_decide as Hin; [done|].
  apply NoDup_app. split_and!; [done | | apply NoDup_singleton].
  intros x Hx Hx'. apply list_elem_of_singleton in Hx'. by subst.
Qed.

Lemma dict_get_None d k : Py.dict_get d k = None ↔ k ∉ Py.keys d.
Proof.
  unfold Py.keys. induction d as [|[k0 v0] d IH]; simpl.
  - split; [intros _; apply not_elem_of_nil | done].
  - rewrite not_elem_of_cons. case_decide as Hk.
    + split; [done | intros [Hne _]; congruence].
    + rewrite IH. split; [intros ?; split; [congruence | done] | by intros [_ ?]].
Qed.

Lemma elem_of_dict d k v :
  NoDup (Py.keys d) → (k, v) ∈ d ↔ Py.dict_get d k = Some v.
Proof.
  unfold Py.keys. induction d as [|[k0 v0] d IH]; simpl; intros Hnd.
  - split; [intros H; by apply elem_of_nil in H | done].
  - apply NoDup_cons in Hnd as [Hk0 Hnd]. rewrite elem_of_cons, (IH Hnd).
    case_decide as Hk.
    + subst k0. split.
      * intros [Heq|Hget]; [congruence|].
        exfalso. apply Hk0. apply dec_stable. intros Hnot.
        apply dict_get_None in Hnot. congruence.
      * intros [= ->]. by left.
    + split; [intros [Heq|Hget]; [congruence | done] | by right].
Qed.
End dict.

Lemma named_snoc n l t :
  named n (l ++ [t]) = named n l ++ (if decide (name t = n) then [t] else []).
Proof.
  unfold named. by rewrite filter_app.
Qed.

Lemma tools_by_name_snoc l t :
  tools_by_name (l ++ [t]) = Py.dict_set (tools_by_name l) (name t) t.
Proof. unfold tools_by_name. by rewrite foldl_app. Qed.

Lemma tools_by_name_get l n :
  Py.dict_get (tools_by_name l) n = last (named n l).
Proof.
  induction l as [|t l IH] using rev_ind; [done|].
  rewrite tools_by_name_snoc, dict_get_set, named_snoc, IH.
  case_decide; [by rewrite last_snoc | by rewrite app_nil_r].
Qed.

Lemma tools_by_name_NoDup l : NoDup (Py.keys (tools_by_name l)).
Proof.
  induction l as [|t l IH] using rev_ind; [apply NoDup_nil_2|].
  rewrite tools_by_name_snoc. by apply keys_set_NoDup.
Qed.

Lemma last_named_name n l t : last (named n l) = Some t → name t = n.
Proof.
  intros H. apply last_Some_elem_of in H.
  unfold named in H. by apply list_elem_of_filter in H as [? _].
Qed.

Lemma tools_by_name_key l k t : (k, t) ∈ tools_by_name l → k = name t.
Proof.
  intros H. apply elem_of_dict in H; [|apply tools_by_name_NoDup].
  rewrite tools_by_name_get in H. symmetry. by eapply last_named_name.
Qed.

Lemma tools_by_name_keys l : Py.keys (tools_by_name l) = name <$> dedup_tools l.
Proof.
  unfold dedup_tools, Py.keys, Py.values.
  rewrite <- list_fmap_compose. apply list_fmap_ext.
  intros i [k t] Hi. simpl. apply (tools_by_name_key l).
  apply list_elem_of_lookup. eauto.
Qed.




(** ** Which parts of the state a computation leaves alone *)

Section keeps.
Context {S X : Type} (π : S → X).

Lemma keeps_ret {A} (a : A) : keeps π (ret a).
Proof. done. Qed.

Lemma keeps_raise {A} e : keeps π (@raise S A e).
Proof. done. Qed.

Lemma keeps_lift {A} (r : result A) : keeps π (lift r).
Proof. done. Qed.

Lemma keeps_get : keeps π get.
Proof. done. Qed.

Lemma keeps_modify f : (∀ s, π (f s) = π s) → keeps π (modify f).
Proof. intros H s. apply H. Qed.

Lemma keeps_bind {A B} (m : M S A) (k : A → M S B) :
  keeps π m → (∀ a, keeps π (k a)) → keeps π (bind m k).
Proof.
  intros Hm Hk s. unfold bind. specialize (Hm s).
  destruct (m s) as [[a|e] s1]; simpl in *; [|done].
  by rewrite Hk.
Qed.

Lemma keeps_try {A} (m : M S A) h :
  keeps π m → (∀ e k, h e = Some k → keeps π k) → keeps π (try_except m h).
Proof.
  intros Hm Hh s. unfold try_except. specialize (Hm s).
  destruct (m s) as [[a|e] s1]; simpl in *; [done|].
  destruct (h e) as [k|] eqn:He; [|done].
  by rewrite (Hh _ _ He).
Qed.

Lemma keeps_for_in {A B} (l : list A) (body : B → A → M S B) acc :
  (∀ b a, keeps π (body b a)) → keeps π (for_in l body acc).
Proof.
  intros Hb. revert acc. induction l as [|x l IH]; intros acc; simpl.
  - apply keeps_ret.
  - apply keeps_bind; [apply Hb | apply IH].
Qed.
End keeps.

Ltac keeps_step :=
  match goal with
  | |- keeps _ (ret _) => apply keeps_ret
  | |- keeps _ (raise _) => apply keeps_raise
  | |- keeps _ (lift _) => apply keeps_lift
  | |- keeps _ get => apply keeps_get
  | |- keeps _ (bind _ _) => apply keeps_bind; [|intros ?]
  | |- keeps _ (for_in _ _ _) => apply keeps_for_in; intros ? ?
  | |- keeps _ (try_except _ _) =>
      apply keeps_try;
      [|let e := fresh "e" in let k := fresh "k" in let H := fresh "H" in
        intros e k H; destruct e; simpl in H; inversion H; subst; clear H]
  | |- keeps _ (modify _) => apply keeps_modify; intros ?; reflexivity
  | |- keeps _ (logger _) => apply keeps_modify; intros ?; reflexivity
  | |- keeps _ (if ?b then _ else _) => destruct b
  | |- keeps _ (match ?x with _ => _ end) => destruct x
  | |- keeps _ (let '(_, _) := ?x in _) => destruct x
  end.
Ltac keeps := repeat keeps_step.

Lemma load_skills_keeps {X} (π : EngineState → X) E aid agent agent_data :
  (∀ f s, π (set_log f s) = π s) →
  (∀ f s, π (set_agent_data_store f s) = π s) →
  (∀ f s, π (set_wallet_writes f s) = π s) →
  keeps π (load_skills E aid agent agent_data).
Proof.
  intros Hlog Hdata Hw.
  assert (∀ r, keeps π (logger r)) as Hlogger
    by (intros r; apply keeps_modify; intros s; apply Hlog).
  assert (∀ a w, keeps π (AgentStore.set_data a w)) as Hset.
  { intros a w. apply keeps_modify. intros s. by rewrite Hw, Hdata. }
  unfold load_skills, load_cdp, load_enso, load_enso_skill, load_twitter,
    load_named, load_skill_sets.
  repeat first [ apply Hlogger | apply Hset | keeps_step ].
Qed.

(** ** [initialize_agent] *)

Lemma log_tools aid (tools : list BaseTool) s :
  ∃ l, for_in tools
         (fun _ tool => logger (LogInfo ("[" ++ aid ++ "] loaded tool: " ++ name tool)%string))
         tt s
       = (Ok tt, set_log (fun l0 => l0 ++ l) s).
Proof.
  revert s. induction tools as [|t tools IH]; intros s; simpl.
  - exists []. unfold ret. f_equal. destruct s; unfold set_log; simpl.
    by rewrite app_nil_r.
  - unfold bind at 1. unfold logger at 1, modify. 
    destruct (IH (set_log (λ l, l ++ [LogInfo ("[" ++ aid ++ "] loaded tool: " ++ name t)%string]) s)) as [l Hl].
    rewrite Hl. eexists (_ :: l). f_equal. destruct s; unfold set_log; simpl.
    by rewrite <- app_assoc.
Qed.

Lemma initialize_agent_spec E aid s r s' :
  initialize_agent E aid s = (r, s') →
  builds s' = S (builds s) ∧ ticks s' = ticks s ∧
  match r with
  | Ok _ =>
      ∃ agent tools twitter_prompt s2,
        get_config E aid = Ok agent
        ∧ get_data_fault E aid = None
        ∧ load_skills E aid agent (agent_data_store s !! aid) (fetched aid agent s)
          = (Ok (tools, twitter_prompt), s2)
        ∧ agents s' = <[aid := built E aid agent tools twitter_prompt (next_obj s)]> (agents s)
        ∧ agents_updated s' = <[aid := Agent.updated_at agent]> (agents_updated s)
        ∧ next_obj s' = S (next_obj s)
        ∧ agent_data_store s' = agent_data_store s2
        ∧ wallet_writes s' = wallet_writes s2
  | Raise e => agents s' = agents s ∧ next_obj s' = next_obj s
  end.
Proof.
  unfold initialize_agent.
  unfold bind at 1. cbn [modify].
  unfold bind at 1. unfold try_except at 1. unfold bind at 1.
  cbn [lift].
  destruct (get_config E aid) as [agent|e] eqn:Hcfg.
  2:{ destruct e; cbn; intros [= <- <-]; done. }
  unfold bind at 1. unfold AgentStore.get_data.
  destruct (get_data_fault E aid) as [e|] eqn:Hfault.
  { destruct e; cbn; intros [= <- <-]; done. }
  cbn [bind modify ret].
  change (set_agents_updated _ (set_builds S s)) with (fetched aid agent s).
  change (agent_data_store (set_builds S s)) with (agent_data_store s).
  pose proof (load_skills_keeps builds E aid agent (agent_data_store s !! aid)
                ltac:(done) ltac:(done) ltac:(done) (fetched aid agent s)) as Hb.
  pose proof (load_skills_keeps ticks E aid agent (agent_data_store s !! aid)
                ltac:(done) ltac:(done) ltac:(done) (fetched aid agent s)) as Ht.
  pose proof (load_skills_keeps agents E aid agent (agent_data_store s !! aid)
                ltac:(done) ltac:(done) ltac:(done) (fetched aid agent s)) as Ha.
  pose proof (load_skills_keeps agents_updated E aid agent (agent_data_store s !! aid)
                ltac:(done) ltac:(done) ltac:(done) (fetched aid agent s)) as Hu.
  pose proof (load_skills_keeps next_obj E aid agent (agent_data_store s !! aid)
                ltac:(done) ltac:(done) ltac:(done) (fetched aid agent s)) as Hn.
  unfold built.
  destruct (initialize_llm (config E) agent) as [llm0 lim] eqn:Hllm.
  unfold bind at 1.
  destruct (load_skills E aid agent (agent_data_store s !! aid) (fetched aid agent s))
    as [[[tools tp]|e] s2] eqn:Hload; cbn in Hb, Ht, Ha, Hu, Hn.
  2:{ intros [= <- <-]. by rewrite Hb, Ht, Ha, Hn. }
  unfold bind at 1.
  destruct (log_tools aid (dedup_tools tools) s2) as [l Hl].
  rewrite Hl. unfold bind at 1. cbn [lift].
  destruct (ChatPromptTemplate_from_messages E (prompt_array (config E) agent tp))
    as [[]|e].
  2:{ intros [= <- <-]. cbn. by rewrite Hb, Ht, Ha, Hn. }
  cbn. intros [= <- <-]. cbn.
  rewrite Hb, Ht. split_and!; try done.
  exists agent, tools, tp, s2. rewrite Hllm, Ha, Hu, Hn. done.
Qed.

Lemma needs_reinit_false aid agent s g :
  agents s !! aid = Some g →
  agents_updated s !! aid = Some (Agent.updated_at agent) →
  cached aid s = true ∧ needs_reinit aid agent s = false.
Proof.
  intros Hg Hu. unfold needs_reinit, cached. rewrite Hg, Hu. cbn.
  by rewrite Z.eqb_refl.
Qed.

Lemma needs_reinit_true aid agent s :
  agents s !! aid = None ∨ agents_updated s !! aid ≠ Some (Agent.updated_at agent) →
  negb (cached aid s) || needs_reinit aid agent s = true.
Proof.
  unfold needs_reinit, cached. intros [Hnone|Hne].
  - by rewrite Hnone.
  - destruct (agents s !! aid) as [g|]; [|done]. cbn.
    destruct (agents_updated s !! aid) as [t|]; [|done]. cbn.
    destruct (Z.eqb_spec (Agent.updated_at agent) t) as [Heq|]; [|done].
    by rewrite Heq in Hne.
Qed.

(** What the cache check of lines 329-358 does, in terms of the two
    dictionaries.  With the configuration of [aid] at hand: when [aid] is in
    [agents] and [agents_updated] holds the configuration's [updated_at],
    nothing is built and the executor is the cached object; when [aid] is
    not in [agents] or the timestamps differ, [initialize_agent] runs
    exactly once, and when it returns the entry of [aid] is a newly
    allocated pipeline, which is the executor, and the recorded version is
    the [updated_at] of the configuration the build fetched.  A build that
    raises installs nothing. *)
Theorem execute_agent_cache E aid message thread_id s agent r s' :
  Agent_get E aid = Some agent →
  execute_agent_prepare E aid message thread_id s = (r, s') →
  (∀ g, agents s !! aid = Some g →
        agents_updated s !! aid = Some (Agent.updated_at agent) →
        builds s' = builds s ∧ next_obj s' = next_obj s
        ∧ agents s' = agents s ∧ agents_updated s' = agents_updated s
        ∧ ∃ p, r = Ok p ∧ p_executor p = g)
  ∧ (agents s !! aid = None
     ∨ agents_updated s !! aid ≠ Some (Agent.updated_at agent) →
     builds s' = S (builds s)
     ∧ match r with
       | Ok p =>
           ∃ agent', get_config E aid = Ok agent'
             ∧ agents s' = <[aid := p_executor p]> (agents s)
             ∧ graph_obj (p_executor p) = next_obj s
             ∧ next_obj s' = S (next_obj s)
             ∧ agents_updated s' !! aid = Some (Agent.updated_at agent')
       | Raise _ => agents s' = agents s ∧ next_obj s' = next_obj s
       end).
Proof.
  intros Hget. unfold execute_agent_prepare.
  unfold bind at 1. cbn [perf_counter]. unfold bind at 1. rewrite Hget.
  cbn [ret]. unfold bind at 1. cbn [get]. 
  set (s0 := set_ticks S s).
  assert (agents s0 = agents s) as Ha0 by done.
  assert (agents_updated s0 = agents_updated s) as Hu0 by done.
  intros Hrun. split.
  - intros g Hg Hu.
    destruct (needs_reinit_false aid agent s0 g) as [Hc Hr]; [by rewrite Ha0 | by rewrite Hu0 |].
    rewrite Hc, Hr in Hrun. cbn in Hrun. rewrite Hg in Hrun.
    injection Hrun as <- <-. cbn. split_and!; try done. by eexists.
  - intros Hcase.
    assert (negb (cached aid s0) || needs_reinit aid agent s0 = true) as Hc
      by (apply needs_reinit_true; by rewrite Ha0, Hu0).
    rewrite Hc in Hrun. unfold bind at 1 in Hrun.
    assert (∃ sl, (if needs_reinit aid agent s0
                   then logger (LogInfo ("Reinitializing agent " ++ aid
                                         ++ " due to updates")%string)
                   else ret ()) s0 = (Ok tt, sl)
                  ∧ agents sl = agents s ∧ agents_updated sl = agents_updated s
                  ∧ builds sl = builds s ∧ next_obj sl = next_obj s)
      as (sl & Hsl & Hal & Hul & Hbl & Hnl)
      by (destruct (needs_reinit aid agent s0); eexists; split; done).
    rewrite Hsl in Hrun. unfold bind at 1 in Hrun. unfold bind at 1 in Hrun.
    destruct (initialize_agent E aid sl) as [ri si] eqn:Hinit.
    apply initialize_agent_spec in Hinit as (Hb & _ & Hres).
    destruct ri as [[]|e].
    + destruct Hres as (agent' & tools & tp & s2 & Hcfg & _ & _ & Hag & Hup & Hno & _).
      cbn in Hrun. rewrite Hag, lookup_insert_eq in Hrun.
      injection Hrun as <- <-. cbn.
      split; [by rewrite Hb, Hbl|].
      exists agent'. rewrite Hag, Hup, Hno, Hal, Hnl, lookup_insert_eq. done.
    + injection Hrun as <- <-. destruct Hres as [Hag Hno].
      by rewrite Hb, Hbl, Hag, Hno, Hal, Hnl.
Qed.

Lemma execute_agent_cache_witness :
  let run := execute_agent_prepare Demo.world "agent1" Demo.hi "t1" Demo.fresh in
  Agent_get Demo.world "agent1" = Some (Demo.agent "gpt-4o-mini" 10)
  ∧ builds run.2 = 1%nat
  ∧ (∃ p, run.1 = Ok p ∧ graph_obj (p_executor p) = 0%nat
          ∧ agents run.2 !! "agent1" = Some (p_executor p))
  ∧ agents_updated run.2 !! "agent1" = Some 10
  ∧ let again := execute_agent_prepare Demo.world "agent1" Demo.hi "t1" run.2 in
    builds again.2 = 1%nat
    ∧ ∃ p, again.1 = Ok p ∧ agents run.2 !! "agent1" = Some (p_executor p).
Proof.
  intros run.
  pose proof (execute_agent_cache Demo.world "agent1" Demo.hi "t1" Demo.fresh
                (Demo.agent "gpt-4o-mini" 10) run.1 run.2 eq_refl
                (surjective_pairing run)) as [_ Hmiss].
  destruct (Hmiss (or_introl eq_refl)) as [Hb Hres].
  destruct run.1 as [p|e] eqn:Hrun; [|by vm_compute in Hrun].
  destruct Hres as (agent' & Hcfg & Hag & Hobj & Hnext & Hup).
  injection Hcfg as <-.
  assert (agents run.2 !! "agent1" = Some (p_executor p)) as Hin
    by (by rewrite Hag, lookup_insert_eq).
  split_and!; [reflexivity | exact Hb | by exists p | exact Hup |].
  intros again.
  pose proof (execute_agent_cache Demo.world "agent1" Demo.hi "t1" run.2
                (Demo.agent "gpt-4o-mini" 10) again.1 again.2 eq_refl
                (surjective_pairing again)) as [Hhit _].
  destruct (Hhit _ Hin Hup) as (Hb2 & _ & _ & _ & p2 & Hp2 & Hex).
  split; [by rewrite Hb2|]. exists p2. by rewrite Hex.
Defined.

(** The timestamp is recorded before the pipeline is built (line 123), and
    the pipeline is installed last (line 284): a build that raises after the
    configuration was fetched leaves the cached pipeline as it was, under
    the timestamp of the configuration it failed to build. *)
Lemma failed_build_records_version E aid s agent e s' :
  get_config E aid = Ok agent →
  get_data_fault E aid = None →
  initialize_agent E aid s = (Raise e, s') →
  agents s' = agents s
  ∧ agents_updated s' = <[aid := Agent.updated_at agent]> (agents_updated s).
Proof.
  intros Hcfg Hfault. unfold initialize_agent.
  unfold bind at 1. cbn [modify].
  unfold bind at 1. unfold try_except at 1. unfold bind at 1.
  cbn [lift]. rewrite Hcfg.
  unfold bind at 1. unfold AgentStore.get_data. rewrite Hfault.
  cbn [bind modify ret].
  change (set_agents_updated _ (set_builds S s)) with (fetched aid agent s).
  change (agent_data_store (set_builds S s)) with (agent_data_store s).
  pose proof (load_skills_keeps agents E aid agent (agent_data_store s !! aid)
                ltac:(done) ltac:(done) ltac:(done) (fetched aid agent s)) as Ha.
  pose proof (load_skills_keeps agents_updated E aid agent (agent_data_store s !! aid)
                ltac:(done) ltac:(done) ltac:(done) (fetched aid agent s)) as Hu.
  destruct (initialize_llm (config E) agent) as [llm0 lim].
  unfold bind at 1.
  destruct (load_skills E aid agent (agent_data_store s !! aid) (fetched aid agent s))
    as [[[tools tp]|e0] s2]; cbn in Ha, Hu.
  2:{ intros [= <- <-]. by rewrite Ha, Hu. }
  unfold bind at 1.
  destruct (log_tools aid (dedup_tools tools) s2) as [l Hl].
  rewrite Hl. unfold bind at 1. cbn [lift].
  destruct (ChatPromptTemplate_from_messages E (prompt_array (config E) agent tp))
    as [[]|e0]; [intros [=]|].
  intros [= <- <-]. cbn. by rewrite Ha, Hu.
Qed.

(** C1.  The cache serves a pipeline whose configuration has changed since
    it was built, and builds nothing.  The first execution builds pipeline 0
    from the configuration of version 10.  The configuration moves to
    version 20 while its common skill cannot be resolved: the second
    execution runs one build, which raises; the cached pipeline is still
    pipeline 0, and the recorded timestamp is 20 already.  The third
    execution finds the configuration at version 20 still, and the skill
    resolves again: it builds nothing and streams from pipeline 0, with the
    model of version 10, although the timestamp recorded when pipeline 0 was
    built is 10.  Had the second execution not come in between, the third
    would have built pipeline 1 with the model of version 20. *)
Theorem failed_rebuild_serves_stale_pipeline :
  let first := execute_agent Demo.world "agent1" Demo.hi "t1" false Demo.fresh in
  let second :=
    execute_agent Cases.outage_world "agent1" Demo.hi "t1" false first.2 in
  let prepared :=
    execute_agent_prepare Cases.upgraded_world "agent1" Demo.hi "t1" second.2 in
  let third :=
    execute_agent Cases.upgraded_world "agent1" Demo.hi "t1" false second.2 in
  let direct :=
    execute_agent Cases.upgraded_world "agent1" Demo.hi "t1" false first.2 in
  (first.1 = Ok ["It is 42."]
   ∧ builds first.2 = 1%nat
   ∧ agents_updated first.2 !! "agent1" = Some 10
   ∧ ∃ g, agents first.2 !! "agent1" = Some g
          ∧ graph_obj g = 0%nat ∧ model_name (llm g) = "gpt-4o-mini")
  ∧ (Agent_get Cases.outage_world "agent1" = Some Cases.upgraded_agent
     ∧ Agent.updated_at Cases.upgraded_agent = 20
     ∧ second.1 = Raise (OtherException "unknown skill: common_a")
     ∧ builds second.2 = 2%nat
     ∧ agents second.2 !! "agent1" = agents first.2 !! "agent1"
     ∧ agents_updated second.2 !! "agent1" = Some 20)
  ∧ (Agent_get Cases.upgraded_world "agent1" = Some Cases.upgraded_agent
     ∧ third.1 = Ok ["It is 42."]
     ∧ builds third.2 = 2%nat
     ∧ agents third.2 !! "agent1" = agents first.2 !! "agent1"
     ∧ ∃ p, prepared.1 = Ok p
            ∧ p_agent p = Cases.upgraded_agent
            ∧ graph_obj (p_executor p) = 0%nat
            ∧ model_name (llm (p_executor p)) = "gpt-4o-mini")
  ∧ (direct.1 = Ok ["It is 42."]
     ∧ builds direct.2 = 2%nat
     ∧ ∃ g, agents direct.2 !! "agent1" = Some g
            ∧ graph_obj g = 1%nat ∧ model_name (llm g) = "gpt-4o").
Proof.
  cbv zeta. split_and!; try (vm_compute; reflexivity);
    eexists; split_and!; vm_compute; reflexivity.
Qed.

(** ** Capability setup failures *)

Lemma raises_bind_l {S A B} (m : M S A) (k : A → M S B) :
  raises m → raises (bind m k).
Proof. intros Hm s. destruct (Hm s) as (e & s' & Hs). unfold bind. rewrite Hs. eauto. Qed.

Lemma raises_bind_r {S A B} (m : M S A) (k : A → M S B) :
  (∀ a, raises (k a)) → raises (bind m k).
Proof.
  intros Hk s. unfold bind. destruct (m s) as [[a|e] s1]; [apply Hk | eauto].
Qed.

Lemma for_in_raises {S A B} (l : list A) (body : B → A → M S B) acc :
  Exists (fun x => ∀ b, raises (body b x)) l → raises (for_in l body acc).
Proof.
  intros Hex. revert acc. induction Hex as [x l Hx|x l _ IH]; intros acc; simpl.
  - by apply raises_bind_l.
  - by apply raises_bind_r.
Qed.

Lemma raises_lift {S A} (e : exn) : raises (@lift S A (Raise e)).
Proof. intros s. by exists e, s. Qed.

Lemma truthy_list_elem {A} (l : list A) x : x ∈ l → Py.truthy_list (Some l) = true.
Proof. destruct l; [intros H; by apply elem_of_nil in H | done]. Qed.

Lemma load_named_raises resolve skills skill e tools :
  skill ∈ skills → resolve skill = Raise e →
  raises (load_named resolve (Some skills) tools).
Proof.
  intros Hin Hr. unfold load_named. rewrite (truthy_list_elem _ _ Hin). simpl.
  apply for_in_raises. apply Exists_exists. exists skill. split; [done|].
  intros b. apply raises_bind_l. rewrite Hr. apply raises_lift.
Qed.

Lemma load_skills_raises E aid agent agent_data :
  setup_fails E aid agent agent_data →
  raises (load_skills E aid agent agent_data).
Proof.
  unfold load_skills.
  intros [[Hen [e He]]|[(sk & k & e & Hsk & Hin & He)|[(sk & k & e & Hsk & Hin & He)
         |[(sk & k & e & Hsk & Hin & He)|(sk & k & o & e & Hsk & Hin & He)]]]].
  - apply raises_bind_l. unfold load_cdp. rewrite Hen.
    apply raises_bind_l. rewrite He. apply raises_lift.
  - apply raises_bind_r. intros [agentkit tools].
    apply raises_bind_r. intros tools'. apply raises_bind_l.
    unfold load_twitter. rewrite Hsk, (truthy_list_elem _ _ Hin). simpl.
    apply raises_bind_r. intros client. apply raises_bind_l.
    apply for_in_raises. apply Exists_exists. exists k. split; [done|].
    intros b. apply raises_bind_l. rewrite He. apply raises_lift.
  - apply raises_bind_r. intros [agentkit tools].
    apply raises_bind_r. intros tools'. apply raises_bind_r. intros [tools2 tp].
    apply raises_bind_l. rewrite Hsk. by eapply load_named_raises.
  - apply raises_bind_r. intros [agentkit tools].
    apply raises_bind_r. intros tools'. apply raises_bind_r. intros [tools2 tp].
    apply raises_bind_r. intros tools3.
    apply raises_bind_l. rewrite Hsk. by eapply load_named_raises.
  - apply raises_bind_r. intros [agentkit tools].
    apply raises_bind_r. intros tools'. apply raises_bind_r. intros [tools2 tp].
    apply raises_bind_r. intros tools3. apply raises_bind_r. intros tools4.
    apply raises_bind_l. unfold load_skill_sets.
    rewrite Hsk, (truthy_list_elem _ _ Hin). simpl.
    apply for_in_raises. apply Exists_exists. exists (k, o). split; [done|].
    intros b. apply raises_bind_l. rewrite He. apply raises_lift.
Qed.

Lemma initialize_agent_raise E aid s agent e s2 :
  get_config E aid = Ok agent →
  get_data_fault E aid = None →
  load_skills E aid agent (agent_data_store s !! aid) (fetched aid agent s) = (Raise e, s2) →
  initialize_agent E aid s = (Raise e, s2).
Proof.
  intros Hcfg Hfault Hload. unfold initialize_agent.
  unfold bind at 1. cbn [modify]. unfold bind at 1. unfold try_except, bind at 1.
  cbn [lift]. rewrite Hcfg. unfold bind at 1, AgentStore.get_data. rewrite Hfault.
  cbn [bind modify ret].
  change (set_agents_updated _ (set_builds S s)) with (fetched aid agent s).
  change (agent_data_store (set_builds S s)) with (agent_data_store s).
  destruct (initialize_llm (config E) agent) as [llm0 lim].
  unfold bind at 1. by rewrite Hload.
Qed.

Lemma load_enso_skill_caught E aid enso_config agentkit tools skill s e :
  is_Exception e = true →
  match agentkit with
  | None => e = UnboundLocalError "agentkit"
  | Some k =>
      get_enso_skill E skill (dict_get_default enso_config "api_token" PyNone)
        (dict_get_default enso_config "main_tokens" (PyStrList []))
        (Some (wallet k)) (rpc_base_mainnet (config E)) aid = Raise e
  end →
  load_enso_skill E aid enso_config agentkit tools skill s
  = (Ok tools, set_log (fun l => l ++ [LogWarning (str_exn e)]) s).
Proof.
  intros Hex Hraise. unfold load_enso_skill, try_except.
  destruct agentkit as [k|].
  - unfold bind at 1. cbn [ret]. unfold bind at 1. cbn [lift]. rewrite Hraise.
    rewrite Hex. done.
  - subst e. done.
Qed.

Lemma load_enso_skill_total E aid enso_config agentkit tools skill s :
  (∀ a b w r i e, get_enso_skill E skill a b w r i = Raise e → is_Exception e = true) →
  ∃ extra s', load_enso_skill E aid enso_config agentkit tools skill s
              = (Ok (tools ++ extra), s').
Proof.
  intros Hexc. unfold load_enso_skill, try_except.
  destruct agentkit as [k|].
  - unfold bind at 1. cbn [ret]. unfold bind at 1. cbn [lift].
    destruct (get_enso_skill E skill _ _ _ _ _) as [t|e] eqn:Hres.
    + by exists [t], s.
    + rewrite (Hexc _ _ _ _ _ _ Hres). cbn. eexists [], _. by rewrite app_nil_r.
  - cbn. eexists [], _. by rewrite app_nil_r.
Qed.

Lemma load_enso_total E aid agent agentkit tools s :
  (∀ skill a b w r i e,
     get_enso_skill E skill a b w r i = Raise e → is_Exception e = true) →
  ∃ extra s', load_enso E aid agent agentkit tools s = (Ok (tools ++ extra), s').
Proof.
  intros Hexc. unfold load_enso.
  destruct (_ && _); [|eexists [], s; by rewrite app_nil_r].
  generalize (default [] (Agent.enso_skills agent)) as skills.
  intros skills. revert tools s.
  induction skills as [|skill skills IH]; intros tools s; simpl.
  - eexists [], s. by rewrite app_nil_r.
  - unfold bind.
    destruct (load_enso_skill_total E aid (default [] (Agent.enso_config agent))
                agentkit tools skill s (Hexc skill)) as (x & s1 & ->).
    destruct (IH (tools ++ x) s1) as (x' & s2 & ->).
    exists (x ++ x'), s2. by rewrite app_assoc.
Qed.

(** C2, as amended.  Only the Enso step is guarded.  With an Enso resolver
    whose failures are [Exception]s, the Enso step returns and keeps the
    tools it was handed; a skill whose resolution raises (or that finds the
    wallet wrapper unbound) leaves a warning in the log and no tool, and the
    loop goes on.  The build of an agent for which the setup of another
    capability raises (the wallet wrapper, a Twitter, Crestal or common
    skill, a skill set) raises too, and installs no pipeline. *)
Theorem enso_guarded_others_abort E aid agent s :
  get_config E aid = Ok agent →
  get_data_fault E aid = None →
  (∀ skill a b w r i e,
     get_enso_skill E skill a b w r i = Raise e → is_Exception e = true) →
  (∀ agentkit tools s1, ∃ extra s2,
     load_enso E aid agent agentkit tools s1 = (Ok (tools ++ extra), s2))
  ∧ (∀ enso_config agentkit tools skill s1 e,
       is_Exception e = true →
       match agentkit with
       | None => e = UnboundLocalError "agentkit"
       | Some k =>
           get_enso_skill E skill (dict_get_default enso_config "api_token" PyNone)
             (dict_get_default enso_config "main_tokens" (PyStrList []))
             (Some (wallet k)) (rpc_base_mainnet (config E)) aid = Raise e
       end →
       load_enso_skill E aid enso_config agentkit tools skill s1
       = (Ok tools, set_log (fun l => l ++ [LogWarning (str_exn e)]) s1))
  ∧ (setup_fails E aid agent (agent_data_store s !! aid) →
     ∃ e s', initialize_agent E aid s = (Raise e, s')
             ∧ agents s' = agents s).
Proof.
  intros Hcfg Hfault Hexc. split_and!.
  - intros agentkit tools s1. by apply load_enso_total.
  - intros enso_config agentkit tools skill s1 e.
    apply load_enso_skill_caught.
  - intros Hfail.
    destruct (load_skills_raises E aid agent _ Hfail (fetched aid agent s))
      as (e & s2 & Hload).
    exists e, s2. split; [exact (initialize_agent_raise E aid s agent e s2 Hcfg Hfault Hload)|].
    pose proof (load_skills_keeps agents E aid agent (agent_data_store s !! aid)
                  ltac:(done) ltac:(done) ltac:(done) (fetched aid agent s)) as Ha.
    by rewrite Hload in Ha.
Qed.

Lemma enso_guarded_others_abort_witness :
  get_config Demo.onchain_world "agent1" = Ok (Demo.onchain_agent "gpt-4o-mini" 10)
  ∧ get_data_fault Demo.onchain_world "agent1" = None
  ∧ ∃ extra s2,
      load_enso Demo.onchain_world "agent1" (Demo.onchain_agent "gpt-4o-mini" 10)
        (Some (mkWrapper 7 "wallet-seed")) [mkTool "transfer" 2] Demo.fresh
      = (Ok ([mkTool "transfer" 2] ++ extra), s2).
Proof.
  split_and!; [reflexivity | reflexivity |].
  apply (enso_guarded_others_abort Demo.onchain_world "agent1"
           (Demo.onchain_agent "gpt-4o-mini" 10) Demo.fresh eq_refl eq_refl).
  intros skill a b w r i e H. vm_compute in H. injection H as <-. reflexivity.
Defined.

(** C2 as stated fails: the agent asks for a Twitter skill whose resolver
    raises, and the build raises instead of completing without it. *)
Lemma twitter_failure_aborts_build :
  get_twitter_skill Demo.social_world "twitter_post_tweet" 0 "agent1"
  = Raise (OtherException "unknown skill: twitter_post_tweet")
  ∧ (initialize_agent Demo.social_world "agent1" Demo.fresh).1
    = Raise (OtherException "unknown skill: twitter_post_tweet")
  ∧ agents (initialize_agent Demo.social_world "agent1" Demo.fresh).2 = ∅.
Proof. split_and!; vm_compute; reflexivity. Qed.

(** ** The vendor without tools *)

(** C6.  A build that returns has installed a pipeline.  For a model
    selector that starts with [deepseek] its model binding goes to
    [https://api.deepseek.com] with the DeepSeek key, its input-token budget
    is 60000, its tool list is empty whatever was resolved, and its prompt
    holds the escaped system prompt (with the escaped [prompt_append] in
    front of it when there is one); for any other selector the binding uses
    the OpenAI key and the default endpoint, with a budget of 120000. *)
Theorem deepseek_build E aid s s' agent :
  get_config E aid = Ok agent →
  initialize_agent E aid s = (Ok tt, s') →
  ∃ g, agents s' !! aid = Some g
    ∧ if is_deepseek agent then
        llm g = mkChatOpenAI (Agent.model agent) (deepseek_api_key (config E))
                  (Some "https://api.deepseek.com"%string)
                  (Agent.frequency_penalty agent) (Agent.presence_penalty agent)
                  (Agent.temperature agent) 180
        ∧ input_token_limit g = 60000%Z
        ∧ tools g = []
        ∧ state_modifier g
          = (if Py.truthy_opt (Agent.prompt_append agent)
             then [("system"%string, escape_braces (default ""%string (Agent.prompt_append agent)))]
             else [])
            ++ [("system"%string, escape_braces (agent_prompt (config E) agent));
                ("placeholder"%string, "{messages}"%string)]
      else
        llm g = mkChatOpenAI (Agent.model agent) (openai_api_key (config E)) None
                  (Agent.frequency_penalty agent) (Agent.presence_penalty agent)
                  (Agent.temperature agent) 180
        ∧ input_token_limit g = 120000%Z.
Proof.
  intros Hcfg Hinit.
  apply initialize_agent_spec in Hinit as (_ & _ & Hres).
  destruct Hres as (agent' & ts & tp & s2 & Hcfg' & _ & _ & Hag & _).
  rewrite Hcfg in Hcfg'. injection Hcfg' as <-.
  eexists. split; [by rewrite Hag, lookup_insert_eq|].
  unfold built, initialize_llm, prompt_array.
  cbn [llm input_token_limit tools state_modifier].
  destruct (is_deepseek agent); [|done].
  split_and!; try done.
  destruct (Py.truthy tp); destruct (Py.truthy_opt (Agent.prompt_append agent)); done.
Qed.

Lemma deepseek_build_witness :
  let s' := (initialize_agent Demo.deepseek_world "agent1" Demo.fresh).2 in
  get_config Demo.deepseek_world "agent1" = Ok (Demo.onchain_agent "deepseek-chat" 10)
  ∧ initialize_agent Demo.deepseek_world "agent1" Demo.fresh = (Ok tt, s')
  ∧ ∃ g, agents s' !! "agent1" = Some g
         ∧ input_token_limit g = 60000 ∧ tools g = []
         ∧ openai_api_base (llm g) = Some "https://api.deepseek.com".
Proof.
  intros s'.
  assert (initialize_agent Demo.deepseek_world "agent1" Demo.fresh = (Ok tt, s')) as Hrun
    by (vm_compute; reflexivity).
  split_and!; [reflexivity | exact Hrun |].
  destruct (deepseek_build Demo.deepseek_world "agent1" Demo.fresh s'
              (Demo.onchain_agent "deepseek-chat" 10) eq_refl Hrun)
    as (g & Hg & Hllm & Hlim & Htools & _).
  exists g. rewrite Hllm. done.
Defined.

(** ** The wallet of the runtime data *)

Lemma keeps_pair {S X Y} (f : S → X) (g : S → Y) {A} (m : M S A) :
  keeps f m → keeps g m → keeps (fun s => (f s, g s)) m.
Proof. intros Hf Hg s. by rewrite Hf, Hg. Qed.

Lemma wrote_store aid w s s1 s2 :
  store_of s1 = store_of s2 → wrote aid w s s1 → wrote aid w s s2.
Proof. unfold store_of, wrote. intros [= -> ->]. done. Qed.

Lemma load_cdp_wallet E aid agent tools s :
  wrote aid (cdp_write E agent (agent_data_store s !! aid)) s
    (load_cdp E aid agent (agent_data_store s !! aid) tools s).2.
Proof.
  unfold load_cdp, cdp_write.
  destruct (Agent.cdp_enabled agent); [|done].
  unfold bind at 1. cbn [lift].
  destruct (CdpAgentkitWrapper_init E _) as [k|e].
  2:{ destruct (stored_wallet _); done. }
  destruct (stored_wallet (agent_data_store s !! aid)) as [w|].
  - cbn. destruct (cdp_get_tools E k); done.
  - cbn. destruct (cdp_get_tools E k); done.
Qed.

Lemma load_skills_wallet E aid agent s :
  wrote aid (cdp_write E agent (agent_data_store s !! aid)) s
    (load_skills E aid agent (agent_data_store s !! aid) s).2.
Proof.
  unfold load_skills. unfold bind at 1.
  pose proof (load_cdp_wallet E aid agent [] s) as Hcdp.
  destruct (load_cdp E aid agent (agent_data_store s !! aid) [] s)
    as [[[agentkit tools]|e] s1]; [|done].
  cbn [snd] in Hcdp. eapply wrote_store; [|exact Hcdp].
  symmetry.
  match goal with |- store_of (?m s1).2 = _ => assert (keeps store_of m) as Hk end.
  { unfold load_enso, load_enso_skill, load_twitter, load_named, load_skill_sets.
    keeps. }
  apply Hk.
Qed.

Lemma initialize_agent_wallet E aid s :
  wrote aid (wallet_written E aid s) s (initialize_agent E aid s).2.
Proof.
  unfold initialize_agent, wallet_written.
  unfold bind at 1. cbn [modify].
  unfold bind at 1. unfold try_except at 1. unfold bind at 1.
  cbn [lift].
  destruct (get_config E aid) as [agent|e] eqn:Hcfg.
  2:{ destruct e; cbn; done. }
  unfold bind at 1. unfold AgentStore.get_data.
  destruct (get_data_fault E aid) as [e|] eqn:Hfault.
  { destruct e; cbn; done. }
  cbn [bind modify ret].
  change (set_agents_updated _ (set_builds S s)) with (fetched aid agent s).
  change (agent_data_store (set_builds S s)) with (agent_data_store s).
  pose proof (load_skills_wallet E aid agent (fetched aid agent s)) as Hw.
  change (agent_data_store (fetched aid agent s)) with (agent_data_store s) in Hw.
  fold (cdp_write E agent (agent_data_store s !! aid)).
  destruct (initialize_llm (config E) agent) as [llm0 lim].
  unfold bind at 1.
  destruct (load_skills E aid agent (agent_data_store s !! aid) (fetched aid agent s))
    as [[[tools tp]|e] s2].
  2:{ exact Hw. }
  unfold bind at 1.
  destruct (log_tools aid (dedup_tools tools) s2) as [l Hl].
  rewrite Hl. unfold bind at 1. cbn [lift].
  destruct (ChatPromptTemplate_from_messages E (prompt_array (config E) agent tp))
    as [[]|e0]; cbn; exact Hw.
Qed.

Lemma wallet_written_truthy E a s w :
  exports_wallets E → wallet_written E a s = Some w → Py.truthy w = true.
Proof.
  intros Hex. unfold wallet_written, cdp_write.
  destruct (get_config E a) as [agent|]; [|done].
  destruct (get_data_fault E a); [done|].
  destruct (Agent.cdp_enabled agent); [|done].
  destruct (stored_wallet _); [done|].
  destruct (CdpAgentkitWrapper_init E _) as [k|] eqn:Hk; [|done].
  intros [= <-]. by eapply Hex.
Qed.

Lemma wallet_written_stored E a s :
  is_Some (stored_wallet (agent_data_store s !! a)) → wallet_written E a s = None.
Proof.
  intros [w Hw]. unfold wallet_written, cdp_write.
  destruct (get_config E a) as [agent|]; [|done].
  destruct (get_data_fault E a); [done|].
  destruct (Agent.cdp_enabled agent); [|done].
  by rewrite Hw.
Qed.

Lemma build_step E a s aid :
  exports_wallets E →
  let s' := (initialize_agent E a s).2 in
  ∃ new, wallet_writes s' = wallet_writes s ++ new
    ∧ (List.length (writes_for aid new) ≤ 1)%nat
    ∧ (writes_for aid new ≠ [] → is_Some (stored_wallet (agent_data_store s' !! aid)))
    ∧ (is_Some (stored_wallet (agent_data_store s !! aid)) →
       writes_for aid new = []
       ∧ is_Some (stored_wallet (agent_data_store s' !! aid))).
Proof.
  intros Hex s'. pose proof (initialize_agent_wallet E a s) as Hw. fold s' in Hw.
  destruct (wallet_written E a s) as [w|] eqn:Hwr; cbn in Hw; destruct Hw as [Hs Hws].
  - exists [(a, w)]. split; [done|]. unfold writes_for.
    rewrite filter_cons, filter_nil. cbn [fst].
    destruct (decide (a = aid)) as [->|Hne].
    + split_and!; [done | |].
      * intros _. rewrite Hs, lookup_insert_eq.
        unfold stored_wallet, with_wallet. cbn.
        rewrite (wallet_written_truthy _ _ _ _ Hex Hwr). by eexists.
      * intros Hst. by rewrite (wallet_written_stored _ _ _ Hst) in Hwr.
    + split_and!; [cbn; lia | done |].
      intros Hst. split; [done|]. by rewrite Hs, lookup_insert_ne.
  - exists []. rewrite app_nil_r. split_and!; try done.
    + cbn. lia.
    + intros Hst. split; [done|]. by rewrite Hs.
Qed.

Lemma run_builds_cons b bs s :
  run_builds (b :: bs) s = run_builds bs (initialize_agent b.1 b.2 s).2.
Proof. done. Qed.

Lemma run_builds_stored bs s aid :
  Forall (fun b => exports_wallets b.1) bs →
  is_Some (stored_wallet (agent_data_store s !! aid)) →
  ∃ new, wallet_writes (run_builds bs s) = wallet_writes s ++ new
    ∧ writes_for aid new = [].
Proof.
  intros Hall. revert s. induction Hall as [|[E a] bs Hex _ IH]; intros s Hst.
  - exists []. by rewrite app_nil_r.
  - rewrite run_builds_cons. cbn [fst snd].
    destruct (build_step E a s aid Hex) as (n1 & Hw1 & _ & _ & Hkeep).
    destruct (Hkeep Hst) as [Hn1 Hst1].
    destruct (IH _ Hst1) as (n2 & Hw2 & Hn2).
    exists (n1 ++ n2). rewrite Hw2, Hw1, app_assoc. split; [done|].
    unfold writes_for in *. by rewrite filter_app, Hn1, Hn2.
Qed.

Lemma run_builds_once bs s aid :
  Forall (fun b => exports_wallets b.1) bs →
  ∃ new, wallet_writes (run_builds bs s) = wallet_writes s ++ new
    ∧ (List.length (writes_for aid new) ≤ 1)%nat.
Proof.
  intros Hall. revert s. induction Hall as [|[E a] bs Hex Hall IH]; intros s.
  - exists []. rewrite app_nil_r. split; [done | cbn; lia].
  - rewrite run_builds_cons. cbn [fst snd].
    destruct (build_step E a s aid Hex) as (n1 & Hw1 & Hlen & Hsome & _).
    destruct (decide (writes_for aid n1 = [])) as [Hnil|Hnot].
    + destruct (IH (initialize_agent E a s).2) as (n2 & Hw2 & Hl2).
      exists (n1 ++ n2). rewrite Hw2, Hw1, app_assoc. split; [done|].
      unfold writes_for in *. by rewrite filter_app, Hnil.
    + destruct (run_builds_stored bs _ aid Hall (Hsome Hnot)) as (n2 & Hw2 & Hn2).
      exists (n1 ++ n2). rewrite Hw2, Hw1, app_assoc. split; [done|].
      unfold writes_for in *. by rewrite filter_app, Hn2, app_nil_r.
Qed.


(** C7.  A build with the wallet capability enabled: when the runtime data
    already holds a wallet, the wrapper is built from it and the store is
    not written; when it holds none and the wrapper comes up, what
    [export_wallet()] returns is in the store when the build ends, however
    it ends; and over any sequence of builds, of this agent or of others,
    the record of an agent is written at most once, the wrappers exporting
    non-empty wallets. *)
Theorem wallet_persisted_once E aid s agent :
  get_config E aid = Ok agent →
  get_data_fault E aid = None →
  Agent.cdp_enabled agent = true →
  let agent_data := agent_data_store s !! aid in
  let s' := (initialize_agent E aid s).2 in
  (∀ w, stored_wallet agent_data = Some w →
        v_cdp_wallet_data (cdp_values (config E) agent agent_data) = Some w
        ∧ agent_data_store s' = agent_data_store s
        ∧ wallet_writes s' = wallet_writes s)
  ∧ (∀ k, stored_wallet agent_data = None →
          CdpAgentkitWrapper_init E (cdp_values (config E) agent agent_data) = Ok k →
          AgentData.cdp_wallet_data <$> agent_data_store s' !! aid
            = Some (Some (export_wallet k))
          ∧ wallet_writes s' = wallet_writes s ++ [(aid, export_wallet k)])
  ∧ (∀ bs, Forall (fun b => exports_wallets b.1) bs →
           ∃ new, wallet_writes (run_builds bs s) = wallet_writes s ++ new
                  ∧ (List.length (writes_for aid new) ≤ 1)%nat).
Proof.
  intros Hcfg Hfault Hcdp agent_data s'.
  pose proof (initialize_agent_wallet E aid s) as Hw.
  unfold wallet_written, cdp_write in Hw. rewrite Hcfg, Hfault, Hcdp in Hw.
  fold agent_data s' in Hw. split_and!.
  - intros w Hst. rewrite Hst in Hw. destruct Hw as [-> ->].
    split; [|done]. unfold cdp_values. by rewrite Hst.
  - intros k Hst Hk. rewrite Hst, Hk in Hw. destruct Hw as [Hs Hws].
    by rewrite Hs, Hws, lookup_insert_eq.
  - intros bs Hall. by apply run_builds_once.
Qed.

Lemma wallet_persisted_once_witness :
  let s' := (initialize_agent Demo.onchain_world "agent1" Demo.fresh).2 in
  get_config Demo.onchain_world "agent1" = Ok (Demo.onchain_agent "gpt-4o-mini" 10)
  ∧ get_data_fault Demo.onchain_world "agent1" = None
  ∧ Agent.cdp_enabled (Demo.onchain_agent "gpt-4o-mini" 10) = true
  ∧ AgentData.cdp_wallet_data <$> agent_data_store s' !! "agent1"
    = Some (Some "wallet-seed")
  ∧ wallet_writes s' = [("agent1", "wallet-seed")].
Proof.
  intros s'.
  destruct (wallet_persisted_once Demo.onchain_world "agent1" Demo.fresh
              (Demo.onchain_agent "gpt-4o-mini" 10) eq_refl eq_refl eq_refl)
    as (_ & Hwrite & _).
  destruct (Hwrite (mkWrapper 7 "wallet-seed") eq_refl eq_refl) as [Hst Hws].
  split_and!; [reflexivity | reflexivity | reflexivity | exact Hst | exact Hws].
Defined.

(** ** Computations that read nothing of the state but the clock *)

Lemma set_ticks_0 s : set_ticks (fun t => 0 + t)%nat s = s.
Proof. by destruct s. Qed.

Lemma clocked_ret {A} (a : A) : clocked (ret a).
Proof. intros s. exists 0%nat. rewrite set_ticks_0. split; [done|]. intros s2 _. by rewrite set_ticks_0. Qed.

Lemma clocked_raise {A} e : clocked (@raise _ A e).
Proof. intros s. exists 0%nat. rewrite set_ticks_0. split; [done|]. intros s2 _. by rewrite set_ticks_0. Qed.

Lemma clocked_perf_counter E : clocked (perf_counter E).
Proof.
  intros s. exists 1%nat. split; [done|]. intros s2 Ht.
  unfold perf_counter. by rewrite Ht.
Qed.

Lemma clocked_bind {A B} (m : M EngineState A) (k : A → M EngineState B) :
  clocked m → (∀ a, clocked (k a)) → clocked (bind m k).
Proof.
  intros Hm Hk s. destruct (Hm s) as (n & Hs & Hm2). unfold bind.
  destruct (m s) as [[a|e] s1] eqn:Hms; cbn in Hs, Hm2; subst s1.
  - destruct (Hk a (set_ticks (fun t => n + t)%nat s)) as (n' & Hs' & Hk2).
    exists (n' + n)%nat. split.
    + rewrite Hs'. destruct s; unfold set_ticks; cbn. f_equal. lia.
    + intros s2 Ht. rewrite (Hm2 s2 Ht).
      rewrite (Hk2 (set_ticks (fun t => n + t)%nat s2)) by (cbn; by rewrite Ht).
      f_equal. destruct s2; unfold set_ticks; cbn. f_equal. lia.
  - exists n. split; [done|]. intros s2 Ht. by rewrite (Hm2 s2 Ht).
Qed.

Lemma clocked_for_in {A B} (l : list A) (body : B → A → M EngineState B) acc :
  (∀ b a, clocked (body b a)) → clocked (for_in l body acc).
Proof.
  intros Hb. revert acc. induction l as [|x l IH]; intros acc; simpl.
  - apply clocked_ret.
  - apply clocked_bind; [apply Hb | apply IH].
Qed.

Lemma clocked_on_chunk E acc chunk : clocked (on_chunk E acc chunk).
Proof.
  unfold on_chunk. destruct acc as [[rd r] last].
  destruct (chunk_agent chunk) as [v|].
  - destruct (Py.truthy v);
      repeat (apply clocked_bind; [apply clocked_perf_counter | intros ?]);
      apply clocked_ret.
  - destruct (chunk_tools chunk) as [c|]; [|apply clocked_ret].
    repeat (apply clocked_bind; [apply clocked_perf_counter | intros ?]);
      apply clocked_ret.
Qed.

Lemma clocked_stream E g message thread_id acc :
  clocked (stream E g message thread_id acc).
Proof.
  unfold stream. destruct (astream E g message thread_id) as [chunks failure].
  apply clocked_bind; [apply clocked_for_in, clocked_on_chunk | intros acc'].
  apply clocked_bind; [|intros _; apply clocked_ret].
  destruct failure; [apply clocked_raise | apply clocked_ret].
Qed.

(** ** What the loop appends *)

Section loop.
Context (E : Env).

Lemma on_chunk_acc (rd r : list string) last chunk s (acc' : list string * list string * pytime (clock E)) s' :
  on_chunk E (rd, r, last) chunk s = (Ok acc', s') →
  ∃ ext, acc'.1.1 = rd ++ ext
    ∧ (r `sublist_of` rd → acc'.1.2 `sublist_of` acc'.1.1)
    ∧ (∀ v, chunk_agent chunk = Some v → Py.truthy v = false →
            ∃ d, ext = [thinking; cost_segment E "agent" d])
    ∧ acc'.1.2 = r ++ visible_texts [chunk].
Proof.
  unfold on_chunk, visible_texts. cbn [omap list_omap].
  destruct (chunk_agent chunk) as [v|].
  - destruct (Py.truthy v) eqn:Hv; cbn; intros [= <- <-]; cbn.
    + eexists. rewrite <- !app_assoc. split; [done|]. split_and!; [| |done].
      * intros Hsub. rewrite app_assoc. apply sublist_inserts_r.
        apply sublist_app; [done|]. apply sublist_cons. done.
      * intros v' [= <-] Hf. congruence.
    + eexists. rewrite <- !app_assoc. split; [done|]. split_and!.
      * intros Hsub. by apply sublist_inserts_r.
      * intros v' [= <-] _. by eexists.
      * by rewrite app_nil_r.
  - destruct (chunk_tools chunk) as [c|]; cbn; intros [= <- <-]; cbn.
    + eexists. rewrite <- !app_assoc. split; [done|]. split_and!; [|done|].
      * intros Hsub. by apply sublist_inserts_r.
      * by rewrite app_nil_r.
    + exists []. rewrite !app_nil_r. done.
Qed.

Lemma for_in_on_chunk chunks (rd r : list string) last s (acc' : list string * list string * pytime (clock E)) s' :
  for_in chunks (on_chunk E) (rd, r, last) s = (Ok acc', s') →
  (∃ ext, acc'.1.1 = rd ++ ext)
  ∧ (r `sublist_of` rd → acc'.1.2 `sublist_of` acc'.1.1)
  ∧ (∀ chunk v, chunk ∈ chunks → chunk_agent chunk = Some v → Py.truthy v = false →
       ∃ pre d post, acc'.1.1 = pre ++ [thinking; cost_segment E "agent" d] ++ post)
  ∧ acc'.1.2 = r ++ visible_texts chunks.
Proof.
  revert rd r last s. induction chunks as [|c chunks IH]; intros rd r last s;
    cbn [for_in].
  - intros [= <- <-]. cbn. split_and!; try done.
    + exists []. by rewrite app_nil_r.
    + intros chunk v Hin. by apply elem_of_nil in Hin.
    + by rewrite app_nil_r.
  - unfold bind.
    destruct (on_chunk E (rd, r, last) c s) as [[[[rd1 r1] last1]|e] s1] eqn:Hc; [|intros [=]].
    apply on_chunk_acc in Hc as (ext & Hrd1 & Hsub1 & Hthink & Hvis). cbn in *.
    intros Hrest. apply IH in Hrest as ((ext' & Hrd') & Hsub' & Hex' & Hall').
    split_and!.
    + exists (ext ++ ext'). by rewrite Hrd', Hrd1, app_assoc.
    + intros Hsub. auto.
    + intros chunk v Hin Hag Hv. apply elem_of_cons in Hin as [->|Hin].
      * destruct (Hthink v Hag Hv) as [d ->].
        exists rd, d, ext'. by rewrite Hrd', Hrd1, <- app_assoc.
      * by eapply Hex'.
    + rewrite Hall', Hvis, <- app_assoc. f_equal.
      unfold visible_texts. cbn [omap list_omap].
      by destruct (match chunk_agent c with Some _ => _ | None => _ end).
Qed.
End loop.

Lemma stream_acc E g message thread_id (rd r : list string) last s acc' s' :
  stream E g message thread_id (rd, r, last) s = (Ok acc', s') →
  (∃ ext, acc'.1.1 = rd ++ ext)
  ∧ (r `sublist_of` rd → acc'.1.2 `sublist_of` acc'.1.1)
  ∧ (∀ chunk v, chunk ∈ (astream E g message thread_id).1 →
       chunk_agent chunk = Some v → Py.truthy v = false →
       ∃ pre d post, acc'.1.1 = pre ++ [thinking; cost_segment E "agent" d] ++ post)
  ∧ acc'.1.2 = r ++ visible_texts (astream E g message thread_id).1.
Proof.
  unfold stream. destruct (astream E g message thread_id) as [chunks failure].
  unfold bind at 1.
  destruct (for_in chunks (on_chunk E) (rd, r, last) s) as [[acc1|e] s1] eqn:Hloop;
    [|intros [=]].
  apply for_in_on_chunk in Hloop.
  destruct failure; cbn; [intros [=]|]. by intros [= <- <-].
Qed.

Lemma debug_prompt_failure E agent g thread_id s e :
  is_Exception e = true →
  aget_state E g thread_id = Raise e →
  debug_prompt E agent g thread_id s
  = (Ok ""%string,
     set_log (fun l => l ++ [LogError ("failed to get debug prompt: " ++ str_exn e)%string]) s).
Proof.
  intros Hex Hsnap. unfold debug_prompt, try_except.
  unfold bind at 1. cbn [lift]. rewrite Hsnap, Hex. done.
Qed.

(** C8.  When [aget_state] raises an [Exception], a debug-mode execution
    returns whenever the normal-mode execution does: its trace ends in an
    empty debug block, and what comes before that block holds, in order,
    every text of the normal-mode answer. *)
Theorem debug_snapshot_failure E aid message thread_id s e resp s1 :
  is_Exception e = true →
  (∀ g, aget_state E g thread_id = Raise e) →
  execute_agent E aid message thread_id false s = (Ok resp, s1) →
  ∃ trace s2,
    execute_agent E aid message thread_id true s = (Ok (trace ++ [""%string]), s2)
    ∧ resp `sublist_of` trace.
Proof.
  intros Hex Hsnap Hrun. unfold execute_agent in *.
  unfold bind at 1 in Hrun. unfold bind at 1.
  destruct (execute_agent_prepare E aid message thread_id s) as [[p|e0] sp];
    [|discriminate Hrun].
  unfold bind at 1 in Hrun. unfold bind at 1. cbn [ret] in Hrun.
  rewrite (debug_prompt_failure _ _ _ _ _ e Hex (Hsnap _)).
  set (sl := set_log _ sp).
  destruct (clocked_stream E (p_executor p) message thread_id
              (p_resp_debug p, [], p_last p) sp) as (n & Hs2 & Hsame).
  unfold bind at 1 in Hrun. unfold bind at 1.
  rewrite (Hsame sl) by done.
  destruct (stream E (p_executor p) message thread_id (p_resp_debug p, [], p_last p) sp)
    as [[[[rd r] last]|e1] s_st] eqn:Hst; [|discriminate Hrun].
  cbn [fst snd] in Hs2 |- *. subst s_st.
  apply stream_acc in Hst as (_ & Hsub & _). cbn in Hsub.
  cbn in Hrun |- *. injection Hrun as <- <-.
  eexists (rd ++ [_]), _. split; [done|].
  apply sublist_inserts_r, Hsub, sublist_nil_l.
Qed.

Lemma debug_snapshot_failure_witness :
  is_Exception (OtherException "connection reset") = true
  ∧ (∀ g, aget_state Demo.blind_world g "t1" = Raise (OtherException "connection reset"))
  ∧ (execute_agent Demo.blind_world "agent1" Demo.hi "t1" false Demo.fresh).1
    = Ok ["It is 42."]
  ∧ ∃ trace s2,
      execute_agent Demo.blind_world "agent1" Demo.hi "t1" true Demo.fresh
      = (Ok (trace ++ [""]), s2)
      ∧ ["It is 42."] `sublist_of` trace.
Proof.
  split_and!; [reflexivity | done | vm_compute; reflexivity |].
  apply (debug_snapshot_failure Demo.blind_world "agent1" Demo.hi "t1" Demo.fresh
           (OtherException "connection reset") ["It is 42."]
           (execute_agent Demo.blind_world "agent1" Demo.hi "t1" false Demo.fresh).2
           eq_refl (fun _ => eq_refl)).
  vm_compute. reflexivity.
Defined.






(** ** [LIKE] on patterns without metacharacters *)

Lemma like_cons c p s :
  Sql.is_meta c = false →
  Sql.like s (String c p)
  = match s with
    | EmptyString => false
    | String c' s' => Ascii.eqb c c' && Sql.like s' p
    end.
Proof.
  unfold Sql.is_meta, Sql.like. intros Hc. cbn [Sql.tokens].
  destruct (Ascii.eqb c "%") eqn:H1; [done|].
  destruct (Ascii.eqb c "_") eqn:H2; [done|].
  destruct (Ascii.eqb c "\") eqn:H3; [done|].
  destruct (Sql.tokens p) as [ts|]; cbn.
  - done.
  - destruct s; [done|]. by rewrite andb_false_r.
Qed.

Lemma literal_tokens p : Sql.literal p = true → is_Some (Sql.tokens p).
Proof.
  induction p as [|c p IH]; cbn; [by eexists|].
  intros [Hc Hp]%andb_prop. apply negb_true_iff in Hc. apply IH in Hp as [ts Hts].
  unfold Sql.is_meta in Hc.
  destruct (Ascii.eqb c "%") eqn:H1; [done|].
  destruct (Ascii.eqb c "_") eqn:H2; [done|].
  destruct (Ascii.eqb c "\") eqn:H3; [done|].
  rewrite Hts. by eexists.
Qed.

Lemma like_literal p s : Sql.literal p = true → Sql.like s p = true ↔ s = p.
Proof.
  revert s. induction p as [|c p IH]; intros s; cbn.
  - intros _. unfold Sql.like. cbn. by destruct s.
  - intros [Hc Hp]%andb_prop. apply negb_true_iff in Hc.
    rewrite (like_cons _ _ _ Hc). destruct s as [|c' s']; [done|].
    rewrite andb_true_iff, (IH s' Hp). split.
    + intros [Heq ->]. apply Ascii.eqb_eq in Heq. by subst.
    + intros [= -> ->]. split; [apply Ascii.eqb_refl | done].
Qed.

Lemma run_any s :
  (fix run (s : string) : bool :=
     Sql.matches [] s || match s with
                         | EmptyString => false
                         | String _ s' => run s'
                         end) s = true.
Proof. induction s as [|c s IH]; [done|]. by rewrite IH, orb_true_r. Qed.

Lemma like_percent s : Sql.like s "%" = true.
Proof.
  unfold Sql.like. change (Sql.tokens "%") with (Some [Sql.AnyRun]).
  cbn [Sql.matches]. apply run_any.
Qed.

Lemma literal_app p q :
  Sql.literal (p ++ q)%string = Sql.literal p && Sql.literal q.
Proof.
  induction p as [|c p IH]; [done|].
  change (String c p ++ q)%string with (String c (p ++ q)%string).
  cbn [Sql.literal]. by rewrite IH, andb_assoc.
Qed.

Lemma like_prefix a s :
  Sql.literal a = true →
  Sql.like s (a ++ "-%")%string = true ↔ ∃ t, s = (a ++ "-" ++ t)%string.
Proof.
  revert s. induction a as [|c a IH]; intros s.
  - change (("" ++ "-%")%string) with (String "-"%char "%"). intros _.
    rewrite like_cons by done.
    destruct s as [|c' s']; [split; [done | by intros [? ?]]|].
    rewrite like_percent, andb_true_r. split.
    + intros Heq. apply Ascii.eqb_eq in Heq. subst. by eexists.
    + intros [t [= <- _]]. apply Ascii.eqb_refl.
  - change ((String c a ++ "-%")%string) with (String c (a ++ "-%")%string).
    cbn [Sql.literal]. intros [Hc Ha]%andb_prop. apply negb_true_iff in Hc.
    rewrite (like_cons _ _ _ Hc). destruct s as [|c' s']; [split; [done | by intros [? ?]]|].
    rewrite andb_true_iff, (IH s' Ha). split.
    + intros [Heq [t ->]]. apply Ascii.eqb_eq in Heq. subst. by eexists.
    + intros [t [= -> ->]]. split; [apply Ascii.eqb_refl | by eexists].
Qed.

(** ** [clean_agent_memory] when the database answers every round trip *)

Lemma round_trip_ok E s :
  (∀ n, fault E n = None) →
  round_trip E s = (Ok tt, mkDbState (committed s) (db_log s) (S (round_trips s))).
Proof. intros Hf. unfold round_trip. by rewrite Hf. Qed.

Lemma execute_ok E db st s :
  (∀ n, fault E n = None) →
  match st with
  | DeleteCheckpointsLike _ value => is_Some (Sql.tokens value)
  | _ => True
  end →
  execute E db st s
  = (Ok (db ++ [st]), mkDbState (committed s) (db_log s) (S (round_trips s))).
Proof.
  intros Hf Hst. unfold execute, bind. by rewrite round_trip_ok.
Qed.

Lemma commit_ok E db s :
  (∀ n, fault E n = None) →
  commit E db s
  = (Ok [], mkDbState (foldl apply_statement (committed s) db) (db_log s)
                      (S (round_trips s))).
Proof. intros Hf. unfold commit, bind. rewrite round_trip_ok by done. done. Qed.

Lemma clean_data_ok E (st : Statement) s :
  (∀ n, fault E n = None) →
  match st with DeleteCheckpointsLike _ _ => False | _ => True end →
  ∃ n, with_session E (fun db => bind (execute E db st) (fun db => ret (tt, db))) s
       = (Ok tt, mkDbState
                   (foldl apply_statement (committed s)
                      (if exit_commits E then [st] else []))
                   (db_log s) (n + round_trips s)).
Proof.
  intros Hf Hst. unfold with_session. unfold bind at 1. unfold bind at 1.
  rewrite execute_ok by (done || by destruct st).
  cbn [ret app]. unfold bind at 1.
  destruct (exit_commits E).
  - rewrite commit_ok by done. cbn. by exists 2%nat.
  - cbn. by exists 1%nat.
Qed.

Lemma thread_clean_data_ok E A T s :
  (∀ n, fault E n = None) →
  ∃ n, ThreadSkillData.clean_data E A T s
       = (Ok tt, mkDbState
                   (foldl apply_statement (committed s)
                      (if exit_commits E then [thread_skill_delete A T] else []))
                   (db_log s) (n + round_trips s)).
Proof.
  intros Hf. unfold ThreadSkillData.clean_data, thread_skill_delete.
  destruct (Py.truthy T && negb (String.eqb T "")).
  - by apply (clean_data_ok E (DeleteThreadSkillDataOf A T)).
  - by apply (clean_data_ok E (DeleteThreadSkillData A)).
Qed.

Lemma clean_agent_memory_ok E A T conversation skills s :
  (∀ n, fault E n = None) →
  is_Some (Sql.tokens (deletion_param A T)) →
  conversation || skills = true →
  ∃ n, clean_agent_memory E A T conversation skills s
       = (Ok "Agent data cleaned up successfully."%string,
          mkDbState (foldl apply_statement (committed s)
                       (purged E A T conversation skills))
                    (db_log s) n).
Proof.
  intros Hf Htok Hflag. unfold clean_agent_memory, with_session, purged.
  unfold bind at 1. unfold try_except. unfold bind at 1.
  assert (negb skills && negb conversation = false) as ->
    by (destruct skills, conversation; done).
  cbn [ret]. unfold bind at 1.
  set (sk := if skills then _ else _).
  assert (∃ n, sk s = (Ok tt, mkDbState
                 (foldl apply_statement (committed s)
                    (if skills && exit_commits E
                     then [DeleteAgentSkillData A; thread_skill_delete A T] else []))
                 (db_log s) n)) as [n1 Hsk].
  { subst sk. destruct skills; [|destruct s; by eexists].
    unfold AgentSkillData.clean_data. unfold bind at 1.
    destruct (clean_data_ok E (DeleteAgentSkillData A) s Hf I) as [n ->].
    destruct (thread_clean_data_ok E A T
                (mkDbState (foldl apply_statement (committed s)
                              (if exit_commits E then [DeleteAgentSkillData A] else []))
                           (db_log s) (n + round_trips s)) Hf) as [n' ->].
    cbn. destruct (exit_commits E); by eexists. }
  rewrite Hsk. unfold bind at 1.
  destruct conversation.
  - unfold bind at 1. rewrite execute_ok by done.
    unfold bind at 1. rewrite execute_ok by done.
    rewrite execute_ok by done. unfold bind at 1. rewrite commit_ok by done.
    cbn. rewrite foldl_app. destruct (exit_commits E); by eexists.
  - cbn [ret]. unfold bind at 1. rewrite commit_ok by done. cbn.
    rewrite app_nil_r. destruct (exit_commits E); by eexists.
Qed.

Lemma prefix_app p s : String.prefix p s = true ↔ ∃ t, s = (p ++ t)%string.
Proof.
  revert s. induction p as [|c p IH]; intros s.
  - split; [intros _; exists s; reflexivity | intros _; by destruct s].
  - destruct s as [|c' s']; cbn [String.prefix].
    + split; [done | by intros [? ?]].
    + destruct (Ascii.ascii_dec c c') as [->|Hne].
      * rewrite IH. split; [intros [t ->]; by exists t | intros [t [= ->]]; by exists t].
      * split; [done | intros [t [= -> _]]; done].

Qed.

Lemma string_app_assoc (a b c : string) :
  ((a ++ b) ++ c = a ++ (b ++ c))%string.
Proof.
  induction a as [|x a IH]; [done|].
  change (String x (((a ++ b) ++ c))%string = String x (a ++ (b ++ c))%string).
  by rewrite IH.
Qed.

Lemma deletion_param_thread A T :
  Py.strip T ≠ ""%string → deletion_param A T = (A ++ "-" ++ Py.strip T)%string.
Proof. unfold deletion_param. by destruct (Py.strip T). Qed.

Lemma deletion_param_all A T :
  Py.strip T = ""%string → deletion_param A T = (A ++ "-%")%string.
Proof. unfold deletion_param. by intros ->. Qed.

Lemma deletion_param_tokens A T :
  Sql.literal A = true → Sql.literal (Py.strip T) = true →
  is_Some (Sql.tokens (deletion_param A T)).
Proof.
  intros HA HT. destruct (decide (Py.strip T = ""%string)) as [He|Hne].
  - rewrite (deletion_param_all _ _ He).
    assert (Sql.literal (A ++ "-")%string = true) as Hlit
      by (by rewrite literal_app, HA).
    destruct (literal_tokens _ Hlit) as [ts Hts].
    clear -HA. induction A as [|c A IH].
    + by eexists.
    + change ((String c A ++ "-%")%string) with (String c (A ++ "-%")%string).
      cbn [Sql.literal] in HA. apply andb_prop in HA as [Hc HA].
      apply negb_true_iff in Hc. unfold Sql.is_meta in Hc. cbn [Sql.tokens].
      destruct (Ascii.eqb c "%") eqn:H1; [done|].
      destruct (Ascii.eqb c "_") eqn:H2; [done|].
      destruct (Ascii.eqb c "\") eqn:H3; [done|].
      destruct (IH HA) as [ts ->]. by eexists.
  - rewrite (deletion_param_thread _ _ Hne). apply literal_tokens.
    by rewrite !literal_app, HA, HT.
Qed.

Lemma checkpoint_rows_skill db sts tbl :
  Forall (fun st => match st with DeleteCheckpointsLike _ _ => False | _ => True end) sts →
  checkpoint_rows (foldl apply_statement db sts) tbl = checkpoint_rows db tbl.
Proof.
  intros Hall. revert db. induction Hall as [|st sts Hst _ IH]; intros db; [done|].
  cbn [foldl]. rewrite IH. by destruct st.
Qed.

Lemma purged_checkpoints E A T skills db tbl :
  checkpoint_rows (foldl apply_statement db (purged E A T true skills)) tbl
  = filter (fun r => Sql.like (thread_id r) (deletion_param A T) = false)
           (checkpoint_rows db tbl).
Proof.
  unfold purged. rewrite foldl_app. cbn [foldl apply_statement checkpoint_rows].
  assert (∀ t, checkpoint_rows (foldl apply_statement db
            (if skills && exit_commits E
             then [DeleteAgentSkillData A; thread_skill_delete A T] else [])) t
          = checkpoint_rows db t) as Hsk.
  { intros t. apply checkpoint_rows_skill. destruct (skills && exit_commits E); [|done].
    repeat constructor. unfold thread_skill_delete. by destruct (_ && _). }
  destruct tbl; cbn; by rewrite Hsk.
Qed.

Lemma purged_agent_skill E A T conversation skills db r :
  r ∈ agent_skill_data db → asd_agent_id r ≠ A →
  r ∈ agent_skill_data (foldl apply_statement db (purged E A T conversation skills)).
Proof.
  intros Hin Hne. unfold purged. rewrite foldl_app.
  assert (r ∈ agent_skill_data (foldl apply_statement db
            (if skills && exit_commits E
             then [DeleteAgentSkillData A; thread_skill_delete A T] else []))) as H1.
  { destruct (skills && exit_commits E); [|done]. cbn [foldl].
    unfold thread_skill_delete. destruct (_ && _); cbn; by apply list_elem_of_filter. }
  by destruct conversation.
Qed.

Lemma purged_thread_skill E A T conversation skills db r :
  r ∈ thread_skill_data db →
  tsd_agent_id r ≠ A ∨ (T ≠ ""%string ∧ tsd_thread_id r ≠ T) →
  r ∈ thread_skill_data (foldl apply_statement db (purged E A T conversation skills)).
Proof.
  intros Hin Hne. unfold purged. rewrite foldl_app.
  assert (r ∈ thread_skill_data (foldl apply_statement db
            (if skills && exit_commits E
             then [DeleteAgentSkillData A; thread_skill_delete A T] else []))) as H1.
  { destruct (skills && exit_commits E); [|done]. cbn [foldl].
    unfold thread_skill_delete. destruct T as [|c T]; cbn.
    - apply list_elem_of_filter. split; [|done]. by destruct Hne as [?|[? _]].
    - apply list_elem_of_filter. split; [|done]. intros [? ?].
      destruct Hne as [?|[_ ?]]; done. }
  by destruct conversation.
Qed.

(** C4, as amended.  A purge of the conversation of agent [A] that meets no
    database fault, [A] and the stripped [T] holding none of [%], [_] and
    the backslash: when the stripped [T] is not empty, each of the three
    checkpoint tables loses exactly the rows whose [thread_id] is
    [A-strip(T)]; when it is empty, exactly the rows whose [thread_id]
    starts with [A-].  A thread-skill row of another agent, or (a [T] being
    given) of another thread, stays, and so does an agent-skill row of
    another agent. *)
Theorem purge_conversation_frame E A T skills s :
  (∀ n, fault E n = None) →
  Sql.literal A = true →
  Sql.literal (Py.strip T) = true →
  ∃ s', clean_agent_memory E A T true skills s
        = (Ok "Agent data cleaned up successfully."%string, s')
    ∧ (Py.strip T ≠ ""%string → ∀ tbl,
         checkpoint_rows (committed s') tbl
         = filter (fun r => thread_id r ≠ (A ++ "-" ++ Py.strip T)%string)
                  (checkpoint_rows (committed s) tbl))
    ∧ (Py.strip T = ""%string → ∀ tbl,
         checkpoint_rows (committed s') tbl
         = filter (fun r => String.prefix (A ++ "-") (thread_id r) = false)
                  (checkpoint_rows (committed s) tbl))
    ∧ (∀ r, r ∈ thread_skill_data (committed s) →
            tsd_agent_id r ≠ A ∨ (T ≠ ""%string ∧ tsd_thread_id r ≠ T) →
            r ∈ thread_skill_data (committed s'))
    ∧ (∀ r, r ∈ agent_skill_data (committed s) → asd_agent_id r ≠ A →
            r ∈ agent_skill_data (committed s')).
Proof.
  intros Hf HA HT.
  destruct (clean_agent_memory_ok E A T true skills s Hf
              (deletion_param_tokens A T HA HT) eq_refl) as [n Hrun].
  eexists. split; [exact Hrun|]. cbn [committed]. split_and!.
  - intros Hne tbl. rewrite purged_checkpoints, (deletion_param_thread _ _ Hne).
    apply list_filter_iff. intros r.
    assert (Sql.literal (A ++ "-" ++ Py.strip T)%string = true) as Hlit
      by (by rewrite !literal_app, HA, HT).
    pose proof (like_literal _ (thread_id r) Hlit) as Hl.
    destruct (Sql.like (thread_id r) _); split; intros H; try done.
    + exfalso. apply H. by apply Hl.
    + intros Heq. apply Hl in Heq. done.
  - intros He tbl. rewrite purged_checkpoints, (deletion_param_all _ _ He).
    apply list_filter_iff. intros r.
    pose proof (like_prefix A (thread_id r) HA) as Hl.
    pose proof (prefix_app (A ++ "-") (thread_id r)) as Hp.
    assert (Sql.like (thread_id r) (A ++ "-%") = String.prefix (A ++ "-") (thread_id r)) as ->; [|done].
    destruct (Sql.like _ _), (String.prefix _ _); try done.
    + destruct (proj1 Hl eq_refl) as [t Ht]. symmetry. apply Hp. exists t.
      by rewrite Ht, string_app_assoc.
    + destruct (proj1 Hp eq_refl) as [t Ht]. apply Hl. exists t.
      by rewrite Ht, string_app_assoc.
  - intros r. apply purged_thread_skill.
  - intros r. apply purged_agent_skill.
Qed.

Lemma purge_conversation_frame_witness :
  (∀ n, fault Demo.steady n = None)
  ∧ Sql.literal "A" = true
  ∧ Sql.literal (Py.strip " T1 ") = true
  ∧ ∃ s', clean_agent_memory Demo.steady "A" " T1 " true false Demo.stored
          = (Ok "Agent data cleaned up successfully.", s')
          ∧ checkpoint_rows (committed s') checkpoints = Demo.rows ["A-T2"; "B-T1"].
Proof.
  split_and!; [done | reflexivity | reflexivity |].
  destruct (purge_conversation_frame Demo.steady "A" " T1 " false Demo.stored
              (fun _ => eq_refl) eq_refl eq_refl) as (s' & Hrun & Hthread & _).
  exists s'. split; [exact Hrun|].
  rewrite (Hthread ltac:(done) checkpoints). reflexivity.
Defined.

(** C4 as stated fails.  Purging thread [T_] of agent [A] also removes the
    rows of thread [T2]: the underscore of the thread id is a wildcard of
    [LIKE].  And purging the thread id that is one blank, which is not
    empty, removes the rows of every thread of [A]. *)
Lemma purge_reaches_other_threads :
  mkCheckpointRow "A-T2" "state" ∈ checkpoint_rows Demo.database checkpoints
  ∧ checkpoint_rows
      (committed (clean_agent_memory Demo.steady "A" "T_" true false Demo.stored).2)
      checkpoints = Demo.rows ["B-T1"]
  ∧ checkpoint_rows
      (committed (clean_agent_memory Demo.steady "A" " " true false Demo.stored).2)
      checkpoints = Demo.rows ["B-T1"].
Proof.
  split_and!; [|vm_compute; reflexivity..].
  apply elem_of_cons. right. apply elem_of_cons. by left.
Qed.

(** C3.  The purge is not one atomic unit, whichever way the sessions of
    [get_session] end.  With sessions that commit nothing on their own, a
    purge of both kinds that meets no fault reports success and has deleted
    the checkpoint rows, while every skill row is still there; with
    sessions that commit when their block ends, a purge whose first
    checkpoint statement fails raises, and the skill rows of the agent are
    gone while its checkpoint rows are all there. *)
Theorem clean_agent_memory_not_atomic :
  (let run := clean_agent_memory Demo.steady "A" "T1" true true Demo.stored in
   run.1 = Ok "Agent data cleaned up successfully."
   ∧ checkpoint_rows (committed run.2) checkpoints = Demo.rows ["A-T2"; "B-T1"]
   ∧ agent_skill_data (committed run.2) = agent_skill_data Demo.database
   ∧ thread_skill_data (committed run.2) = thread_skill_data Demo.database)
  ∧ (let run := clean_agent_memory (Demo.failing 4) "A" "T1" true true Demo.stored in
     run.1 = Raise (HTTPException 500 "connection lost")
     ∧ checkpoint_rows (committed run.2) checkpoints
       = checkpoint_rows Demo.database checkpoints
     ∧ agent_skill_data (committed run.2)
       = [mkAgentSkillRow "B" "twitter" "cursor" "2"]
     ∧ thread_skill_data (committed run.2)
       = [mkThreadSkillRow "T2" "enso" "k" "A" "y";
          mkThreadSkillRow "T1" "enso" "k" "B" "z"]).
Proof. split; split_and!; vm_compute; reflexivity. Qed.

(** ** The Enso token tool *)
(** C10.  [_arun] returns what [_run] returns without arguments, whatever
    it is called with: the request goes to the tokens endpoint with the
    parameters [page = 1] and [includeMetadata = true] and no other. *)
Theorem arun_ignores_arguments (self : EnsoGetTokens.Tool) (kwargs : PyDict) :
  EnsoGetTokens._arun self kwargs = EnsoGetTokens._run self []
  ∧ EnsoGetTokens._arun self kwargs
    = match EnsoGetTokens.client_get self
              (EnsoGetTokens.mkRequest
                 (EnsoGetTokens.base_url self ++ "/api/v1/tokens")%string
                 [("accept", "application/json");
                  ("Authorization", ("Bearer " ++ EnsoGetTokens.api_token self))]%string
                 [("page", PyInt 1); ("includeMetadata", PyStr "true")]%string) with
      | EnsoGetTokens.Data items =>
          EnsoGetTokens.mkOutput
            (Some (List.filter
                     (fun item => EnsoGetTokens.has_apy item
                                  || EnsoGetTokens.is_main self item) items))
            None
      | EnsoGetTokens.RequestError m =>
          EnsoGetTokens.mkOutput None (Some ("Request error: " ++ m)%string)
      | EnsoGetTokens.HTTPStatusError m =>
          EnsoGetTokens.mkOutput None (Some ("HTTP error: " ++ m)%string)
      | EnsoGetTokens.Failure m => EnsoGetTokens.mkOutput None (Some m)
      end.
Proof. split; reflexivity. Qed.

(** The synchronous path does read its arguments. *)
Example run_reads_arguments :
  EnsoGetTokens.params
    (EnsoGetTokens.request Demo.enso_tool
       [("chain_id", PyInt 8453); ("underlying_tokens", PyStrList ["0xa"; "0xb"])])
  = [("page", PyInt 1); ("includeMetadata", PyStr "true");
     ("chainId", PyInt 8453); ("underlyingTokens", PyStr "0xa,0xb")].
Proof. reflexivity. Qed.


(** * Further properties *)

(** ** The engine: errors and the shape of the trace *)

(** X1.  An execution for an identity that Agent.get does not know raises
    HTTPException 404 [Agent not found] after one clock reading: nothing is
    built, logged or cached. *)
Theorem execute_agent_unknown E aid message thread_id debug s :
  Agent_get E aid = None →
  execute_agent E aid message thread_id debug s
  = (Raise (HTTPException 404 "Agent not found"), set_ticks S s).
Proof.
  intros Hget. unfold execute_agent, execute_agent_prepare.
  unfold bind at 1. unfold bind at 1. cbn [perf_counter].
  unfold bind at 1. by rewrite Hget.
Qed.

Lemma execute_agent_unknown_witness :
  Agent_get Cases.empty_world "ghost" = None
  ∧ execute_agent Cases.empty_world "ghost" Demo.hi "t1" false Demo.fresh
    = (Raise (HTTPException 404 "Agent not found"), set_ticks S Demo.fresh).
Proof.
  split; [reflexivity|]. apply execute_agent_unknown. reflexivity.
Defined.

(** X2.  When fetching the configuration or the runtime data fails, the build
    raises and installs nothing: NoResultFound becomes HTTPException 404
    [Agent not found], any other SQLAlchemyError becomes HTTPException 500
    with its message, which is also logged as an error, and every other
    exception propagates as it is; the cache, the timestamps and the
    runtime-data store are left as they were. *)
Theorem initialize_agent_fetch_error E aid s e :
  get_config E aid = Raise e
  ∨ (∃ agent, get_config E aid = Ok agent) ∧ get_data_fault E aid = Some e →
  let r := (initialize_agent E aid s).1 in
  let s' := (initialize_agent E aid s).2 in
  r = Raise match e with
            | NoResultFound => HTTPException 404 "Agent not found"
            | SQLAlchemyError msg => HTTPException 500 msg
            | _ => e
            end
  ∧ log s' = log s ++ match e with
                      | SQLAlchemyError msg => [LogError msg]
                      | _ => []
                      end
  ∧ agents s' = agents s ∧ agents_updated s' = agents_updated s
  ∧ agent_data_store s' = agent_data_store s.
Proof.
  intros Hfetch. unfold initialize_agent.
  unfold bind at 1. cbn [modify]. unfold bind at 1. unfold try_except at 1.
  unfold bind at 1. cbn [lift].
  destruct Hfetch as [->|[[agent ->] Hfault]].
  - destruct e; cbn; rewrite ?app_nil_r; done.
  - unfold bind at 1, AgentStore.get_data. rewrite Hfault.
    destruct e; cbn; rewrite ?app_nil_r; done.
Qed.

Lemma initialize_agent_fetch_error_witness :
  get_config Cases.empty_world "ghost" = Raise NoResultFound
  ∧ (initialize_agent Cases.empty_world "ghost" Demo.fresh).1
    = Raise (HTTPException 404 "Agent not found").
Proof.
  split; [reflexivity|].
  exact (proj1 (initialize_agent_fetch_error Cases.empty_world "ghost" Demo.fresh
                  NoResultFound (or_introl eq_refl))).
Defined.


(** X3.  Once the preparation of an execution returns, the debug trace starts
    with the thread segment and the input segment; a cold start adds the
    cold-start label and its cost, a rebuild of a cached agent adds the
    reinitialization label and its cost, and a cache hit adds nothing; the
    clock was read three times when something was built and once otherwise. *)
Theorem execute_agent_trace_head E aid message thread_id s agent p s' :
  Agent_get E aid = Some agent →
  execute_agent_prepare E aid message thread_id s = (Ok p, s') →
  let start_cost :=
    cost_segment E "start"
      (minus (clock E) (reading (clock E) (S (ticks s))) (reading (clock E) (ticks s))) in
  p_agent p = agent
  ∧ p_start p = reading (clock E) (ticks s)
  ∧ p_resp_debug p
    = [thread_segment thread_id; input_segment message]
      ++ (if cached aid s then
            if needs_reinit aid agent s
            then ["[ Agent reinitialized ... ]"; start_cost]
            else []
          else ["[ Agent cold start ... ]"; start_cost])
  ∧ ticks s' = (if negb (cached aid s) || needs_reinit aid agent s
                then 3 + ticks s else 1 + ticks s)%nat.
Proof.
  intros Hget. unfold execute_agent_prepare.
  unfold bind at 1. cbn [perf_counter]. unfold bind at 1. rewrite Hget.
  cbn [ret]. unfold bind at 1. cbn [get].
  set (s0 := set_ticks S s).
  change (cached aid s0) with (cached aid s).
  change (needs_reinit aid agent s0) with (needs_reinit aid agent s).
  unfold bind at 1.
  assert (∃ sl, (if needs_reinit aid agent s
                 then logger (LogInfo ("Reinitializing agent " ++ aid
                                       ++ " due to updates")%string)
                 else ret ()) s0 = (Ok tt, sl)
                ∧ agents sl = agents s ∧ ticks sl = S (ticks s))
    as (sl & Hsl & Hal & Htl)
    by (destruct (needs_reinit aid agent s); eexists; split; done).
  rewrite Hsl. unfold bind at 1.
  destruct (negb (cached aid s) || needs_reinit aid agent s) eqn:Hbuild.
  - unfold bind at 1.
    destruct (initialize_agent E aid sl) as [ri si] eqn:Hinit.
    apply initialize_agent_spec in Hinit as (_ & Hticks & Hres).
    destruct ri as [[]|e]; [|intros [=]].
    destruct Hres as (agent' & tools & tp & s2 & _ & _ & _ & Hag & _).
    cbn. rewrite Hag, lookup_insert_eq. intros [= <- <-]. cbn.
    rewrite Hticks, Htl. split_and!; try done.
    destruct (cached aid s); [|done]. cbn in Hbuild. by rewrite Hbuild.
  - apply orb_false_iff in Hbuild as [Hc Hr]. apply negb_false_iff in Hc.
    cbn. rewrite Hal. unfold cached in Hc.
    destruct (agents s !! aid) as [g|] eqn:Hg; [|done].
    intros [= <- <-]. cbn. rewrite Htl. unfold cached. rewrite Hg, Hr. done.
Qed.

Lemma execute_agent_trace_head_witness :
  ∃ p, (execute_agent_prepare Demo.world "agent1" Demo.hi "t1" Demo.fresh).1 = Ok p
       ∧ p_resp_debug p
         = [thread_segment "t1"; input_segment Demo.hi;
            "[ Agent cold start ... ]"; cost_segment Demo.world "start" 250].
Proof.
  destruct (execute_agent_prepare Demo.world "agent1" Demo.hi "t1" Demo.fresh)
    as [[p|e] s'] eqn:Hrun; [|by vm_compute in Hrun].
  exists p. split; [reflexivity|].
  exact (proj1 (proj2 (proj2
    (execute_agent_trace_head Demo.world "agent1" Demo.hi "t1" Demo.fresh
       (Demo.agent "gpt-4o-mini" 10) p s' eq_refl Hrun)))).
Defined.

Lemma for_in_on_chunk_length E chunks (rd r : list string) last s acc' s' :
  for_in chunks (on_chunk E) (rd, r, last) s = (Ok acc', s') →
  List.length acc'.1.1 = (List.length rd + sum_list (step_segments <$> chunks))%nat.
Proof.
  revert rd r last s. induction chunks as [|c chunks IH]; intros rd r last s;
    cbn [for_in].
  - intros [= <- <-]. cbn. lia.
  - unfold bind.
    destruct (on_chunk E (rd, r, last) c s) as [[[[rd1 r1] last1]|e] s1] eqn:Hc;
      [|intros [=]].
    intros Hrest. apply IH in Hrest. rewrite Hrest. rewrite fmap_cons. cbn [sum_list_with]. unfold id.
    enough (List.length rd1 = (List.length rd + step_segments c)%nat) by lia.
    clear -Hc. unfold on_chunk, step_segments in *.
    destruct (chunk_agent c) as [v|].
    + destruct (Py.truthy v); cbn in Hc; injection Hc as <- _ _ _;
        rewrite !length_app; cbn; lia.
    + destruct (chunk_tools c); cbn in Hc; injection Hc as <- _ _ _;
        rewrite ?length_app; cbn; lia.
Qed.

(** X4.  A debug-mode execution that returns yields a trace as long as its
    head plus, for each streamed chunk, three segments for a model turn with
    text or a tool step, two for a model turn without text and none for a
    chunk of another kind, plus the total-cost segment and the debug block. *)
Theorem debug_trace_length E aid message thread_id s p sp dbg s1 :
  execute_agent_prepare E aid message thread_id s = (Ok p, sp) →
  execute_agent E aid message thread_id true s = (Ok dbg, s1) →
  List.length dbg
  = (List.length (p_resp_debug p)
     + sum_list (step_segments <$> (astream E (p_executor p) message thread_id).1)
     + 2)%nat.
Proof.
  intros Hprep Hrun. unfold execute_agent in Hrun.
  unfold bind at 1 in Hrun. rewrite Hprep in Hrun.
  unfold bind at 1 in Hrun.
  destruct (debug_prompt E (p_agent p) (p_executor p) thread_id sp)
    as [[rda|e0] sd]; [|discriminate Hrun].
  unfold bind at 1 in Hrun. unfold stream in Hrun.
  destruct (astream E (p_executor p) message thread_id) as [chunks failure].
  unfold bind at 1 in Hrun.
  destruct (for_in chunks (on_chunk E) (p_resp_debug p, [], p_last p) sd)
    as [[[[rd r] last]|e1] s_st] eqn:Hst; [|discriminate Hrun].
  apply for_in_on_chunk_length in Hst. cbn in Hst.
  destruct failure; [discriminate Hrun|].
  cbn in Hrun. injection Hrun as <- <-.
  rewrite !length_app, Hst. cbn. lia.
Qed.

Lemma debug_trace_length_witness :
  ∃ p dbg,
    (execute_agent_prepare Demo.world "agent1" Demo.hi "t1" Demo.fresh).1 = Ok p
    ∧ (execute_agent Demo.world "agent1" Demo.hi "t1" true Demo.fresh).1 = Ok dbg
    ∧ List.length dbg = (List.length (p_resp_debug p) + 8 + 2)%nat.
Proof.
  destruct (execute_agent_prepare Demo.world "agent1" Demo.hi "t1" Demo.fresh)
    as [[p|e] sp] eqn:Hp; [|by vm_compute in Hp].
  destruct (execute_agent Demo.world "agent1" Demo.hi "t1" true Demo.fresh)
    as [[dbg|e] s1] eqn:Hrun; [|by vm_compute in Hrun].
  exists p, dbg. split_and!; [reflexivity..|].
  exact (debug_trace_length Demo.world "agent1" Demo.hi "t1" Demo.fresh
           p sp dbg s1 Hp Hrun).
Defined.

Lemma for_in_on_chunk_total E chunks acc s :
  ∃ acc' s', for_in chunks (on_chunk E) acc s = (Ok acc', s').
Proof.
  revert acc s. induction chunks as [|c chunks IH]; intros acc s; cbn [for_in].
  - by eexists _, _.
  - unfold bind.
    assert (∃ a1 s1', on_chunk E acc c s = (Ok a1, s1')) as (a1 & s1' & ->).
    { unfold on_chunk. destruct acc as [[rd r] last].
      destruct (chunk_agent c) as [v|];
        [destruct (Py.truthy v) | destruct (chunk_tools c)];
        by eexists _, _. }
    apply IH.
Qed.

(** X5.  An exception that ends the executor's stream is not caught: the
    execution raises that very exception, in normal mode and in debug mode
    (where a snapshot failure that is an Exception does not get in the way),
    and returns no partial answer. *)
Theorem stream_failure_propagates E aid message thread_id debug s p sp e :
  execute_agent_prepare E aid message thread_id s = (Ok p, sp) →
  (astream E (p_executor p) message thread_id).2 = Some e →
  (∀ e0, debug = true → aget_state E (p_executor p) thread_id = Raise e0 →
         is_Exception e0 = true) →
  ∃ s', execute_agent E aid message thread_id debug s = (Raise e, s').
Proof.
  intros Hprep Hfail Hsnap. unfold execute_agent.
  unfold bind at 1. rewrite Hprep. unfold bind at 1.
  assert (∃ rda sd, (if debug
                     then debug_prompt E (p_agent p) (p_executor p) thread_id
                     else ret ""%string) sp = (Ok rda, sd)) as (rda & sd & ->).
  { destruct debug; [|by eexists _, _].
    unfold debug_prompt, try_except. unfold bind at 1. cbn [lift].
    destruct (aget_state E (p_executor p) thread_id) as [snap|e0] eqn:Hs.
    - by eexists _, _.
    - rewrite (Hsnap e0 eq_refl eq_refl). by eexists _, _. }
  unfold bind at 1. unfold stream.
  destruct (astream E (p_executor p) message thread_id) as [chunks failure].
  cbn in Hfail. subst failure. unfold bind at 1.
  destruct (for_in chunks (on_chunk E) (p_resp_debug p, [], p_last p) sd)
    as [[acc|e1] s_st] eqn:Hst.
  - cbn. by eexists.
  - exfalso.
    destruct (for_in_on_chunk_total E chunks (p_resp_debug p, [], p_last p) sd)
      as (? & ? & H).
    rewrite H in Hst. discriminate.
Qed.

Lemma stream_failure_propagates_witness :
  ∃ s', execute_agent Cases.broken_world "agent1" Demo.hi "t1" false Demo.fresh
        = (Raise (OtherException "stream closed"), s').
Proof.
  destruct (execute_agent_prepare Cases.broken_world "agent1" Demo.hi "t1" Demo.fresh)
    as [[p|e] sp] eqn:Hp; [|by vm_compute in Hp].
  apply (stream_failure_propagates Cases.broken_world "agent1" Demo.hi "t1" false
           Demo.fresh p sp (OtherException "stream closed") Hp eq_refl).
  intros e0 [=].
Defined.


(** ** The cache across an execution *)

Section evolves.
Context {S : Type} (R : S → S → Prop) `{!PreOrder R}.

Lemma evolves_ret {A} (a : A) : evolves R (ret a).
Proof. intros s. reflexivity. Qed.

Lemma evolves_raise {A} e : evolves R (@raise S A e).
Proof. intros s. reflexivity. Qed.

Lemma evolves_lift {A} (r : result A) : evolves R (lift r).
Proof. intros s. reflexivity. Qed.

Lemma evolves_get : evolves R get.
Proof. intros s. reflexivity. Qed.

Lemma evolves_bind {A B} (m : M S A) (k : A → M S B) :
  evolves R m → (∀ a, evolves R (k a)) → evolves R (bind m k).
Proof.
  intros Hm Hk s. unfold bind. specialize (Hm s).
  destruct (m s) as [[a|e] s1]; cbn in *; [|done].
  etrans; [exact Hm | apply Hk].
Qed.

Lemma evolves_try {A} (m : M S A) h :
  evolves R m → (∀ e k, h e = Some k → evolves R k) → evolves R (try_except m h).
Proof.
  intros Hm Hh s. unfold try_except. specialize (Hm s).
  destruct (m s) as [[a|e] s1]; cbn in *; [done|].
  destruct (h e) as [k|] eqn:He; [|done].
  etrans; [exact Hm | by apply (Hh e k)].
Qed.

Lemma evolves_for_in {A B} (l : list A) (body : B → A → M S B) acc :
  (∀ b a, evolves R (body b a)) → evolves R (for_in l body acc).
Proof.
  intros Hb. revert acc. induction l as [|x l IH]; intros acc; cbn [for_in].
  - apply evolves_ret.
  - apply evolves_bind; [apply Hb | apply IH].
Qed.

Lemma evolves_modify f : (∀ s, R s (f s)) → evolves R (modify f).
Proof. intros H s. apply H. Qed.
End evolves.

Ltac evolves_step :=
  match goal with
  | |- evolves _ (ret _) => apply evolves_ret; exact _
  | |- evolves _ (raise _) => apply evolves_raise; exact _
  | |- evolves _ (lift _) => apply evolves_lift; exact _
  | |- evolves _ get => apply evolves_get; exact _
  | |- evolves _ (bind _ _) =>
      apply evolves_bind; try (exact _); [|intros ?]
  | |- evolves _ (for_in _ _ _) =>
      apply evolves_for_in; try (exact _); intros ? ?
  | |- evolves _ (try_except _ _) =>
      apply evolves_try; try (exact _);
      [|let e := fresh "e" in let k := fresh "k" in let H := fresh "H" in
        intros e k H; destruct e; simpl in H; inversion H; subst; clear H]
  | |- evolves _ (if ?b then _ else _) => destruct b
  | |- evolves _ (match ?x with _ => _ end) => destruct x
  | |- evolves _ (let '(_, _) := ?x in _) => destruct x
  end.

Section engine_steps.
Context (aid : string) (R : EngineState → EngineState → Prop)
        `{!PreOrder R} (HR : engine_steps aid R).

Lemma evolves_logger r : evolves R (logger r).
Proof. apply evolves_modify. intros s. apply (steps_log _ _ HR). Qed.

Lemma evolves_perf_counter E : evolves R (perf_counter E).
Proof. intros s. apply (steps_ticks _ _ HR). Qed.

Lemma evolves_load_skills E agent agent_data :
  evolves R (load_skills E aid agent agent_data).
Proof.
  unfold load_skills, load_cdp, load_enso, load_enso_skill, load_twitter,
    load_named, load_skill_sets.
  repeat first [ apply evolves_logger | apply (steps_data _ _ HR) | evolves_step ].
Qed.

Lemma evolves_initialize_agent E : evolves R (initialize_agent E aid).
Proof.
  unfold initialize_agent.
  evolves_step; [apply evolves_modify; intros s; apply (steps_builds _ _ HR)|].
  evolves_step.
  - evolves_step.
    + evolves_step; [evolves_step|]. evolves_step.
      { unfold AgentStore.get_data. destruct (get_data_fault E aid);
          [evolves_step | intros s; reflexivity]. }
      evolves_step; [|evolves_step].
      apply evolves_modify. intros s. apply (steps_updated _ _ HR).
    + repeat first [ apply evolves_logger | evolves_step ].
    + repeat first [ apply evolves_logger | evolves_step ].
  - destruct a0 as [agent d]. destruct (initialize_llm (config E) agent) as [l lim].
    evolves_step; [apply evolves_load_skills|]. destruct a0 as [ts tp].
    evolves_step.
    { evolves_step. apply evolves_logger. }
    evolves_step; [evolves_step|].
    apply (steps_install _ _ HR).
Qed.

Lemma evolves_execute_agent E message thread_id debug :
  evolves R (execute_agent E aid message thread_id debug).
Proof.
  unfold execute_agent, execute_agent_prepare, debug_prompt, stream, on_chunk.
  repeat first [ apply evolves_logger | apply evolves_perf_counter
               | apply evolves_initialize_agent | evolves_step ].
Qed.
End engine_steps.


Lemma cache_frame_preorder aid : PreOrder (cache_frame aid).
Proof.
  split.
  - intros s. unfold cache_frame. naive_solver.
  - intros s1 s2 s3 (H1 & H1a & H1u & H1d) (H2 & H2a & H2u & H2d).
    split_and!.
    + intros a Ha. destruct (H1 a Ha) as (E1 & E2 & E3).
      destruct (H2 a Ha) as (F1 & F2 & F3). by rewrite F1, F2, F3.
    + intros a Hs. by apply H2a, H1a.
    + intros a Hs. by apply H2u, H1u.
    + intros a Hs. by apply H2d, H1d.
Qed.

Lemma cache_frame_same aid s s' :
  agents s' = agents s → agents_updated s' = agents_updated s →
  agent_data_store s' = agent_data_store s → cache_frame aid s s'.
Proof. intros Ha Hu Hd. unfold cache_frame. rewrite Ha, Hu, Hd. naive_solver. Qed.

Lemma lookup_insert_is_Some' {V} (m : gmap string V) aid v a :
  is_Some (m !! a) → is_Some (<[aid := v]> m !! a).
Proof.
  intros Hs. destruct (decide (aid = a)) as [->|Hne].
  - rewrite lookup_insert_eq. by eexists.
  - by rewrite lookup_insert_ne.
Qed.

Lemma cache_frame_steps aid : engine_steps aid (cache_frame aid).
Proof.
  split.
  - intros f s. by apply cache_frame_same.
  - intros f s. by apply cache_frame_same.
  - intros f s. by apply cache_frame_same.
  - intros t s. unfold cache_frame. cbn. split_and!; try done.
    + intros a Ha. by rewrite lookup_insert_ne.
    + intros a. apply lookup_insert_is_Some'.
  - intros w s. unfold cache_frame. cbn. split_and!; try done.
    + intros a Ha. by rewrite lookup_insert_ne.
    + intros a. apply lookup_insert_is_Some'.
  - intros l ts c p d i s. unfold cache_frame. cbn. split_and!; try done.
    + intros a Ha. by rewrite lookup_insert_ne.
    + intros a. apply lookup_insert_is_Some'.
Qed.

(** X6.  Whatever an execution or a build for one identity does and however it
    ends, the cached pipeline, the timestamp and the runtime data of every
    other identity stay as they were, and no entry of any of the three
    dictionaries is ever removed. *)
Theorem execute_agent_frame E aid message thread_id debug s :
  cache_frame aid s (execute_agent E aid message thread_id debug s).2
  ∧ cache_frame aid s (initialize_agent E aid s).2.
Proof.
  pose proof (cache_frame_preorder aid).
  split.
  - by apply (evolves_execute_agent aid _ (cache_frame_steps aid)).
  - by apply (evolves_initialize_agent aid _ (cache_frame_steps aid)).
Qed.

Lemma keeps_cache_ok_preorder : PreOrder keeps_cache_ok.
Proof.
  split.
  - intros s. by split.
  - intros s1 s2 s3 [Hn1 H1] [Hn2 H2]. split; [lia | auto].
Qed.

Lemma keeps_cache_ok_same s s' :
  agents s' = agents s → next_obj s' = next_obj s → keeps_cache_ok s s'.
Proof.
  intros Ha Hn. unfold keeps_cache_ok, cache_ok. rewrite Ha, Hn. split; [lia|done].
Qed.

Lemma keeps_cache_ok_steps aid : engine_steps aid keeps_cache_ok.
Proof.
  split; [intros; try intros ?; by apply keeps_cache_ok_same.. |].
  intros l ts c p d i s. cbn. split; [cbn; lia|].
  set (g := mkGraph (next_obj s) aid l ts c p d i).
  intros [Hown Hinj]. split.
  - intros a g'. cbn. destruct (decide (aid = a)) as [<-|Hne].
    + rewrite lookup_insert_eq. intros [= <-]. cbn. split; [done | lia].
    + rewrite lookup_insert_ne by done. intros Hg.
      destruct (Hown a g' Hg). split; [done | lia].
  - intros a b ga gb. cbn.
    destruct (decide (aid = a)) as [<-|Hna]; destruct (decide (aid = b)) as [<-|Hnb];
      rewrite ?lookup_insert_eq, ?lookup_insert_ne by done; try done.
    + intros [= <-] Hgb Heq. cbn in Heq. destruct (Hown b gb Hgb). lia.
    + intros Hga [= <-] Heq. cbn in Heq. destruct (Hown a ga Hga). lia.
    + apply Hinj.
Qed.

(** X7.  Executions keep the cache well formed: if every cached pipeline was
    built for the identity it is filed under and no two identities share a
    pipeline object, the same holds after an execution, however it ends. *)
Theorem execute_agent_cache_ok E aid message thread_id debug s :
  cache_ok s →
  cache_ok (execute_agent E aid message thread_id debug s).2.
Proof.
  pose proof keeps_cache_ok_preorder.
  intros Hok.
  by apply (evolves_execute_agent aid _ (keeps_cache_ok_steps aid)).
Qed.

Lemma execute_agent_cache_ok_witness :
  cache_ok Demo.fresh
  ∧ cache_ok (execute_agent Demo.world "agent1" Demo.hi "t1" false Demo.fresh).2.
Proof.
  assert (cache_ok Demo.fresh) as Hok.
  { split; [intros a g H | intros a b ga gb H];
    change (agents Demo.fresh) with (∅ : gmap string CompiledGraph) in H;
    by rewrite lookup_empty in H. }
  split; [exact Hok|]. by apply execute_agent_cache_ok.
Defined.


(** ** Capabilities that depend on one another *)

Lemma for_in_caught {S A B} (l : list A) (body : B → A → M S B) (f : S → S) acc :
  (∀ b a s, body b a s = (Ok b, f s)) →
  ∀ s, for_in l body acc s = (Ok acc, Nat.iter (List.length l) f s).
Proof.
  intros Hb. induction l as [|x l IH]; intros s; cbn [for_in]; [done|].
  unfold bind. rewrite Hb, IH. cbn [List.length]. by rewrite Nat.iter_succ_r.
Qed.

(** X8.  With the wallet capability disabled the wallet step yields no wrapper
    and leaves the tools alone, and the Enso step then resolves nothing: each
    requested Enso skill reads the unbound wrapper, leaves exactly one warning
    in the log and no tool, and the step returns the tools it was handed. *)
Theorem enso_needs_wallet E aid agent agent_data tools s :
  Agent.cdp_enabled agent = false →
  let warn := set_log (fun l => l ++ [LogWarning (str_exn (UnboundLocalError "agentkit"))]) in
  let skills :=
    if Py.truthy_list (Agent.enso_skills agent) && truthy_dict (Agent.enso_config agent)
    then default [] (Agent.enso_skills agent) else [] in
  load_cdp E aid agent agent_data tools s = (Ok (None, tools), s)
  ∧ load_enso E aid agent None tools s
    = (Ok tools, Nat.iter (List.length skills) warn s).
Proof.
  intros Hcdp warn skills. split.
  - unfold load_cdp. by rewrite Hcdp.
  - unfold load_enso. subst skills.
    destruct (_ && _); [|done].
    apply for_in_caught. intros b a s0. done.
Qed.

Lemma enso_needs_wallet_witness :
  Agent.cdp_enabled Cases.walletless_agent = false
  ∧ ∃ s', load_enso Demo.world "agent1" Cases.walletless_agent None [] Demo.fresh
          = (Ok [], s')
          ∧ List.length (log s') = 2%nat.
Proof.
  split; [reflexivity|]. eexists. split.
  - exact (proj2 (enso_needs_wallet Demo.world "agent1" Cases.walletless_agent
                    None [] Demo.fresh eq_refl)).
  - reflexivity.
Defined.

Lemma load_twitter_raises E aid agent tools :
  Py.truthy_list (Agent.twitter_skills agent) = true →
  raises (load_twitter E aid agent None tools).
Proof.
  intros Htw. unfold load_twitter. rewrite Htw.
  apply raises_bind_r. intros client. apply raises_bind_r. intros ts.
  intros s. by eexists _, _.
Qed.

(** X9.  An agent that asks for Twitter skills and has no runtime-data record
    cannot be built: the build raises and installs nothing, and when the
    client and every requested skill resolve, the Twitter step raises the
    AttributeError of reading twitter_id from None. *)
Theorem twitter_needs_runtime_data E aid s agent :
  get_config E aid = Ok agent →
  Py.truthy_list (Agent.twitter_skills agent) = true →
  agent_data_store s !! aid = None →
  (∃ e s', initialize_agent E aid s = (Raise e, s') ∧ agents s' = agents s)
  ∧ ∀ tools s0 client,
      TwitterClient E aid (if truthy_dict (Agent.twitter_config agent)
                           then default [] (Agent.twitter_config agent) else [])
      = Ok client →
      (∀ skill, skill ∈ default [] (Agent.twitter_skills agent) →
                ∃ t, get_twitter_skill E skill client aid = Ok t) →
      load_twitter E aid agent None tools s0
      = (Raise (AttributeError "'NoneType' object has no attribute 'twitter_id'"), s0).
Proof.
  intros Hcfg Htw Hnone. split.
  - destruct (initialize_agent E aid s) as [r s'] eqn:Hrun.
    pose proof (initialize_agent_spec _ _ _ _ _ Hrun) as (_ & _ & Hres).
    destruct r as [[]|e].
    + exfalso. destruct Hres as (agent' & ts & tp & s2 & Hcfg' & _ & Hload & _).
      rewrite Hcfg in Hcfg'. injection Hcfg' as <-. rewrite Hnone in Hload.
      assert (raises (load_skills E aid agent None)) as Hr.
      { unfold load_skills. apply raises_bind_r. intros [k ts0].
        apply raises_bind_r. intros ts1. apply raises_bind_l.
        by apply load_twitter_raises. }
      destruct (Hr (fetched aid agent s)) as (e & s3 & He). congruence.
    + exists e, s'. by destruct Hres.
  - intros tools s0 client Hclient Hskills. unfold load_twitter. rewrite Htw. cbv zeta.
    unfold bind at 1. unfold lift at 1.
    match goal with
    | |- context [TwitterClient E aid ?c] =>
        replace (TwitterClient E aid c) with (Ok client : result nat)
          by (symmetry; exact Hclient)
    end.
    unfold bind at 1.
    assert (∀ l ts, (∀ skill, skill ∈ l → ∃ t, get_twitter_skill E skill client aid = Ok t) →
              ∃ ts', for_in l (fun tools skill =>
                                 bind (lift (get_twitter_skill E skill client aid))
                                      (fun s1 => ret (tools ++ [s1]))) ts s0
                     = (Ok ts', s0)) as Hloop.
    { clear. induction l as [|x l IH]; intros ts Hall; cbn [for_in]; [by eexists|].
      destruct (Hall x) as [t Ht]; [apply elem_of_cons; by left|].
      unfold bind at 1. unfold bind at 1. cbn [lift]. rewrite Ht. cbn [ret].
      apply IH. intros skill Hin. apply Hall. apply elem_of_cons. by right. }
    destruct (Hloop _ tools Hskills) as [ts' ->]. done.
Qed.

Lemma twitter_needs_runtime_data_witness :
  agent_data_store Demo.fresh !! "agent1" = None
  ∧ load_twitter Cases.twitter_world "agent1" (Demo.social_agent "gpt-4o-mini" 10)
      None [] Demo.fresh
    = (Raise (AttributeError "'NoneType' object has no attribute 'twitter_id'"),
       Demo.fresh).
Proof.
  split; [reflexivity|].
  apply (proj2 (twitter_needs_runtime_data Cases.twitter_world "agent1" Demo.fresh
                  (Demo.social_agent "gpt-4o-mini" 10) eq_refl eq_refl eq_refl)
           [] Demo.fresh 0%nat eq_refl).
  intros skill _. by eexists.
Defined.

(** ** More on the deduplication of tools *)

Lemma dict_set_fresh {V} (d : list (string * V)) k v :
  k ∉ Py.keys d → Py.dict_set d k v = d ++ [(k, v)].
Proof.
  unfold Py.keys. induction d as [|[k0 v0] d IH]; [done|].
  rewrite fmap_cons, not_elem_of_cons. intros [Hne Hnin]. cbn [Py.dict_set].
  rewrite decide_False by (cbn in Hne; congruence). by rewrite IH.
Qed.

Lemma elem_of_tool_names l n :
  n ∈ name <$> dedup_tools l ↔ n ∈ name <$> l.
Proof.
  rewrite <- tools_by_name_keys. split.
  - intros Hin. apply dec_stable. intros Hnot.
    assert (named n l = []) as Hnil.
    { destruct (named n l) as [|t ts] eqn:Hn; [done|]. exfalso.
      assert (t ∈ named n l) as Ht by (rewrite Hn; apply list_elem_of_here).
      unfold named in Ht. apply list_elem_of_filter in Ht as [Hname Ht].
      apply Hnot, list_elem_of_fmap. by exists t. }
    apply dict_get_None in Hin; [done|].
    by rewrite tools_by_name_get, Hnil.
  - intros (t & -> & Ht)%list_elem_of_fmap. apply dec_stable. intros Hnot.
    apply dict_get_None in Hnot. rewrite tools_by_name_get in Hnot.
    apply last_None in Hnot.
    assert (t ∈ named (name t) l) as Hin by (unfold named; by apply list_elem_of_filter).
    rewrite Hnot in Hin. by apply elem_of_nil in Hin.
Qed.

Lemma dedup_tools_distinct l : NoDup (name <$> l) → dedup_tools l = l.
Proof.
  induction l as [|t l IH] using rev_ind; [done|].
  rewrite fmap_app, NoDup_app. intros (Hnd & Hdisj & _).
  unfold dedup_tools in *. rewrite tools_by_name_snoc, dict_set_fresh.
  - unfold Py.values in *. by rewrite fmap_app, IH.
  - rewrite tools_by_name_keys, elem_of_tool_names. intros Hin.
    apply (Hdisj _ Hin). cbn. apply list_elem_of_here.
Qed.

(** X10.  Deduplicating tools by name is idempotent, changes nothing when the
    names are already distinct, never lengthens the list, and keeps names in
    the order of their first appearance: appending a tool adds its name at the
    end when the name is new and leaves the order of names alone when it is
    not. *)
Theorem dedup_tools_stable (tools : list BaseTool) (tool : BaseTool) :
  dedup_tools (dedup_tools tools) = dedup_tools tools
  ∧ (NoDup (name <$> tools) → dedup_tools tools = tools)
  ∧ name <$> dedup_tools (tools ++ [tool])
    = (if decide (name tool ∈ name <$> tools)
       then name <$> dedup_tools tools
       else (name <$> dedup_tools tools) ++ [name tool])
  ∧ (List.length (dedup_tools tools) ≤ List.length tools)%nat.
Proof.
  split_and!.
  - apply dedup_tools_distinct. rewrite <- tools_by_name_keys.
    apply tools_by_name_NoDup.
  - apply dedup_tools_distinct.
  - rewrite <- !tools_by_name_keys, tools_by_name_snoc, keys_dict_set.
    rewrite !tools_by_name_keys.
    destruct (decide (name tool ∈ name <$> dedup_tools tools)) as [Hin|Hnin];
      destruct (decide (name tool ∈ name <$> tools)) as [Hin'|Hnin']; try done.
    + exfalso. apply Hnin'. by apply elem_of_tool_names.
    + exfalso. apply Hnin. by apply elem_of_tool_names.
  - induction tools as [|t l IH] using rev_ind; [done|].
    unfold dedup_tools, Py.values in *. rewrite tools_by_name_snoc.
    rewrite length_fmap in *.
    assert (List.length (Py.dict_set (tools_by_name l) (name t) t)
            ≤ S (List.length (tools_by_name l)))%nat.
    { generalize (tools_by_name l). intros d.
      induction d as [|[k v] d IHd]; cbn; [lia|]. case_decide; cbn; lia. }
    rewrite length_app. cbn. lia.
Qed.


(** ** The prompt template *)

Lemma replace_cons c r a s :
  Py.replace c r (String a s)
  = if Ascii.eqb a c then (r ++ Py.replace c r s)%string
    else String a (Py.replace c r s).
Proof. reflexivity. Qed.

Lemma escape_braces_cons c s :
  escape_braces (String c s)
  = if Ascii.eqb c "{" then String "{" (String "{" (escape_braces s))
    else if Ascii.eqb c "}" then String "}" (String "}" (escape_braces s))
    else String c (escape_braces s).
Proof.
  unfold escape_braces. rewrite replace_cons.
  destruct (Ascii.eqb c "{") eqn:E1.
  - reflexivity.
  - rewrite replace_cons. destruct (Ascii.eqb c "}") eqn:E2; reflexivity.
Qed.

Lemma format_literal_plain c s :
  Ascii.eqb c "{" = false → Ascii.eqb c "}" = false →
  format_literal (String c s) = String c <$> format_literal s.
Proof. intros E1 E2. cbn [format_literal]. by rewrite E1, E2. Qed.

(** X11.  Escaping braces makes any text literal for the template: formatting
    the escaped text gives back exactly the original text, whatever braces it
    holds. *)
Theorem escaped_prompt_is_literal (text : string) :
  format_literal (escape_braces text) = Some text.
Proof.
  induction text as [|c s IH]; [done|].
  rewrite escape_braces_cons.
  destruct (Ascii.eqb c "{") eqn:E1; [|destruct (Ascii.eqb c "}") eqn:E2].
  - apply Ascii.eqb_eq in E1 as ->.
    change (format_literal (String "{" (String "{" (escape_braces s))))
      with (String "{"%char <$> format_literal (escape_braces s)).
    by rewrite IH.
  - apply Ascii.eqb_eq in E2 as ->.
    change (format_literal (String "}" (String "}" (escape_braces s))))
      with (String "}"%char <$> format_literal (escape_braces s)).
    by rewrite IH.
  - rewrite format_literal_plain, IH by done. done.
Qed.

(** X12.  The prompt messages always hold the escaped system prompt
    immediately followed by the messages placeholder; every other message is a
    system message; for a deepseek model nothing follows the placeholder, the
    Twitter prompt is dropped and the escaped prompt_append comes first; for
    other models nothing precedes the system prompt and the Twitter prompt and
    the escaped prompt_append follow the placeholder in that order. *)
Theorem prompt_array_shape cfg agent twitter_prompt :
  ∃ before after,
    prompt_array cfg agent twitter_prompt
    = before ++ [("system", escape_braces (agent_prompt cfg agent));
                 ("placeholder", "{messages}")] ++ after
    ∧ Forall (fun m => m.1 = "system") (before ++ after)
    ∧ (if is_deepseek agent
       then after = []
            ∧ before = (if Py.truthy_opt (Agent.prompt_append agent)
                        then [("system",
                               escape_braces (default "" (Agent.prompt_append agent)))]
                        else [])
       else before = []
            ∧ after = (if Py.truthy twitter_prompt
                       then [("system", twitter_prompt)] else [])
                      ++ (if Py.truthy_opt (Agent.prompt_append agent)
                          then [("system",
                                 escape_braces (default "" (Agent.prompt_append agent)))]
                          else [])).
Proof.
  unfold prompt_array.
  destruct (is_deepseek agent), (Py.truthy twitter_prompt),
    (Py.truthy_opt (Agent.prompt_append agent));
    eexists _, _; (split; [|split; [|split; reflexivity]]);
    first [ reflexivity | repeat constructor ].
Qed.


(** ** What a purge leaves behind *)

Ltac purge_cases E :=
  repeat match goal with
         | |- context [fault E ?n] =>
             let e := fresh "e" in
             destruct (fault E n) as [e|] eqn:?; [destruct e|];
             cbn -[str_exn String.append Sql.tokens deletion_param filter]
         | |- context [Sql.tokens ?v] =>
             destruct (Sql.tokens v) eqn:?;
             cbn -[str_exn String.append Sql.tokens deletion_param filter]
         end.

(** X13.  A purge either returns [Agent data cleaned up successfully.] having
    logged nothing (and then at least one flag was set), or raises: the
    exception is never a SQLAlchemyError (those are turned into HTTPException
    500), exactly one error record is logged when it is an Exception and none
    when it is a cancellation, and with both flags unset it is HTTPException
    400 raised before any database round trip, with the tables untouched. *)
Theorem clean_agent_memory_outcome E agent_id thread_id conversation skills s :
  let run := clean_agent_memory E agent_id thread_id conversation skills s in
  match run.1 with
  | Ok msg =>
      msg = "Agent data cleaned up successfully."
      ∧ conversation || skills = true
      ∧ db_log run.2 = db_log s
  | Raise e =>
      is_SQLAlchemyError e = false
      ∧ (if is_Exception e
         then ∃ text, db_log run.2 = db_log s ++ [LogError text]
         else db_log run.2 = db_log s)
      ∧ (conversation || skills = false →
         e = HTTPException 400
               "at least one of skills data or agent memory should be true."
         ∧ committed run.2 = committed s ∧ round_trips run.2 = round_trips s)
  end.
Proof.
  unfold clean_agent_memory, with_session, AgentSkillData.clean_data,
    ThreadSkillData.clean_data, with_session, execute, commit, round_trip,
    try_except, bind, db_logger, modify, raise, ret.
  destruct conversation, skills, (exit_commits E),
    (Py.truthy thread_id && negb (String.eqb thread_id ""));
    cbn -[str_exn String.append Sql.tokens deletion_param filter];
    purge_cases E; try (split_and!; (done || by eexists)).
Qed.

(** X14.  Whatever fails and whenever, the three checkpoint tables change
    together or not at all: after a purge that returned with the conversation
    flag set each holds exactly the rows whose thread id does not match the
    pattern, and after any other purge each is as before; with the skills flag
    unset the two skill-data tables are never touched. *)
Theorem purge_checkpoints_atomic E aid tid conversation skills s :
  let run := clean_agent_memory E aid tid conversation skills s in
  (∀ tbl,
     checkpoint_rows (committed run.2) tbl
     = match run.1 with
       | Ok _ =>
           if conversation
           then filter (fun r => Sql.like (thread_id r)
                                   (deletion_param aid tid) = false)
                       (checkpoint_rows (committed s) tbl)
           else checkpoint_rows (committed s) tbl
       | Raise _ => checkpoint_rows (committed s) tbl
       end)
  ∧ (skills = false →
     agent_skill_data (committed run.2) = agent_skill_data (committed s)
     ∧ thread_skill_data (committed run.2) = thread_skill_data (committed s)).
Proof.
  unfold clean_agent_memory, with_session, AgentSkillData.clean_data,
    ThreadSkillData.clean_data, with_session, execute, commit, round_trip,
    try_except, bind, db_logger, modify, raise, ret.
  destruct conversation, skills, (exit_commits E),
    (Py.truthy tid && negb (String.eqb tid ""));
    cbn -[str_exn String.append Sql.tokens deletion_param filter];
    purge_cases E;
    (split; [intros tbl; by destruct tbl | done]).
Qed.

Lemma filter_twice {A} (P : A → Prop) `{!∀ x, Decision (P x)} (l : list A) :
  filter P (filter P l) = filter P l.
Proof.
  rewrite list_filter_filter. apply list_filter_iff. intros x. tauto.
Qed.

(** X15.  Against a database that answers every round trip, a purge with a
    well-formed pattern and at least one flag returns, and running the same
    purge again returns too and changes no table. *)
Theorem purge_idempotent E aid tid conversation skills s :
  (∀ n, fault E n = None) →
  is_Some (Sql.tokens (deletion_param aid tid)) →
  conversation || skills = true →
  let once := clean_agent_memory E aid tid conversation skills s in
  let twice := clean_agent_memory E aid tid conversation skills once.2 in
  once.1 = Ok "Agent data cleaned up successfully."
  ∧ twice.1 = Ok "Agent data cleaned up successfully."
  ∧ agent_skill_data (committed twice.2) = agent_skill_data (committed once.2)
  ∧ thread_skill_data (committed twice.2) = thread_skill_data (committed once.2)
  ∧ ∀ tbl, checkpoint_rows (committed twice.2) tbl
           = checkpoint_rows (committed once.2) tbl.
Proof.
  intros Hf Htok Hflag once twice. subst twice once.
  destruct (clean_agent_memory_ok E aid tid conversation skills s
              Hf Htok Hflag) as [n ->].
  cbn [fst snd].
  destruct (clean_agent_memory_ok E aid tid conversation skills
              (mkDbState (foldl apply_statement (committed s)
                            (purged E aid tid conversation skills))
                         (db_log s) n) Hf Htok Hflag) as [n' ->].
  cbn [fst snd committed]. split_and!; try done.
  - unfold purged, thread_skill_delete.
    destruct (skills && exit_commits E), conversation,
      (Py.truthy tid && negb (String.eqb tid ""));
      cbn -[filter deletion_param]; by rewrite ?filter_twice.
  - unfold purged, thread_skill_delete.
    destruct (skills && exit_commits E), conversation,
      (Py.truthy tid && negb (String.eqb tid ""));
      cbn -[filter deletion_param]; by rewrite ?filter_twice.
  - intros tbl. unfold purged, thread_skill_delete.
    destruct (skills && exit_commits E), conversation,
      (Py.truthy tid && negb (String.eqb tid ""));
      destruct tbl; cbn -[filter deletion_param decide];
      repeat (case_decide; try done); by rewrite ?filter_twice.
Qed.

Lemma purge_idempotent_witness :
  let once := clean_agent_memory Demo.committing "A" "T1" true true Demo.stored in
  let twice := clean_agent_memory Demo.committing "A" "T1" true true once.2 in
  once.1 = Ok "Agent data cleaned up successfully."
  ∧ twice.1 = Ok "Agent data cleaned up successfully."
  ∧ agent_skill_data (committed twice.2) = agent_skill_data (committed once.2)
  ∧ thread_skill_data (committed twice.2) = thread_skill_data (committed once.2)
  ∧ ∀ tbl, checkpoint_rows (committed twice.2) tbl
           = checkpoint_rows (committed once.2) tbl.
Proof.
  apply (purge_idempotent Demo.committing "A" "T1" true true Demo.stored
           (fun _ => eq_refl)).
  - eexists. vm_compute. reflexivity.
  - reflexivity.
Defined.


(** ** Skill data: [get] and [save] *)

Lemma find_fmap_stable {A} (P : A → bool) (f : A → A) (l : list A) :
  (∀ x, P (f x) = P x) → List.find P (f <$> l) = f <$> List.find P l.
Proof.
  intros Hf. induction l as [|x l IH]; [done|].
  rewrite fmap_cons. cbn [List.find]. rewrite Hf. by destruct (P x).
Qed.

Lemma find_snoc {A} (P : A → bool) (l : list A) (x : A) :
  List.find P (l ++ [x])
  = match List.find P l with
    | Some y => Some y
    | None => if P x then Some x else None
    end.
Proof.
  induction l as [|y l IH]; cbn [List.find app]; [done|]. by destruct (P y).
Qed.

Lemma find_unique {A K} `{EqDecision K} (key : A → K) (P : A → bool) (l : list A) (x : A) :
  NoDup (key <$> l) → x ∈ l → P x = true →
  (∀ y, P y = true → key y = key x) →
  List.find P l = Some x.
Proof.
  intros Hnd Hin HP Hkey. induction l as [|y l IH]; [by apply elem_of_nil in Hin|].
  rewrite fmap_cons in Hnd. apply NoDup_cons in Hnd as [Hy Hnd].
  cbn [List.find]. destruct (P y) eqn:HPy.
  - apply elem_of_cons in Hin as [->|Hin]; [done|].
    exfalso. apply Hy. rewrite (Hkey y HPy). apply list_elem_of_fmap. by exists x.
  - apply elem_of_cons in Hin as [->|Hin]; [congruence|]. by apply IH.
Qed.

Lemma asd_is_spec a sk k r :
  asd_is a sk k r = true ↔ (asd_agent_id r, asd_skill r, asd_key r) = (a, sk, k).
Proof.
  unfold asd_is. rewrite !andb_true_iff, !String.eqb_eq. split.
  - by intros [[-> ->] ->].
  - intros [= -> -> ->]. done.
Qed.

Lemma tsd_is_spec t sk k r :
  tsd_is t sk k r = true ↔ (tsd_thread_id r, tsd_skill r, tsd_key r) = (t, sk, k).
Proof.
  unfold tsd_is. rewrite !andb_true_iff, !String.eqb_eq. split.
  - by intros [[-> ->] ->].
  - intros [= -> -> ->]. done.
Qed.

Lemma AgentSkillData_save_run E self s :
  AgentSkillData_save E self s
  = match fault E (round_trips s) with
    | Some e => (Raise e, mkDbState (committed s) (db_log s) (S (round_trips s)))
    | None =>
        match fault E (S (round_trips s)) with
        | Some e =>
            (Raise e, mkDbState (committed s) (db_log s) (S (S (round_trips s))))
        | None =>
            (Ok tt,
             mkDbState
               (apply_write (committed s)
                  (match List.find (asd_is (asd_agent_id self) (asd_skill self)
                                           (asd_key self))
                                   (agent_skill_data (committed s)) with
                   | Some _ => UpdateAgentSkillData (asd_agent_id self)
                                 (asd_skill self) (asd_key self) (asd_data self)
                   | None => InsertAgentSkillData self
                   end))
               (db_log s) (S (S (round_trips s))))
        end
    end.
Proof.
  unfold AgentSkillData_save, with_session, AgentSkillData_first, commit_writes,
    round_trip, bind, modify, get, ret.
  destruct (fault E (round_trips s)); [done|]. cbn.
  destruct (fault E (S (round_trips s))); [done|].
  destruct (List.find _ _), (exit_commits E); done.
Qed.

Lemma ThreadSkillData_save_run E self s :
  ThreadSkillData_save E self s
  = match fault E (round_trips s) with
    | Some e => (Raise e, mkDbState (committed s) (db_log s) (S (round_trips s)))
    | None =>
        match fault E (S (round_trips s)) with
        | Some e =>
            (Raise e, mkDbState (committed s) (db_log s) (S (S (round_trips s))))
        | None =>
            (Ok tt,
             mkDbState
               (apply_write (committed s)
                  (match List.find (tsd_is (tsd_thread_id self) (tsd_skill self)
                                           (tsd_key self))
                                   (thread_skill_data (committed s)) with
                   | Some _ => UpdateThreadSkillData (tsd_thread_id self)
                                 (tsd_skill self) (tsd_key self) (tsd_data self)
                                 (tsd_agent_id self)
                   | None => InsertThreadSkillData self
                   end))
               (db_log s) (S (S (round_trips s))))
        end
    end.
Proof.
  unfold ThreadSkillData_save, with_session, ThreadSkillData_first, commit_writes,
    round_trip, bind, modify, get, ret.
  destruct (fault E (round_trips s)); [done|]. cbn.
  destruct (fault E (S (round_trips s))); [done|].
  destruct (List.find _ _), (exit_commits E); done.
Qed.

Lemma AgentSkillData_get_run E a sk k s :
  AgentSkillData_get E a sk k s
  = (match fault E (round_trips s) with
     | Some e => Raise e
     | None => Ok (asd_data <$> List.find (asd_is a sk k)
                                  (agent_skill_data (committed s)))
     end,
     mkDbState (committed s) (db_log s) (S (round_trips s))).
Proof.
  unfold AgentSkillData_get, with_session, AgentSkillData_first,
    round_trip, bind, modify, get, ret.
  destruct (fault E (round_trips s)); [done|]. cbn.
  by destruct (exit_commits E).
Qed.

Lemma ThreadSkillData_get_run E t sk k s :
  ThreadSkillData_get E t sk k s
  = (match fault E (round_trips s) with
     | Some e => Raise e
     | None => Ok (tsd_data <$> List.find (tsd_is t sk k)
                                  (thread_skill_data (committed s)))
     end,
     mkDbState (committed s) (db_log s) (S (round_trips s))).
Proof.
  unfold ThreadSkillData_get, with_session, ThreadSkillData_first,
    round_trip, bind, modify, get, ret.
  destruct (fault E (round_trips s)); [done|]. cbn.
  by destruct (exit_commits E).
Qed.

Lemma asd_saved self (tbl : list AgentSkillRow) :
  let mine := asd_is (asd_agent_id self) (asd_skill self) (asd_key self) in
  let tbl' :=
    match List.find mine tbl with
    | Some _ => (fun r => if mine r
                          then mkAgentSkillRow (asd_agent_id r) (asd_skill r)
                                               (asd_key r) (asd_data self)
                          else r) <$> tbl
    | None => tbl ++ [self]
    end in
  List.find mine tbl' = Some self
  ∧ (∀ a sk k, (a, sk, k) ≠ (asd_agent_id self, asd_skill self, asd_key self) →
               List.find (asd_is a sk k) tbl' = List.find (asd_is a sk k) tbl)
  ∧ (fun r => (asd_agent_id r, asd_skill r, asd_key r)) <$> tbl'
    = ((fun r => (asd_agent_id r, asd_skill r, asd_key r)) <$> tbl)
      ++ (match List.find mine tbl with
          | Some _ => []
          | None => [(asd_agent_id self, asd_skill self, asd_key self)]
          end).
Proof.
  intros mine tbl'. subst tbl'.
  assert (mine self = true) as Hself by (by apply asd_is_spec).
  destruct (List.find mine tbl) as [r|] eqn:Hfind.
  - split_and!.
    + rewrite find_fmap_stable.
      * rewrite Hfind. cbn. apply List.find_some in Hfind as [_ Hr].
        rewrite Hr. apply asd_is_spec in Hr. injection Hr as -> -> ->.
        by destruct self.
      * intros x. destruct (mine x) eqn:Hx; [|done]. exact Hx.
    + intros a sk k Hne. rewrite find_fmap_stable.
      * destruct (List.find (asd_is a sk k) tbl) as [x|] eqn:Hx; [|done].
        cbn. apply List.find_some in Hx as [_ Hx].
        destruct (mine x) eqn:Hm; [|done].
        apply asd_is_spec in Hx. apply asd_is_spec in Hm. congruence.
      * intros x. by destruct (mine x).
    + rewrite app_nil_r, <- list_fmap_compose. apply list_fmap_ext.
      intros i x _. cbn. by destruct (mine x).
  - split_and!.
    + by rewrite find_snoc, Hfind, Hself.
    + intros a sk k Hne. rewrite find_snoc.
      destruct (List.find (asd_is a sk k) tbl); [done|].
      destruct (asd_is a sk k self) eqn:Hx; [|done].
      apply asd_is_spec in Hx. congruence.
    + by rewrite fmap_app.
Qed.

Lemma tsd_saved self (tbl : list ThreadSkillRow) :
  let mine := tsd_is (tsd_thread_id self) (tsd_skill self) (tsd_key self) in
  let tbl' :=
    match List.find mine tbl with
    | Some _ => (fun r => if mine r
                          then mkThreadSkillRow (tsd_thread_id r) (tsd_skill r)
                                 (tsd_key r) (tsd_agent_id self) (tsd_data self)
                          else r) <$> tbl
    | None => tbl ++ [self]
    end in
  List.find mine tbl' = Some self
  ∧ (∀ t sk k, (t, sk, k) ≠ (tsd_thread_id self, tsd_skill self, tsd_key self) →
               List.find (tsd_is t sk k) tbl' = List.find (tsd_is t sk k) tbl)
  ∧ (fun r => (tsd_thread_id r, tsd_skill r, tsd_key r)) <$> tbl'
    = ((fun r => (tsd_thread_id r, tsd_skill r, tsd_key r)) <$> tbl)
      ++ (match List.find mine tbl with
          | Some _ => []
          | None => [(tsd_thread_id self, tsd_skill self, tsd_key self)]
          end).
Proof.
  intros mine tbl'. subst tbl'.
  assert (mine self = true) as Hself by (by apply tsd_is_spec).
  destruct (List.find mine tbl) as [r|] eqn:Hfind.
  - split_and!.
    + rewrite find_fmap_stable.
      * rewrite Hfind. cbn. apply List.find_some in Hfind as [_ Hr].
        rewrite Hr. apply tsd_is_spec in Hr. injection Hr as -> -> ->.
        by destruct self.
      * intros x. destruct (mine x) eqn:Hx; [|done]. exact Hx.
    + intros a sk k Hne. rewrite find_fmap_stable.
      * destruct (List.find (tsd_is a sk k) tbl) as [x|] eqn:Hx; [|done].
        cbn. apply List.find_some in Hx as [_ Hx].
        destruct (mine x) eqn:Hm; [|done].
        apply tsd_is_spec in Hx. apply tsd_is_spec in Hm. congruence.
      * intros x. by destruct (mine x).
    + rewrite app_nil_r, <- list_fmap_compose. apply list_fmap_ext.
      intros i x _. cbn. by destruct (mine x).
  - split_and!.
    + by rewrite find_snoc, Hfind, Hself.
    + intros a sk k Hne. rewrite find_snoc.
      destruct (List.find (tsd_is a sk k) tbl); [done|].
      destruct (tsd_is a sk k self) eqn:Hx; [|done].
      apply tsd_is_spec in Hx. congruence.
    + by rewrite fmap_app.
Qed.

(** X16.  After a save that returned, the first row under the saved primary
    key is exactly the saved record, a get for that key that returns yields
    the saved data, the first row under every other key is as before, and the
    thread table and the checkpoint tables are untouched. *)
Theorem AgentSkillData_save_then_get E self s s1 :
  AgentSkillData_save E self s = (Ok tt, s1) →
  List.find (asd_is (asd_agent_id self) (asd_skill self) (asd_key self))
            (agent_skill_data (committed s1)) = Some self
  ∧ (∀ a sk k, (a, sk, k) ≠ (asd_agent_id self, asd_skill self, asd_key self) →
               List.find (asd_is a sk k) (agent_skill_data (committed s1))
               = List.find (asd_is a sk k) (agent_skill_data (committed s)))
  ∧ thread_skill_data (committed s1) = thread_skill_data (committed s)
  ∧ checkpoint_rows (committed s1) = checkpoint_rows (committed s)
  ∧ (∀ v s2, AgentSkillData_get E (asd_agent_id self) (asd_skill self)
                                (asd_key self) s1 = (Ok v, s2) →
             v = Some (asd_data self)).
Proof.
  rewrite AgentSkillData_save_run. intros Hrun.
  destruct (fault E (round_trips s)); [done|].
  destruct (fault E (S (round_trips s))); [done|].
  injection Hrun as <-.
  destruct (asd_saved self (agent_skill_data (committed s))) as (Hmine & Hother & _).
  assert (List.find (asd_is (asd_agent_id self) (asd_skill self) (asd_key self))
            (agent_skill_data
               (apply_write (committed s)
                  match List.find (asd_is (asd_agent_id self) (asd_skill self)
                                          (asd_key self))
                                  (agent_skill_data (committed s)) with
                  | Some _ => UpdateAgentSkillData (asd_agent_id self)
                                (asd_skill self) (asd_key self) (asd_data self)
                  | None => InsertAgentSkillData self
                  end)) = Some self) as Hfound.
  { cbv zeta in Hmine. by destruct (List.find _ (agent_skill_data (committed s))). }
  split_and!.
  - exact Hfound.
  - intros a sk k Hne. specialize (Hother a sk k Hne). cbv zeta in Hother.
    by destruct (List.find (asd_is (asd_agent_id self) _ _) (agent_skill_data (committed s))).
  - clear. cbn [committed]. destruct (List.find _ _); reflexivity.
  - clear. cbn [committed]. destruct (List.find _ _); reflexivity.
  - intros v s2. rewrite AgentSkillData_get_run. cbn [committed round_trips].
    destruct (fault E _); [done|]. intros [= <- _]. by rewrite Hfound.
Qed.

Lemma AgentSkillData_save_then_get_witness :
  let run := AgentSkillData_save Demo.steady Cases.cursor Demo.stored in
  run.1 = Ok tt
  ∧ List.find (asd_is "A" "twitter" "cursor") (agent_skill_data (committed run.2))
    = Some Cases.cursor
  ∧ List.find (asd_is "B" "twitter" "cursor") (agent_skill_data (committed run.2))
    = Some (mkAgentSkillRow "B" "twitter" "cursor" "2").
Proof.
  intros run.
  assert (AgentSkillData_save Demo.steady Cases.cursor Demo.stored = (Ok tt, run.2))
    as Hrun by reflexivity.
  destruct (AgentSkillData_save_then_get Demo.steady Cases.cursor Demo.stored run.2 Hrun)
    as (Hmine & Hother & _).
  split_and!; [reflexivity | exact Hmine |].
  rewrite (Hother "B" "twitter" "cursor") by discriminate. reflexivity.
Defined.

(** X17.  A save that raises leaves the tables as they were; a save never
    introduces a second row with the same primary key; and a save that returns
    adds exactly one row when a get for the key would have found none and no
    row otherwise. *)
Theorem AgentSkillData_save_keys E self s :
  let run := AgentSkillData_save E self s in
  (∀ e, run.1 = Raise e → committed run.2 = committed s)
  ∧ (asd_keys_unique (committed s) → asd_keys_unique (committed run.2))
  ∧ (run.1 = Ok tt →
     List.length (agent_skill_data (committed run.2))
     = (List.length (agent_skill_data (committed s))
        + match AgentSkillData_get E (asd_agent_id self) (asd_skill self)
                  (asd_key self) s with
          | (Ok (Some _), _) => 0
          | _ => 1
          end)%nat).
Proof.
  cbv zeta. rewrite AgentSkillData_save_run, AgentSkillData_get_run.
  destruct (fault E (round_trips s)); [done|].
  destruct (fault E (S (round_trips s))); [done|].
  cbn [fst snd committed].
  destruct (asd_saved self (agent_skill_data (committed s))) as (_ & _ & Hkeys).
  cbv zeta in Hkeys.
  unfold asd_keys_unique.
  destruct (List.find _ (agent_skill_data (committed s))) as [r|] eqn:Hfind;
    cbv beta iota in Hkeys;
    cbn [apply_write committed agent_skill_data].
  - split_and!; [done| |intros _; rewrite length_fmap; cbn; lia].
    rewrite Hkeys, app_nil_r. done.
  - split_and!; [done| |intros _; rewrite length_app; cbn; lia].
    rewrite Hkeys.
    intros Hnd. apply NoDup_app. split_and!; [done| |apply NoDup_singleton].
    intros key (r & -> & Hr)%list_elem_of_fmap Hkey%list_elem_of_singleton.
    apply list_elem_of_In in Hr. apply (List.find_none _ _ Hfind) in Hr.
    assert (asd_is (asd_agent_id self) (asd_skill self) (asd_key self) r = true)
      by (by apply asd_is_spec). congruence.
Qed.

(** X18.  After a thread-level save that returned, the first row under
    (thread_id, skill, key) is exactly the saved record, agent_id included: a
    save by another agent takes the row over; a get for that key that returns
    yields the saved data, rows under other keys are as before, and the agent
    table and the checkpoint tables are untouched. *)
Theorem ThreadSkillData_save_takes_over E self s s1 :
  ThreadSkillData_save E self s = (Ok tt, s1) →
  List.find (tsd_is (tsd_thread_id self) (tsd_skill self) (tsd_key self))
            (thread_skill_data (committed s1)) = Some self
  ∧ (∀ t sk k, (t, sk, k) ≠ (tsd_thread_id self, tsd_skill self, tsd_key self) →
               List.find (tsd_is t sk k) (thread_skill_data (committed s1))
               = List.find (tsd_is t sk k) (thread_skill_data (committed s)))
  ∧ agent_skill_data (committed s1) = agent_skill_data (committed s)
  ∧ checkpoint_rows (committed s1) = checkpoint_rows (committed s)
  ∧ (∀ v s2, ThreadSkillData_get E (tsd_thread_id self) (tsd_skill self)
                                 (tsd_key self) s1 = (Ok v, s2) →
             v = Some (tsd_data self)).
Proof.
  rewrite ThreadSkillData_save_run. intros Hrun.
  destruct (fault E (round_trips s)); [done|].
  destruct (fault E (S (round_trips s))); [done|].
  injection Hrun as <-.
  destruct (tsd_saved self (thread_skill_data (committed s))) as (Hmine & Hother & _).
  assert (List.find (tsd_is (tsd_thread_id self) (tsd_skill self) (tsd_key self))
            (thread_skill_data
               (apply_write (committed s)
                  match List.find (tsd_is (tsd_thread_id self) (tsd_skill self)
                                          (tsd_key self))
                                  (thread_skill_data (committed s)) with
                  | Some _ => UpdateThreadSkillData (tsd_thread_id self)
                                (tsd_skill self) (tsd_key self) (tsd_data self)
                                (tsd_agent_id self)
                  | None => InsertThreadSkillData self
                  end)) = Some self) as Hfound.
  { cbv zeta in Hmine. by destruct (List.find _ (thread_skill_data (committed s))). }
  split_and!.
  - exact Hfound.
  - intros a sk k Hne. specialize (Hother a sk k Hne). cbv zeta in Hother.
    by destruct (List.find (tsd_is (tsd_thread_id self) _ _) (thread_skill_data (committed s))).
  - clear. cbn [committed]. destruct (List.find _ _); reflexivity.
  - clear. cbn [committed]. destruct (List.find _ _); reflexivity.
  - intros v s2. rewrite ThreadSkillData_get_run. cbn [committed round_trips].
    destruct (fault E _); [done|]. intros [= <- _]. by rewrite Hfound.
Qed.

Lemma ThreadSkillData_save_takes_over_witness :
  let run := ThreadSkillData_save Demo.steady Cases.handover Demo.stored in
  List.find (tsd_is "T2" "enso" "k") (thread_skill_data (committed Demo.stored))
  = Some (mkThreadSkillRow "T2" "enso" "k" "A" "y")
  ∧ run.1 = Ok tt
  ∧ List.find (tsd_is "T2" "enso" "k") (thread_skill_data (committed run.2))
    = Some Cases.handover.
Proof.
  intros run.
  assert (ThreadSkillData_save Demo.steady Cases.handover Demo.stored = (Ok tt, run.2))
    as Hrun by reflexivity.
  destruct (ThreadSkillData_save_takes_over Demo.steady Cases.handover Demo.stored
              run.2 Hrun) as (Hmine & _).
  split_and!; [reflexivity | reflexivity | exact Hmine].
Defined.

(** X19.  A thread-level save that raises leaves the tables as they were; it
    never introduces a second row with the same primary key; and when it
    returns it adds exactly one row when a get for the key would have found
    none and no row otherwise. *)
Theorem ThreadSkillData_save_keys E self s :
  let run := ThreadSkillData_save E self s in
  (∀ e, run.1 = Raise e → committed run.2 = committed s)
  ∧ (tsd_keys_unique (committed s) → tsd_keys_unique (committed run.2))
  ∧ (run.1 = Ok tt →
     List.length (thread_skill_data (committed run.2))
     = (List.length (thread_skill_data (committed s))
        + match ThreadSkillData_get E (tsd_thread_id self) (tsd_skill self)
                  (tsd_key self) s with
          | (Ok (Some _), _) => 0
          | _ => 1
          end)%nat).
Proof.
  cbv zeta. rewrite ThreadSkillData_save_run, ThreadSkillData_get_run.
  destruct (fault E (round_trips s)); [done|].
  destruct (fault E (S (round_trips s))); [done|].
  cbn [fst snd committed].
  destruct (tsd_saved self (thread_skill_data (committed s))) as (_ & _ & Hkeys).
  cbv zeta in Hkeys.
  unfold tsd_keys_unique.
  destruct (List.find _ (thread_skill_data (committed s))) as [r|] eqn:Hfind;
    cbv beta iota in Hkeys;
    cbn [apply_write committed thread_skill_data].
  - split_and!; [done| |intros _; rewrite length_fmap; cbn; lia].
    rewrite Hkeys, app_nil_r. done.
  - split_and!; [done| |intros _; rewrite length_app; cbn; lia].
    rewrite Hkeys.
    intros Hnd. apply NoDup_app. split_and!; [done| |apply NoDup_singleton].
    intros key (r & -> & Hr)%list_elem_of_fmap Hkey%list_elem_of_singleton.
    apply list_elem_of_In in Hr. apply (List.find_none _ _ Hfind) in Hr.
    assert (tsd_is (tsd_thread_id self) (tsd_skill self) (tsd_key self) r = true)
      by (by apply tsd_is_spec). congruence.
Qed.

(** X20.  A get changes neither the tables nor the log, however it ends; when
    it returns, it returns None exactly when no row has the key, and when
    primary keys are unique it returns the data of the row that has the key. *)
Theorem AgentSkillData_get_reads E a sk k s :
  let run := AgentSkillData_get E a sk k s in
  committed run.2 = committed s ∧ db_log run.2 = db_log s
  ∧ ∀ v, run.1 = Ok v →
         (v = None ↔ ∀ r, r ∈ agent_skill_data (committed s) →
                          (asd_agent_id r, asd_skill r, asd_key r) ≠ (a, sk, k))
         ∧ (asd_keys_unique (committed s) →
            ∀ r, r ∈ agent_skill_data (committed s) →
                 (asd_agent_id r, asd_skill r, asd_key r) = (a, sk, k) →
                 v = Some (asd_data r)).
Proof.
  cbv zeta. rewrite AgentSkillData_get_run. cbn [fst snd committed db_log].
  split_and!; [done..|]. intros v Hv.
  destruct (fault E (round_trips s)); [done|]. injection Hv as <-. split.
  - destruct (List.find _ _) as [r|] eqn:Hfind; cbn; split; try done.
    + intros Hall. apply List.find_some in Hfind as [Hin Hr].
      apply list_elem_of_In in Hin. apply asd_is_spec in Hr. by destruct (Hall r Hin).
    + intros _ r Hin Hr. apply list_elem_of_In in Hin.
      apply (List.find_none _ _ Hfind) in Hin. apply asd_is_spec in Hr. congruence.
  - intros Hnd r Hin Hr.
    rewrite (find_unique (fun r => (asd_agent_id r, asd_skill r, asd_key r))
               (asd_is a sk k) _ r); try done.
    + by apply asd_is_spec.
    + intros y Hy%asd_is_spec. congruence.
Qed.

(** X21.  A thread-level get changes neither the tables nor the log, however
    it ends; when it returns, it returns None exactly when no row has the key,
    and when primary keys are unique it returns the data of the row that has
    the key. *)
Theorem ThreadSkillData_get_reads E t sk k s :
  let run := ThreadSkillData_get E t sk k s in
  committed run.2 = committed s ∧ db_log run.2 = db_log s
  ∧ ∀ v, run.1 = Ok v →
         (v = None ↔ ∀ r, r ∈ thread_skill_data (committed s) →
                          (tsd_thread_id r, tsd_skill r, tsd_key r) ≠ (t, sk, k))
         ∧ (tsd_keys_unique (committed s) →
            ∀ r, r ∈ thread_skill_data (committed s) →
                 (tsd_thread_id r, tsd_skill r, tsd_key r) = (t, sk, k) →
                 v = Some (tsd_data r)).
Proof.
  cbv zeta. rewrite ThreadSkillData_get_run. cbn [fst snd committed db_log].
  split_and!; [done..|]. intros v Hv.
  destruct (fault E (round_trips s)); [done|]. injection Hv as <-. split.
  - destruct (List.find _ _) as [r|] eqn:Hfind; cbn; split; try done.
    + intros Hall. apply List.find_some in Hfind as [Hin Hr].
      apply list_elem_of_In in Hin. apply tsd_is_spec in Hr. by destruct (Hall r Hin).
    + intros _ r Hin Hr. apply list_elem_of_In in Hin.
      apply (List.find_none _ _ Hfind) in Hin. apply tsd_is_spec in Hr. congruence.
  - intros Hnd r Hin Hr.
    rewrite (find_unique (fun r => (tsd_thread_id r, tsd_skill r, tsd_key r))
               (tsd_is t sk k) _ r); try done.
    + by apply tsd_is_spec.
    + intros y Hy%tsd_is_spec. congruence.
Qed.

Lemma clean_data_run E (st : Statement) s s1 :
  match st with DeleteCheckpointsLike _ _ => False | _ => True end →
  with_session E (fun db => bind (execute E db st) (fun db => ret (tt, db))) s
  = (Ok tt, s1) →
  committed s1 = if exit_commits E then apply_statement (committed s) st
                 else committed s.
Proof.
  intros Hst. unfold with_session, execute, commit, round_trip, bind, modify, ret.
  destruct (fault E (round_trips s)); [done|].
  destruct st; try done; cbn; destruct (exit_commits E); cbn;
    try (intros [= <-]; done);
    (destruct (fault E (S (round_trips s))); [done|]; by intros [= <-]).
Qed.

Lemma find_filter_keep {A} (Q : A → bool) (P : A → Prop) `{!∀ x, Decision (P x)}
  (l : list A) (x : A) :
  List.find Q l = Some x → P x → List.find Q (filter P l) = Some x.
Proof.
  intros Hfind HP. induction l as [|y l IH]; [done|].
  cbn [List.find] in Hfind. rewrite filter_cons.
  destruct (Q y) eqn:HQ.
  - injection Hfind as ->. rewrite decide_True by done. cbn [List.find]. by rewrite HQ.
  - destruct (decide (P y)); [cbn [List.find]; rewrite HQ|]; by apply IH.
Qed.

Lemma find_filter_none {A} (Q : A → bool) (P : A → Prop) `{!∀ x, Decision (P x)}
  (l : list A) :
  (∀ x, Q x = true → ¬ P x) → List.find Q (filter P l) = None.
Proof.
  intros HQ. induction l as [|y l IH]; [done|].
  rewrite filter_cons. destruct (decide (P y)) as [HP|]; [|done].
  cbn [List.find]. destruct (Q y) eqn:Hy; [|done]. by destruct (HQ y Hy).
Qed.

(** X22.  AgentSkillData.clean_data never commits itself: when it returns and
    sessions commit as their block ends, every later get for that agent that
    returns yields None; when sessions do not, the tables are exactly as
    before. *)
Theorem clean_data_then_get E agent_id s s1 :
  AgentSkillData.clean_data E agent_id s = (Ok tt, s1) →
  if exit_commits E
  then ∀ skill key v s2,
         AgentSkillData_get E agent_id skill key s1 = (Ok v, s2) → v = None
  else committed s1 = committed s.
Proof.
  intros Hrun. apply clean_data_run in Hrun; [|done].
  destruct (exit_commits E); [|done].
  intros skill key v s2. rewrite AgentSkillData_get_run, Hrun.
  destruct (fault E _); [done|]. intros [= <- _].
  cbn [apply_statement agent_skill_data]. rewrite find_filter_none; [done|].
  intros r Hr%asd_is_spec Hne. apply Hne. congruence.
Qed.

Lemma clean_data_then_get_witness :
  let run := AgentSkillData.clean_data Demo.committing "A" Demo.stored in
  run.1 = Ok tt
  ∧ ∀ skill key v s2,
      AgentSkillData_get Demo.committing "A" skill key run.2 = (Ok v, s2) → v = None.
Proof.
  intros run. split; [reflexivity|].
  exact (clean_data_then_get Demo.committing "A" Demo.stored run.2 eq_refl).
Defined.

(** X23.  A thread row saved by one agent survives the cleaning of any other
    agent's thread data, also of the agent that owned the key before the save:
    after save and then clean_data for a different agent, the first row under
    the key is still the saved record. *)
Theorem thread_row_outlives_former_owner E self former thread s s1 s2 :
  ThreadSkillData_save E self s = (Ok tt, s1) →
  ThreadSkillData.clean_data E former thread s1 = (Ok tt, s2) →
  former ≠ tsd_agent_id self →
  List.find (tsd_is (tsd_thread_id self) (tsd_skill self) (tsd_key self))
            (thread_skill_data (committed s2)) = Some self.
Proof.
  intros Hsave Hclean Hne.
  assert (List.find (tsd_is (tsd_thread_id self) (tsd_skill self) (tsd_key self))
            (thread_skill_data (committed s1)) = Some self) as Hfound.
  { revert Hsave. rewrite ThreadSkillData_save_run.
    destruct (fault E (round_trips s)); [done|].
    destruct (fault E (S (round_trips s))); [done|]. intros [= <-].
    destruct (tsd_saved self (thread_skill_data (committed s))) as (Hmine & _).
    cbv zeta in Hmine. cbn [committed].
    by destruct (List.find _ (thread_skill_data (committed s))). }
  unfold ThreadSkillData.clean_data in Hclean.
  destruct (Py.truthy thread && negb (String.eqb thread ""));
    apply clean_data_run in Hclean; try done; rewrite Hclean;
    (destruct (exit_commits E); [|done]);
    cbn [apply_statement thread_skill_data];
    (apply find_filter_keep; [done|]).
  - intros [? _]. congruence.
  - congruence.
Qed.

Lemma thread_row_outlives_former_owner_witness :
  let saved := ThreadSkillData_save Demo.committing Cases.handover Demo.stored in
  let cleaned := ThreadSkillData.clean_data Demo.committing "A" "" saved.2 in
  saved.1 = Ok tt ∧ cleaned.1 = Ok tt
  ∧ List.find (tsd_is "T2" "enso" "k") (thread_skill_data (committed cleaned.2))
    = Some Cases.handover.
Proof.
  intros saved cleaned. split_and!; [reflexivity | reflexivity |].
  apply (thread_row_outlives_former_owner Demo.committing Cases.handover "A" ""
           Demo.stored saved.2 cleaned.2); [reflexivity | reflexivity | discriminate].
Defined.


(** ** [EnsoGetTokens._run]: the request and the answer *)

(** X24.  The request goes to base_url/api/v1/tokens; its parameters always
    hold page = 1 and includeMetadata = [true]; chainId, protocolSlug and type
    are sent exactly when the argument is truthy (a chain id of 0 or an empty
    string is dropped) and then carry it unchanged; underlyingTokens is a
    non-empty string as it is or a non-empty list joined by commas, and is
    absent for anything else; no parameter name occurs twice and there is no
    other parameter. *)
Theorem enso_request_params (self : EnsoGetTokens.Tool) (kwargs : PyDict) :
  let req := EnsoGetTokens.request self kwargs in
  let arg k := dict_get_default kwargs k PyNone in
  let sent k := if EnsoGetTokens.truthy_val (arg k) then Some (arg k) else None in
  EnsoGetTokens.url req = (EnsoGetTokens.base_url self ++ "/api/v1/tokens")%string
  ∧ Py.dict_get (EnsoGetTokens.params req) "page" = Some (PyInt 1)
  ∧ Py.dict_get (EnsoGetTokens.params req) "includeMetadata" = Some (PyStr "true")
  ∧ Py.dict_get (EnsoGetTokens.params req) "chainId" = sent "chain_id"
  ∧ Py.dict_get (EnsoGetTokens.params req) "protocolSlug" = sent "protocol_slug"
  ∧ Py.dict_get (EnsoGetTokens.params req) "type" = sent "token_type"
  ∧ Py.dict_get (EnsoGetTokens.params req) "underlyingTokens"
    = match arg "underlying_tokens" with
      | PyStr s => if Py.truthy s then Some (PyStr s) else None
      | PyStrList (x :: l) => Some (PyStr (Py.join "," (x :: l)))
      | _ => None
      end
  ∧ NoDup (Py.keys (EnsoGetTokens.params req))
  ∧ Py.keys (EnsoGetTokens.params req)
    ⊆ ["page"; "includeMetadata"; "chainId"; "protocolSlug"; "type";
       "underlyingTokens"].
Proof.
  cbv zeta. unfold EnsoGetTokens.request, EnsoGetTokens.given.
  generalize (dict_get_default kwargs "chain_id" PyNone) as v1.
  generalize (dict_get_default kwargs "protocol_slug" PyNone) as v2.
  generalize (dict_get_default kwargs "token_type" PyNone) as v3.
  generalize (dict_get_default kwargs "underlying_tokens" PyNone) as v4.
  intros v4 v3 v2 v1.
  destruct (EnsoGetTokens.truthy_val v1), (EnsoGetTokens.truthy_val v2),
    (EnsoGetTokens.truthy_val v3);
    destruct v4 as [|s|z|[|x l]]; cbn [EnsoGetTokens.truthy_val];
    try destruct (Py.truthy s); try destruct (negb (z =? 0));
    cbn -[Py.join];
    (split_and!;
     [ reflexivity..
     | apply (bool_decide_unpack _); vm_compute; exact I
     | intros k Hk;
       repeat (apply elem_of_cons in Hk as [->|Hk];
               [apply (bool_decide_unpack _); vm_compute; exact I|]);
       by apply elem_of_nil in Hk ]).
Qed.

(** X25.  The answer of _run has a result exactly when it has no error; a
    result is a sublist of the items of the response, in their order, and
    holds exactly the items that have a non-zero yield or whose symbol is one
    of the tool's main tokens. *)
Theorem enso_run_output (self : EnsoGetTokens.Tool) (kwargs : PyDict) :
  let out := EnsoGetTokens._run self kwargs in
  (EnsoGetTokens.res out = None ↔ EnsoGetTokens.error out ≠ None)
  ∧ ∀ tokens,
      EnsoGetTokens.res out = Some tokens →
      ∃ items,
        EnsoGetTokens.client_get self (EnsoGetTokens.request self kwargs)
        = EnsoGetTokens.Data items
        ∧ tokens `sublist_of` items
        ∧ ∀ item, item ∈ tokens ↔
                  item ∈ items
                  ∧ (EnsoGetTokens.has_apy item = true
                     ∨ EnsoGetTokens.is_main self item = true).
Proof.
  cbv zeta. unfold EnsoGetTokens._run.
  destruct (EnsoGetTokens.client_get self _) as [m|m|m|items];
    cbn [EnsoGetTokens.res EnsoGetTokens.error]; (split; [by split|]); try done.
  intros tokens [= <-]. exists items. split_and!; [done| |].
  - clear. induction items as [|x l IH]; cbn [List.filter]; [done|].
    destruct (_ || _); by constructor.
  - intros item. rewrite list_elem_of_In, List.filter_In, <- list_elem_of_In.
    by rewrite orb_true_iff.
Qed.


(** ** [TwitterGetTimeline._arun] *)
Lemma truthy_dict_default (o : option PyDict) :
  (if truthy_dict o then default [] o else []) = default [] o.
Proof. by destruct o as [[|]|]. Qed.

Ltac timeline_oracle t :=
  destruct t as [?|?e] eqn:?;
  [| match goal with
     | |- context [is_Exception ?e] => destruct (is_Exception e) eqn:?
     end ].

Ltac timeline_runs self :=
  unfold TwitterGetTimeline._arun, TwitterGetTimeline.rate_limited,
    TwitterGetTimeline.fetch, TwitterGetTimeline.emit,
    try_except, bind, lift, modify, ret;
  rewrite ?truthy_dict_default;
  destruct (TwitterGetTimeline.use_key self) eqn:?; cbn [negb];
  try (timeline_oracle (TwitterGetTimeline.check_rate_limit self 3 (60 * 24));
       [match goal with p : (bool * string)%type |- _ => destruct p as [[|] ?] end|..]);
  try timeline_oracle (TwitterGetTimeline.get_agent_skill_data self
                         (TwitterGetTimeline.agent_id self)
                         TwitterGetTimeline.name "last");
  try (timeline_oracle (TwitterGetTimeline.get_client self);
       [match goal with c : option nat |- _ => destruct c end|..]);
  try (destruct (TwitterGetTimeline.self_id self) as [[|? ?]|] eqn:?;
       cbn [Py.truthy_opt Py.truthy negb default from_option id]);
  try (match goal with
       | |- context [TwitterGetTimeline.get_users_tweets self ?a ?b ?c ?d ?e] =>
           timeline_oracle (TwitterGetTimeline.get_users_tweets self a b c d e)
       end);
  try (match goal with
       | |- context [TwitterGetTimeline.process_tweets_response self ?t] =>
           timeline_oracle (TwitterGetTimeline.process_tweets_response self t)
       end);
  try (match goal with
       | |- context [truthy_dict (TwitterGetTimeline.meta ?t)
                     && TwitterGetTimeline.truthy_entry ?v] =>
           destruct (truthy_dict (TwitterGetTimeline.meta t)
                     && TwitterGetTimeline.truthy_entry v) eqn:?
       end);
  try (match goal with
       | |- context [TwitterGetTimeline.save_agent_skill_data self ?a ?b ?c ?d] =>
           timeline_oracle (TwitterGetTimeline.save_agent_skill_data self a b c d)
       end);
  cbn [fst snd]; rewrite ?truthy_dict_default in *; rewrite <- ?app_assoc; cbn [app].


(** X26.  The synchronous entry point of the timeline tool always raises and
    does nothing else. The asynchronous one never lets an Exception escape: it
    raises only what is not an Exception, and what it did up to then stays on
    record; an answer with an error carries no tweets; and an answer without
    an error carries exactly what process_tweets_response made of a timeline
    that the client returned for the tool's own user id, with max_results 100
    when a cursor was sent and the caller's value otherwise. *)
Theorem timeline_errors_are_answers (self : TwitterGetTimeline.Tool)
  (max_results : Z) (trace : list TwitterGetTimeline.Event) :
  let run := TwitterGetTimeline._arun self max_results trace in
  TwitterGetTimeline._run self max_results trace
  = (Raise (OtherException "Use _arun instead"), trace)
  ∧ trace `prefix_of` run.2
  ∧ match run.1 with
    | Raise e => is_Exception e = false
    | Ok out =>
        match TwitterGetTimeline.error out with
        | Some _ => TwitterGetTimeline.tweets out = []
        | None =>
            ∃ client id since_id timeline,
              TwitterGetTimeline.get_client self = Ok (Some client)
              ∧ TwitterGetTimeline.self_id self = Some id
              ∧ TwitterGetTimeline.get_users_tweets self client
                  (TwitterGetTimeline.use_key self) id
                  (if TwitterGetTimeline.truthy_entry since_id
                   then 100 else max_results) since_id
                = Ok timeline
              ∧ TwitterGetTimeline.process_tweets_response self timeline
                = Ok (TwitterGetTimeline.tweets out)
        end
    end.
Proof.
  cbv zeta.
  timeline_runs self;
    cbn [TwitterGetTimeline.error TwitterGetTimeline.tweets];
    (split; [reflexivity|]); (split; [by eexists|]); try done; eauto 10.
Qed.

(** X27.  One call checks the rate limit (3 requests per 1440) exactly once
    when not using OAuth keys and never when using them, and asks for the
    timeline at most once; when it asks nothing and returns, the answer
    carries an error; when it asks, the rate limit check (if made) said not
    limited, the user id is the tool's non-empty self_id, since_id is the
    since_id of the stored [last] record, and max_results is 100 when that
    cursor is truthy and the caller's value otherwise. *)
Theorem timeline_request_discipline (self : TwitterGetTimeline.Tool)
  (max_results : Z) (trace : list TwitterGetTimeline.Event) :
  let run := TwitterGetTimeline._arun self max_results trace in
  ∃ added,
    run.2 = trace ++ added
    ∧ rate_checks added
      = (if TwitterGetTimeline.use_key self then [] else [(3, 1440)])
    ∧ match timeline_requests added with
      | [] =>
          match run.1 with
          | Ok out => TwitterGetTimeline.error out ≠ None
          | Raise _ => True
          end
      | [(user_auth, id, sent_max, since_id)] =>
          user_auth = TwitterGetTimeline.use_key self
          ∧ TwitterGetTimeline.self_id self = Some id ∧ id ≠ ""%string
          ∧ (TwitterGetTimeline.use_key self = false →
             ∃ text, TwitterGetTimeline.check_rate_limit self 3 1440
                     = Ok (false, text))
          ∧ ∃ last,
              TwitterGetTimeline.get_agent_skill_data self
                (TwitterGetTimeline.agent_id self) TwitterGetTimeline.name "last"
              = Ok last
              ∧ since_id = Py.dict_get (default [] last) "since_id"
              ∧ sent_max = if TwitterGetTimeline.truthy_entry since_id
                           then 100 else max_results
      | _ => False
      end.
Proof.
  cbv zeta.
  timeline_runs self; eexists; (split; [reflexivity|]);
    cbn [rate_checks timeline_requests omap list_omap
         TwitterGetTimeline.error];
    (split; [reflexivity|]); try done; split_and!; try done; eauto 10.
Qed.

Lemma newest_id_given (m : option PyDict) :
  truthy_dict m
  && TwitterGetTimeline.truthy_entry (Py.dict_get (default [] m) "newest_id") = true →
  ∃ newest, Py.dict_get (default [] m) "newest_id" = Some newest
            ∧ EnsoGetTokens.truthy_val newest = true
            ∧ dict_get_default (default [] m) "newest_id" PyNone = newest.
Proof.
  intros [_ H]%andb_prop. unfold dict_get_default.
  destruct (Py.dict_get _ _) as [v|]; [|done]. by exists v.
Qed.

(** X28.  One call writes to the skill store at most once, and only under
    (agent_id, [twitter_get_timeline], [last]) after a timeline request that
    returned a truthy newest_id: the record written is the stored [last]
    record with since_id set to that newest_id and every other entry kept; a
    call that answers without error and wrote nothing got a timeline without a
    truthy newest_id. *)
Theorem timeline_cursor_saved (self : TwitterGetTimeline.Tool)
  (max_results : Z) (trace : list TwitterGetTimeline.Event) :
  let run := TwitterGetTimeline._arun self max_results trace in
  ∃ added,
    run.2 = trace ++ added
    ∧ match timeline_saves added with
      | [] =>
          ∀ out, run.1 = Ok out → TwitterGetTimeline.error out = None →
                 ∃ client id since_id sent_max timeline,
                   TwitterGetTimeline.get_users_tweets self client
                     (TwitterGetTimeline.use_key self) id sent_max since_id
                   = Ok timeline
                   ∧ timeline_requests added
                     = [(TwitterGetTimeline.use_key self, id, sent_max, since_id)]
                   ∧ truthy_dict (TwitterGetTimeline.meta timeline)
                     && TwitterGetTimeline.truthy_entry
                          (Py.dict_get (default [] (TwitterGetTimeline.meta timeline))
                                       "newest_id") = false
      | [(agent_id, skill, key, data)] =>
          agent_id = TwitterGetTimeline.agent_id self
          ∧ skill = "twitter_get_timeline"%string ∧ key = "last"%string
          ∧ ∃ last client id since_id sent_max timeline newest,
              TwitterGetTimeline.get_agent_skill_data self
                (TwitterGetTimeline.agent_id self) TwitterGetTimeline.name "last"
              = Ok last
              ∧ timeline_requests added
                = [(TwitterGetTimeline.use_key self, id, sent_max, since_id)]
              ∧ TwitterGetTimeline.get_users_tweets self client
                  (TwitterGetTimeline.use_key self) id sent_max since_id
                = Ok timeline
              ∧ Py.dict_get (default [] (TwitterGetTimeline.meta timeline))
                            "newest_id" = Some newest
              ∧ EnsoGetTokens.truthy_val newest = true
              ∧ data = Py.dict_set (default [] last) "since_id" newest
              ∧ Py.dict_get data "since_id" = Some newest
              ∧ ∀ other, other ≠ "since_id"%string →
                         Py.dict_get data other
                         = Py.dict_get (default [] last) other
      | _ => False
      end.
Proof.
  cbv zeta.
  timeline_runs self; eexists; (split; [reflexivity|]);
    cbn [timeline_saves timeline_requests omap list_omap
         TwitterGetTimeline.error];
    try done;
    try (intros out [= <-] Hnone; cbn in Hnone; first [ discriminate | by eauto 15 ]);
    (split_and!; try done;
     match goal with
     | H : _ && _ = true |- _ =>
         apply newest_id_given in H as (newest & Hnew & Htruthy & ->)
     end;
     eexists _, _, _, _, _, _, newest;
     split_and!; try done; try eassumption;
     [ by rewrite dict_get_set, decide_True
     | intros other Hother; by rewrite dict_get_set, decide_False ]).
Qed.
